(** * extrabol: a shallow embedding of [extrabol/extrabol.py]

    The pipeline turns sparse multi-band photometry into a dense light
    curve, per-epoch blackbody parameters and a bolometric luminosity
    table.  The functions of [extrabol.py] are embedded as Rocq functions
    with the same names.

    Numbers.  The program computes with IEEE doubles in numpy arrays.
    Finite doubles are idealised as real numbers ([R]), so rounding,
    overflow and infinities are not modelled; where the program produces
    [nan] (the square roots and logarithms of numpy, the blackbody fitter
    and everything downstream of it) values have type [npfloat], a real
    number or [NaN].  Arrays are lists; a two-dimensional array is the
    list of its rows.

    Exceptions.  A function that can raise returns a [result].

    External code.  [scipy.optimize.curve_fit], the [george] Gaussian
    process and the SVO filter index are not part of the repository; they
    are arguments of the functions that call them.  So are [np.load]
    and [scipy.interpolate.RectBivariateSpline] in [generate_template];
    [interpolate] and [test] take the template generator as an
    argument. *)

From Stdlib Require Import Reals Lra Lia List Ascii String Bool Arith Permutation Sorted.
Import ListNotations.
Open Scope string_scope.
Open Scope R_scope.

(** ** Exceptions *)

Inductive error : Type :=
| SysExit (msg : string)
| ValueError (msg : string)
| IndexError (msg : string)
| RuntimeError (msg : string).

Inductive result (A : Type) : Type :=
| Ok (a : A)
| Raise (e : error).

Arguments Ok {A} a.
Arguments Raise {A} e.

Definition bind {A B : Type} (m : result A) (k : A -> result B) : result B :=
  match m with
  | Ok a => k a
  | Raise e => Raise e
  end.

Notation "x <- m ;; k" := (bind m (fun x => k))
  (at level 61, m at next level, right associativity).
Notation "' pat <- m ;; k" := (bind m (fun x => match x with pat => k end))
  (at level 61, pat pattern, m at next level, right associativity).

Fixpoint mapM {A B : Type} (f : A -> result B) (xs : list A) : result (list B) :=
  match xs with
  | [] => Ok []
  | x :: xs' =>
      y <- f x ;;
      ys <- mapM f xs' ;;
      Ok (y :: ys)
  end.

(** ** Comparisons on reals, as booleans *)

Definition Rleb (x y : R) : bool := if Rle_dec x y then true else false.
Definition Rltb (x y : R) : bool := if Rlt_dec x y then true else false.
Definition Reqb (x y : R) : bool := if Req_dec_T x y then true else false.

(** ** Doubles that may be [nan] *)

Inductive npfloat : Type :=
| Fin (r : R)
| NaN.

Module npf.

Definition lift1 (f : R -> R) (x : npfloat) : npfloat :=
  match x with
  | Fin a => Fin (f a)
  | NaN => NaN
  end.

(** An arithmetic operation with a [nan] operand gives [nan]. *)
Definition lift2 (f : R -> R -> R) (x y : npfloat) : npfloat :=
  match x, y with
  | Fin a, Fin b => Fin (f a b)
  | _, _ => NaN
  end.

Definition mul : npfloat -> npfloat -> npfloat := lift2 Rmult.
Definition add : npfloat -> npfloat -> npfloat := lift2 Rplus.
Definition div : npfloat -> npfloat -> npfloat := lift2 Rdiv.
Definition neg : npfloat -> npfloat := lift1 Ropp.
Definition abs : npfloat -> npfloat := lift1 Rabs.
Definition pow (x : npfloat) (n : nat) : npfloat := lift1 (fun a => a ^ n) x.

(** [np.sqrt]: [nan] on a negative argument. *)
Definition sqrt (x : npfloat) : npfloat :=
  match x with
  | Fin a => if Rltb a 0 then NaN else Fin (R_sqrt.sqrt a)
  | NaN => NaN
  end.

(** [np.log10]: [nan] on a negative argument; the [-inf] numpy returns
    at 0 is not told apart from [nan]. *)
Definition log10 (x : npfloat) : npfloat :=
  match x with
  | Fin a => if Rltb 0 a then Fin (ln a / ln 10) else NaN
  | NaN => NaN
  end.

End npf.

(** ** The numpy operations the program uses *)

Module np.

(** [np.min]: raises [ValueError] on an empty array. *)
Definition min (xs : list R) : result R :=
  match xs with
  | [] => Raise (ValueError "zero-size array to reduction operation minimum which has no identity")
  | x :: xs' => Ok (fold_left Rmin xs' x)
  end.

(** [np.max]. *)
Definition max (xs : list R) : result R :=
  match xs with
  | [] => Raise (ValueError "zero-size array to reduction operation maximum which has no identity")
  | x :: xs' => Ok (fold_left Rmax xs' x)
  end.

Definition sum (xs : list R) : R := fold_left Rplus xs 0.

(** [np.mean].  On an empty array numpy returns [nan] with a warning; the
    callers below never reach it with an empty array. *)
Definition mean (xs : list R) : R := sum xs / INR (List.length xs).

(** [np.log10] on a positive argument. *)
Definition log10 (x : R) : R := ln x / ln 10.

(** [arr[gis]] for an integer index array: [IndexError] out of range. *)
Fixpoint take {A : Type} (arr : list A) (gis : list nat) : result (list A) :=
  match gis with
  | [] => Ok []
  | i :: gis' =>
      match nth_error arr i with
      | Some x => rest <- take arr gis' ;; Ok (x :: rest)
      | None => Raise (IndexError "index out of bounds")
      end
  end.

(** The loop
<<
    gis = []
    for i in np.arange(len(xs)):
        if p(xs[i]): gis.append(i)
>>
    and [np.where(p(xs))[0]]; [i] is the index of the head of [xs]. *)
Fixpoint where_ {A : Type} (p : A -> bool) (xs : list A) (i : nat) : list nat :=
  match xs with
  | [] => []
  | x :: xs' => if p x then i :: where_ p xs' (S i) else where_ p xs' (S i)
  end.

(** Python's [sorted(xs)], by insertion. *)
Fixpoint insert (x : R) (xs : list R) : list R :=
  match xs with
  | [] => [x]
  | y :: ys => if Rleb x y then x :: xs else y :: insert x ys
  end.

Definition sorted (xs : list R) : list R := fold_right insert [] xs.

(** [np.unique(xs, return_index=True)]: the distinct values in ascending
    order, each with the index of its first occurrence in [xs].  The
    accumulator [us] is ascending; [i] is the index of [x] in [xs]. *)
Fixpoint insert_unique (x : R) (i : nat) (us : list (R * nat)) : list (R * nat) :=
  match us with
  | [] => [(x, i)]
  | (u, j) :: us' =>
      if Rltb x u then (x, i) :: us
      else if Reqb x u then us
      else (u, j) :: insert_unique x i us'
  end.

Fixpoint unique_from (xs : list R) (i : nat) (us : list (R * nat)) : list (R * nat) :=
  match xs with
  | [] => us
  | x :: xs' => unique_from xs' (S i) (insert_unique x i us)
  end.

Definition unique_index (xs : list R) : list R * list nat :=
  let us := unique_from xs 0 [] in (map fst us, map snd us).

Definition unique (xs : list R) : list R := fst (unique_index xs).

(** [np.unique] on an array of strings. *)
Fixpoint insert_unique_str (x : string) (us : list string) : list string :=
  match us with
  | [] => [x]
  | u :: us' =>
      if String.ltb x u then x :: us
      else if String.eqb x u then us
      else u :: insert_unique_str x us'
  end.

Definition unique_str (xs : list string) : list string :=
  fold_left (fun us x => insert_unique_str x us) xs [].

(** [np.argmin]: the first index of the least entry; [ValueError] on an
    empty sequence. *)
Fixpoint argmin_from (best_i : nat) (best : R) (i : nat) (xs : list R) : nat :=
  match xs with
  | [] => best_i
  | x :: xs' =>
      if Rltb x best then argmin_from i x (S i) xs'
      else argmin_from best_i best (S i) xs'
  end.

Definition argmin (xs : list R) : result nat :=
  match xs with
  | [] => Raise (ValueError "attempt to get argmin of an empty sequence")
  | x :: xs' => Ok (argmin_from 0%nat x 1%nat xs')
  end.

(** [xs[i]] for a Python list or an array and one index. *)
Definition item {A : Type} (xs : list A) (i : nat) : result A :=
  match nth_error xs i with
  | Some x => Ok x
  | None => Raise (IndexError "index out of range")
  end.

(** [np.var]: the mean squared deviation from the mean. *)
Definition var (xs : list R) : R :=
  let m := mean xs in mean (map (fun x => (x - m) ^ 2) xs).

End np.

(** ** Module constants (lines 22-27) *)

Definition epsilon : R := 0.0001.
Definition c : R := 2.99792458E10.
Definition sigsb : R := 5.6704e-5.
Definition h : R := 6.62607E-27.
Definition ang_to_cm : R := 1e-8.
Definition k_B : R := 1.38064852E-16.

(** ** [chi_square] (lines 56-61)

    The loop runs over [range(len(dat))]; [model[i]] or [uncertainty[i]]
    past the end raises [IndexError]; longer ones are cut off. *)

Fixpoint chi_square_from (chi2 : R) (dat model uncertainty : list R) : result R :=
  match dat with
  | [] => Ok chi2
  | d :: dat' =>
      match model, uncertainty with
      | m :: model', u :: uncertainty' =>
          chi_square_from (chi2 + ((m - d) / u) ^ 2) dat' model' uncertainty'
      | _, _ => Raise (IndexError "index out of bounds")
      end
  end.

Definition chi_square (dat model uncertainty : list R) : result R :=
  chi_square_from 0 dat model uncertainty.

(** ** [read_in_photometry] (lines 64-167) *)

(** One data row of the input file: time, magnitude, uncertainty, filter
    identifier and magnitude system. *)
Record row : Type := mk_row {
  row_time : R;
  row_mag : R;
  row_err : R;
  row_filter : string;
  row_system : string
}.

(** One entry of the SVO filter index, with the zero point already read
    as a number ([float(zpts_all[...])]). *)
Record svo_filter : Type := mk_svo {
  filterID : string;
  WavelengthEff : R;
  WidthEff : R;
  ZeroPoint : R
}.

(** The light-curve array [lc = np.vstack((phases, fluxes, wv_effs/1000.,
    errs, width_effs))], one field per stacked row. *)
Record lightcurve : Type := mk_lc {
  lc_phases : list R;
  lc_fluxes : list R;
  lc_wv_effs : list R;
  lc_errs : list R;
  lc_width_effs : list R
}.

(** [np.where(filterIDs == ufilt)[0]] followed by [...[gind][0]]: the
    first index entry with that identifier. *)
Definition svo_lookup (index : list svo_filter) (ufilt : string) : option svo_filter :=
  find (fun e => String.eqb (filterID e) ufilt) index.

(** Lines 99-108. *)
Fixpoint resolve_filters (index : list svo_filter) (filts : list string)
  : result (list R * list R * list string) :=
  match filts with
  | [] => Ok ([], [], [])
  | ufilt :: rest =>
      match svo_lookup index ufilt with
      | None => Raise (SysExit (String.append "Cannot find " (String.append ufilt " in SVO.")))
      | Some e =>
          ' (wv_effs, width_effs, my_filters) <- resolve_filters index rest ;;
          Ok (WavelengthEff e :: wv_effs, WidthEff e :: width_effs, ufilt :: my_filters)
      end
  end.

(** Lines 114-118. *)
Definition zero_point (index : list svo_filter) (datapoint : row) : result R :=
  if String.eqb (row_system datapoint) "AB" then Ok 3631.00
  else match svo_lookup index (row_filter datapoint) with
       | Some e => Ok (ZeroPoint e)
       | None => Raise (IndexError "index 0 is out of bounds for axis 0 with size 0")
       end.

(** Line 122: the log-flux scale anchored at 3631 Jy. *)
Definition log_flux (flux : R) : R := 2.5 * (np.log10 flux - np.log10 3631.00).

(** Lines 113-123, one pass of the loop. *)
Definition row_flux (index : list svo_filter) (dm redshift : R) (datapoint : row) : result R :=
  let mag := row_mag datapoint - dm in
  zpt <- zero_point index datapoint ;;
  let flux := Rpower 10 (mag / -2.5) * zpt * (1 + redshift) in
  Ok (log_flux flux).

(** Line 135, [(1/errs[i]) >= snr].  For [errs[i] = 0] numpy evaluates
    [1/0.0] to [inf], which passes the test. *)
Definition snr_ok (snr err : R) : bool :=
  if Reqb err 0 then true else Rleb snr (1 / err).

(** Line 154. *)
Definition in_window (start end_ phase : R) : bool :=
  Rleb phase end_ && Rleb start phase.

(** [np.loadtxt] returns a one-dimensional array for a file with fewer
    than two data rows, and [photometry_data[:,0]] (line 91) then raises. *)
Definition loadtxt_rows (photometry_data : list row) : result (list row) :=
  if (List.length photometry_data <? 2)%nat
  then Raise (IndexError "too many indices for array")
  else Ok photometry_data.

Definition read_in_photometry (index : list svo_filter) (photometry_data : list row)
    (dm redshift start end_ snr : R)
  : result (lightcurve * R * R * list string) :=
  photometry_data <- loadtxt_rows photometry_data ;;
  let phases := map row_time photometry_data in
  let errs := map row_err photometry_data in
  ' (wv_effs, width_effs, my_filters) <-
      resolve_filters index (map row_filter photometry_data) ;;
  fluxes <- mapM (row_flux index dm redshift) photometry_data ;;
  let wv_corr := np.mean (map (fun w => w / (1 + redshift)) wv_effs) in
  min_flux <- np.min fluxes ;;
  let flux_corr := min_flux - 1.0 in
  let wv_effs := map (fun w => w - wv_corr) wv_effs in
  let fluxes := map (fun f => f - flux_corr) fluxes in
  (* eliminate any data points below threshold snr *)
  let gis := np.where_ (snr_ok snr) errs 0 in
  phases <- np.take phases gis ;;
  fluxes <- np.take fluxes gis ;;
  wv_effs <- np.take wv_effs gis ;;
  errs <- np.take errs gis ;;
  width_effs <- np.take width_effs gis ;;
  my_filters <- np.take my_filters gis ;;
  (* set the first acceptable data point to t=0 *)
  min_phase <- np.min phases ;;
  let phases := map (fun p => p - min_phase) phases in
  (* eliminate any data points outside of specified range *)
  let gis := np.where_ (in_window start end_) phases 0 in
  phases <- np.take phases gis ;;
  fluxes <- np.take fluxes gis ;;
  wv_effs <- np.take wv_effs gis ;;
  errs <- np.take errs gis ;;
  width_effs <- np.take width_effs gis ;;
  my_filters <- np.take my_filters gis ;;
  let lc := mk_lc phases fluxes (map (fun w => w / 1000) wv_effs) errs width_effs in
  Ok (lc, wv_corr, flux_corr, my_filters).

(** ** [fit_template] (lines 244-326) *)

(** The inner [model] (lines 279-284).  [template_to_fit] is the
    [RectBivariateSpline] interpolant: called on the array [time_corr]
    and the scalar [filt] it returns one value per time, which [flatten]
    turns into a one-dimensional array. *)
Definition model (template_to_fit : R -> R -> R)
    (time : list R) (filt A t_c t_s : R) : list R :=
  let time_sorted := np.sorted time in
  let time_corr := map (fun t => t * 1 / t_s + t_c) time_sorted in
  map (fun t => template_to_fit t filt + A) time_corr.

(** The type of [scipy.optimize.curve_fit] as line 295 calls it: the
    function to fit, [xdata], [ydata] and [p0]; it returns [popt] or
    raises. *)
Definition curve_fit3 : Type :=
  (list R -> R -> R -> R -> list R) -> list R -> list R -> R * R * R -> result (R * R * R).

(** Lines 300-303: the chi-square of one parameter set, summed over the
    filters [wv]. *)
Fixpoint param_chi_from (template_to_fit : R -> R -> R) (wv : list R)
    (dat_times dat_fluxes dat_errs : list R) (popt : R * R * R) (param_chi : R)
  : result R :=
  match wv with
  | [] => Ok param_chi
  | filt :: wv' =>
      let '(A, t_c, t_s) := popt in
      let m := model template_to_fit dat_times filt A t_c t_s in
      chi <- chi_square dat_fluxes m dat_errs ;;
      param_chi_from template_to_fit wv' dat_times dat_fluxes dat_errs popt (param_chi + chi)
  end.

(** Lines 276-304, one pass of the loop over [wv]: the fit to the data
    of the filter [wavelength] and the chi-square of its parameters. *)
Definition fit_one_filter (curve_fit : curve_fit3) (template_to_fit : R -> R -> R)
    (wv filts : list R) (wv_corr : R) (flux time errs : list R) (z : R)
    (wavelength : R) : result (R * R * R * R) :=
  let curve_to_fit := fun time A t_c t_s => model template_to_fit time wavelength A t_c t_s in
  let gis := np.where_ (fun f => Reqb (f * 1000 + wv_corr) wavelength) filts 0 in
  dat_fluxes <- np.take flux gis ;;
  dat_times <- np.take time gis ;;
  dat_errs <- np.take errs gis ;;
  popt <- curve_fit curve_to_fit dat_times dat_fluxes (20, 0, 1 + z) ;;
  param_chi <- param_chi_from template_to_fit wv dat_times dat_fluxes dat_errs popt 0 ;;
  let '(A, t_c, t_s) := popt in
  Ok (A, t_c, t_s, param_chi).

(** What [fit_template] returns, by [output_chi] and [output_params]. *)
Inductive fit_template_output : Type :=
| ParamsAndChi (A_opt t_c_opt t_s_opt chi2 : R)
| ChiOnly (chi2 : R)
| Zero
| Params (A_opt t_c_opt t_s_opt : R).

Definition fit_template (curve_fit : curve_fit3) (wv : list R)
    (template_to_fit : R -> R -> R) (filts : list R) (wv_corr : R)
    (flux time errs : list R) (z : R) (output_chi output_params : bool)
  : result fit_template_output :=
  fits <- mapM (fit_one_filter curve_fit template_to_fit wv filts wv_corr flux time errs z) wv ;;
  let A_opt := map (fun f => fst (fst (fst f))) fits in
  let t_c_opt := map (fun f => snd (fst (fst f))) fits in
  let t_s_opt := map (fun f => snd (fst f)) fits in
  let chi2 := map snd fits in
  gi <- np.argmin chi2 ;;
  chi2 <- np.item chi2 gi ;;
  A_opt <- np.item A_opt gi ;;
  t_c_opt <- np.item t_c_opt gi ;;
  t_s_opt <- np.item t_s_opt gi ;;
  if output_chi then
    if output_params then Ok (ParamsAndChi A_opt t_c_opt t_s_opt chi2)
    else Ok (ChiOnly chi2)
  else
    if output_params then Ok (Params A_opt t_c_opt t_s_opt)
    else Ok Zero.

(** ** [interpolate] (lines 364-451) *)

(** The Gaussian process after [gp.compute] and the optimisation of its
    parameters (lines 416-435): [gp.predict(y, x, return_var=True)] gives
    the predictive mean and variance at each query point of [x]. *)
Record gp_posterior : Type := mk_gp {
  gp_mean : R * R -> R;
  gp_var : R * R -> R
}.

(** The code outside the repository that [interpolate] calls. *)
Record interpolate_env : Type := mk_env {
  (* [generate_template(filter_wv, sn_type)]: loads a template file and
     returns a [RectBivariateSpline]. *)
  env_generate_template : list R -> string -> result (R -> R -> R);
  env_curve_fit : curve_fit3;
  (* [george.GP(kernel, mean)], [gp.compute(x, yerr)] and [minimize] on
     the data [y]; the kernel is [variance * ExpSquaredKernel([50, 0.5])]. *)
  env_gp : R -> (R * R -> R) -> list (R * R) -> list R -> list R -> result gp_posterior
}.

(** Python's [round] to an integer: half-way cases go to the even one. *)
Definition py_round (x : R) : Z :=
  let fl := (up x - 1)%Z in
  let frac := x - IZR fl in
  if Rltb frac (1 / 2) then fl
  else if Rltb (1 / 2) frac then (fl + 1)%Z
  else if Z.even fl then fl else (fl + 1)%Z.

(** [np.arange(a, b)] on integers. *)
Definition arange (a b : Z) : list R :=
  map (fun k => IZR (a + Z.of_nat k)) (seq 0 (Z.to_nat (b - a))).

(** [snModel.get_value] (lines 400-403). *)
Definition snModel (template : R -> R -> R) (f_stretch t_shift t_stretch : R)
    (param : R * R) : R :=
  let t := fst param * 1 / t_stretch + t_shift in
  let wv := snd param in
  template t wv + f_stretch.

(** Lines 408-413: the template sampled for the plots. *)
Definition template_samples (mean : R * R -> R) (ufilts_in_angstrom times : list R)
  : result (list (list R) * list R) :=
  match ufilts_in_angstrom with
  | [] => Ok ([], [])
  | _ =>
      hi <- np.max times ;;
      lo <- np.min times ;;
      let test_times := arange (py_round lo) (py_round hi) in
      Ok (map (fun i => map (fun t => mean (t, i)) test_times) ufilts_in_angstrom,
          test_times)
  end.

(** A column assignment [dense[:, jj] = vals] into [n] rows: [vals] must
    have [n] entries, or one entry that is then repeated. *)
Definition assign_column {A : Type} (n : nat) (vals : list A) : result (list A) :=
  if (List.length vals =? n)%nat then Ok vals
  else match vals with
       | [v] => Ok (repeat v n)
       | _ => Raise (ValueError "could not broadcast input array")
       end.

(** Lines 445-448, one pass: the column of filter [u]. *)
Definition dense_column (n : nat) (x_pred : list (R * R)) (pred pred_var : list R) (u : R)
  : result (list R * list npfloat) :=
  let gind := np.where_ (fun x => Rltb (Rabs (snd x - u)) epsilon) x_pred 0 in
  fluxes <- np.take pred gind ;;
  fluxes <- assign_column n fluxes ;;
  vars <- np.take pred_var gind ;;
  errs <- assign_column n (map (fun v => npf.sqrt (Fin v)) vars) ;;
  Ok (fluxes, errs).

(** [np.dstack((dense_fluxes, dense_errs))] from the columns: entry
    [i][j] pairs the [i]-th value of flux column [j] with the [i]-th
    value of error column [j]. *)
Definition dstack (n : nat) (columns : list (list R * list npfloat))
  : list (list (R * npfloat)) :=
  map (fun i => map (fun col => (nth i (fst col) 0, nth i (snd col) NaN)) columns)
      (seq 0 n).

(** Lines 393-413: the mean function of the process, and the template
    samples [test_y] and [test_times] for the plots (empty without a
    template). *)
Definition mean_function (env : interpolate_env) (lc : lightcurve) (wv_corr : R)
    (sn_type : string) (use_mean : bool) (z : R)
  : result ((R * R -> R) * list (list R) * list R) :=
  let times := lc_phases lc in
  let fluxes := lc_fluxes lc in
  let filters := lc_wv_effs lc in
  let errs := lc_errs lc in
  let ufilts := np.unique filters in
  let ufilts_in_angstrom := map (fun u => u * 1000.0 + wv_corr) ufilts in
  if use_mean then
    template <- env_generate_template env ufilts_in_angstrom sn_type ;;
    out <- fit_template (env_curve_fit env) ufilts_in_angstrom template filters
             wv_corr fluxes times errs z false true ;;
    match out with
    | Params f_stretch t_shift t_stretch =>
        let mean := snModel template f_stretch t_shift t_stretch in
        ' (test_y, test_times) <- template_samples mean ufilts_in_angstrom times ;;
        Ok (mean, test_y, test_times)
    | _ => Raise (ValueError "not enough values to unpack")
    end
  else Ok (fun _ => 0, [], []).

(** Line 439-440: the query points, for every observation time in turn
    every unique filter. *)
Definition query_points (times ufilts : list R) : list (R * R) :=
  flat_map (fun time => map (fun u => (time, u)) ufilts) times.

Definition interpolate (env : interpolate_env) (lc : lightcurve) (wv_corr : R)
    (sn_type : string) (use_mean : bool) (z : R)
  : result (list (list (R * npfloat)) * list (list R) * list R) :=
  let times := lc_phases lc in
  let fluxes := lc_fluxes lc in
  let filters := lc_wv_effs lc in
  let errs := lc_errs lc in
  let stacked_data := combine times filters in
  let ufilts := np.unique filters in
  let nfilts := List.length ufilts in
  ' (mean, test_y, test_times) <- mean_function env lc wv_corr sn_type use_mean z ;;
  (* set up gp and optimize its parameters *)
  gp <- env_gp env (np.var fluxes) mean stacked_data errs fluxes ;;
  (* populate arrays with time and wavelength values to be fed into gp *)
  let x_pred := query_points times ufilts in
  let pred := map (gp_mean gp) x_pred in
  let pred_var := map (gp_var gp) x_pred in
  (* populate dense_lc with newly gp-predicted values *)
  columns <- mapM (dense_column (List.length times) x_pred pred pred_var) ufilts ;;
  let dense_lc := dstack (List.length times) columns in
  Ok (dense_lc, test_y, test_times).

(** Filter wavelengths that the test of line 446 tells apart: any two of
    them are at least [epsilon] apart. *)
Definition separated (ufilts : list R) : Prop :=
  ForallOrdPairs (fun u v => epsilon <= Rabs (u - v)) ufilts.

(** ** [bbody] (lines 30-54) *)

Definition bbody (lam T R_ : R) : R :=
  let lam_cm := lam * ang_to_cm in
  let exponential := (h * c) / (lam_cm * k_B * T) in
  let blam := ((2 * PI * h * c ^ 2) / (lam_cm ^ 5)) / (exp exponential - 1) in
  let area := 4 * PI * R_ ^ 2 in
  let lum := blam * area in
  lum.

(** ** [fit_bb] (lines 454-513) *)

(** An arithmetic operation on two arrays: the lengths agree, or one of
    the arrays has a single entry, or numpy raises. *)
Definition broadcast2 {A B C : Type} (f : A -> B -> C) (xs : list A) (ys : list B)
  : result (list C) :=
  if (List.length xs =? List.length ys)%nat
  then Ok (map (fun xy => f (fst xy) (snd xy)) (combine xs ys))
  else match xs, ys with
       | [x], _ => Ok (map (f x) ys)
       | _, [y] => Ok (map (fun x => f x y) xs)
       | _, _ => Raise (ValueError "operands could not be broadcast together")
       end.

(** What [curve_fit] returns at line 495: [BBparams] and the 2 x 2
    matrix [covar]. *)
Record bb_fit : Type := mk_bb_fit {
  BBparams : npfloat * npfloat;
  covar : (npfloat * npfloat) * (npfloat * npfloat)
}.

(** The type of [curve_fit] as line 495 calls it: function, [xdata],
    [ydata], [p0] and [sigma]. *)
Definition curve_fit2 : Type :=
  (R -> R -> R -> R) -> list R -> list R -> R * R -> list npfloat -> result bb_fit.

(** [np.diag(covar)]. *)
Definition diag (m : (npfloat * npfloat) * (npfloat * npfloat)) : npfloat * npfloat :=
  (fst (fst m), snd (snd m)).

(** Lines 485-492: the fluxes of one epoch and their errors. *)
Definition epoch_flam (datapoint : list (R * npfloat)) (wvs : list R)
  : result (list R * list npfloat) :=
  let fnu := map (fun d => Rpower 10 ((- fst d + 48.6) / -2.5)) datapoint in
  let fnu := map (fun f => f * 4 * PI * 3.086e19 ^ 2) fnu in
  let fnu_err :=
    map (fun d =>
           npf.mul (npf.mul (npf.mul (npf.mul
             (Fin (Rabs (0.921034 * Rpower 10 (0.4 * fst d - 19.44))))
             (snd d)) (Fin 4)) (Fin PI)) (Fin (3.086e19 ^ 2)))
        datapoint in
  flam <- broadcast2 (fun f w => f * c / (w * ang_to_cm) ^ 2) fnu wvs ;;
  flam_err <- broadcast2 (fun f w => npf.div (npf.mul f (Fin c)) (Fin ((w * ang_to_cm) ^ 2)))
                fnu_err wvs ;;
  Ok (flam, flam_err).

(** Lines 494-506: the [try] block and its bare [except]. *)
Definition try_fit (curve_fit : curve_fit2) (wvs flam : list R) (flam_err : list npfloat)
  : npfloat * npfloat * npfloat * npfloat :=
  match curve_fit bbody wvs flam (9000, 1e15) flam_err with
  | Ok fit =>
      let T1 := fst (BBparams fit) in
      let T1_err := npf.sqrt (fst (diag (covar fit))) in
      let R1 := npf.abs (snd (BBparams fit)) in
      let R1_err := npf.sqrt (snd (diag (covar fit))) in
      (T1, R1, T1_err, R1_err)
  | Raise _ => (NaN, NaN, NaN, NaN)
  end.

(** Lines 483-511, one pass of the loop. *)
Definition fit_epoch (curve_fit : curve_fit2) (wvs : list R) (datapoint : list (R * npfloat))
  : result (npfloat * npfloat * npfloat * npfloat) :=
  ' (flam, flam_err) <- epoch_flam datapoint wvs ;;
  Ok (try_fit curve_fit wvs flam flam_err).

(** The result is [(T_arr, R_arr, Terr_arr, Rerr_arr)]. *)
Definition fit_bb (curve_fit : curve_fit2) (dense_lc : list (list (R * npfloat)))
    (wvs : list R)
  : result (list npfloat * list npfloat * list npfloat * list npfloat) :=
  fits <- mapM (fit_epoch curve_fit wvs) dense_lc ;;
  let T_arr := map (fun f => fst (fst (fst f))) fits in
  let R_arr := map (fun f => snd (fst (fst f))) fits in
  let Terr_arr := map (fun f => snd (fst f)) fits in
  let Rerr_arr := map snd fits in
  Ok (T_arr, R_arr, Terr_arr, Rerr_arr).

(** ** [write_output] (lines 651-708) *)

(** The astropy [Table] handed to [ascii.write]: named columns, and the
    path of the file. *)
Record table : Type := mk_table {
  tbl_columns : list (string * list npfloat);
  tbl_path : string
}.

(** [np.reshape(dense_lc, (len(dense_lc), -1))]: each epoch's
    [(flux, err)] pairs in one row; the [-1] cannot be resolved for an
    array without rows. *)
Definition reshape_rows (dense_lc : list (list (R * npfloat))) : result (list (list npfloat)) :=
  match dense_lc with
  | [] => Raise (ValueError "cannot reshape array of size 0")
  | _ => Ok (map (flat_map (fun d => [Fin (fst d); snd d])) dense_lc)
  end.

(** [np.hstack] of two matrices given by their rows. *)
Definition hstack {A : Type} (xs ys : list (list A)) : result (list (list A)) :=
  if (List.length xs =? List.length ys)%nat
  then Ok (map (fun xy => fst xy ++ snd xy)%list (combine xs ys))
  else Raise (ValueError "all the input array dimensions except for the concatenation axis must match exactly").

(** [np.stack((a, b, ...)).T]: row [i] holds the [i]-th entry of every
    array; the arrays must have one shape. *)
Definition stack_T (arrays : list (list npfloat)) : result (list (list npfloat)) :=
  match arrays with
  | [] => Raise (ValueError "need at least one array to stack")
  | a :: _ =>
      if forallb (fun b => (List.length b =? List.length a)%nat) arrays
      then Ok (map (fun i => map (fun b => nth i b NaN) arrays) (seq 0 (List.length a)))
      else Raise (ValueError "all input arrays must have the same shape")
  end.

(** [m.T] for a matrix with at least one row. *)
Definition transpose (rows : list (list npfloat)) : list (list npfloat) :=
  map (fun k => map (fun r => nth k r NaN) rows) (seq 0 (List.length (hd [] rows))).

Fixpoint nodup_str (xs : list string) : bool :=
  match xs with
  | [] => true
  | x :: xs' => negb (existsb (String.eqb x) xs') && nodup_str xs'
  end.

(** [Table([*tabledata], names = table_header)]. *)
Definition Table (columns : list (list npfloat)) (names : list string) (path : string)
  : result table :=
  if negb (List.length columns =? List.length names)%nat
  then Raise (ValueError "Arguments names and dtype must match number of columns")
  else if negb (nodup_str names)
  then Raise (ValueError "Duplicate column names")
  else Ok (mk_table (combine names columns) path).

Definition table_header (my_filters : list string) : list string :=
  let ufilts := np.unique_str my_filters in
  (["Time (MJD)"]
   ++ flat_map (fun filt => [filt; String.append filt "_err"]) ufilts
   ++ ["Temp./1e3 (K)"; "Temp. Err."; "Radius/1e15 (cm)"; "Radius Err.";
       "Log10(Bol. Lum)"; "Log10(Bol. Err)"])%list.

Definition write_output (lc : lightcurve) (dense_lc : list (list (R * npfloat)))
    (Tarr Terr_arr Rarr Rerr_arr bol_lum bol_err : list npfloat)
    (my_filters : list string) (snname outdir : string) : result table :=
  let times := lc_phases lc in
  dense_lc <- reshape_rows dense_lc ;;
  dense_lc <- hstack (map (fun t => [Fin (- t)]) times) dense_lc ;;
  tabledata <- stack_T [map (fun T => npf.div T (Fin 1e3)) Tarr;
                        map (fun T => npf.div T (Fin 1e3)) Terr_arr;
                        map (fun R_ => npf.div R_ (Fin 1e15)) Rarr;
                        map (fun R_ => npf.div R_ (Fin 1e15)) Rerr_arr;
                        map npf.log10 bol_lum;
                        map npf.log10 bol_err] ;;
  tabledata <- hstack (map (map npf.neg) dense_lc) tabledata ;;
  let tabledata := transpose tabledata in
  Table tabledata (table_header my_filters)
        (String.append outdir (String.append snname ".txt")).

(** ** [test] (lines 328-361) *)

Definition templates : list string := ["1a"; "1bc"; "2p"; "2l"].

Definition test (env : interpolate_env) (lc : lightcurve) (wv_corr z : R) : result string :=
  let time := lc_phases lc in
  let flux := lc_fluxes lc in
  let filts := lc_wv_effs lc in
  let errs := lc_errs lc in
  let ufilts := np.unique filts in
  let ufilts_in_angstrom := map (fun u => u * 1000.0 + wv_corr) ufilts in
  chi2 <- mapM (fun template =>
                  template_to_fit <- env_generate_template env ufilts_in_angstrom template ;;
                  out <- fit_template (env_curve_fit env) ufilts_in_angstrom template_to_fit
                           filts wv_corr flux time errs z true false ;;
                  match out with
                  | ChiOnly chi2 => Ok chi2
                  | _ => Raise (ValueError "chi2 is not a number")
                  end)
               templates ;;
  gi <- np.argmin chi2 ;;
  np.item templates gi.

(** ** [main] from line 785 on

    The command line, the cosmology and the plots are left out. *)

(** Line 804, for one epoch. *)
Definition bol_lum1 (R_ T : npfloat) : npfloat :=
  npf.mul (npf.mul (npf.mul (Fin (4 * PI)) (npf.pow R_ 2)) (Fin sigsb)) (npf.pow T 4).

(** Lines 805-807, for one epoch. *)
Definition bol_err1 (R_ T Rerr Terr : npfloat) : npfloat :=
  npf.mul (Fin (4 * PI * sigsb))
    (npf.sqrt
       (npf.add
          (npf.pow (npf.mul (npf.mul (npf.mul (Fin 2) R_) (npf.pow T 4)) Rerr) 2)
          (npf.pow (npf.mul (npf.mul (npf.mul (Fin 4) (npf.pow T 3)) (npf.pow R_ 2)) Terr) 2))).

(** Lines 804-807 on the arrays [fit_bb] returns, which have one entry
    per epoch each. *)
Definition bolometric_luminosity (Rarr Tarr : list npfloat) : list npfloat :=
  map (fun rt => bol_lum1 (fst rt) (snd rt)) (combine Rarr Tarr).

Definition bolometric_error (Rarr Tarr Rerr_arr Terr_arr : list npfloat) : list npfloat :=
  map (fun x => bol_err1 (fst (fst x)) (snd (fst x)) (fst (snd x)) (snd (snd x)))
      (combine (combine Rarr Tarr) (combine Rerr_arr Terr_arr)).

(** Line 800, [dense_lc[:,:,0] += flux_corr]. *)
Definition add_flux_corr (flux_corr : R) (dense_lc : list (list (R * npfloat)))
  : list (list (R * npfloat)) :=
  map (map (fun d => (fst d + flux_corr, snd d))) dense_lc.

(** What a run computes: the filter of each dense column as handed to
    [plot_gp] (line 797), the blackbody arrays, the luminosity and the
    table written. *)
Record run : Type := mk_run {
  run_lc : lightcurve;
  run_dense_lc : list (list (R * npfloat));
  run_ufilts : list string;
  run_Tarr : list npfloat;
  run_Rarr : list npfloat;
  run_Terr_arr : list npfloat;
  run_Rerr_arr : list npfloat;
  run_bol_lum : list npfloat;
  run_bol_err : list npfloat;
  run_table : table
}.

Definition main (env : interpolate_env) (curve_fit : curve_fit2)
    (index : list svo_filter) (photometry_data : list row)
    (dm redshift start end_ snr : R) (sn_type : string) (mean : bool)
    (snname outdir : string) : result run :=
  ' (lc, wv_corr, flux_corr, my_filters) <-
      read_in_photometry index photometry_data dm redshift start end_ snr ;;
  sn_type <- (if String.eqb sn_type "test" then test env lc wv_corr redshift else Ok sn_type) ;;
  ' (dense_lc, test_data, test_times) <- interpolate env lc wv_corr sn_type mean redshift ;;
  let '(wvs, wvind) := np.unique_index (lc_wv_effs lc) in
  let wvs := map (fun w => w * 1000.0 + wv_corr) wvs in
  ufilts <- np.take my_filters wvind ;;
  let dense_lc := add_flux_corr flux_corr dense_lc in
  ' (Tarr, Rarr, Terr_arr, Rerr_arr) <- fit_bb curve_fit dense_lc wvs ;;
  let bol_lum := bolometric_luminosity Rarr Tarr in
  let bol_err := bolometric_error Rarr Tarr Rerr_arr Terr_arr in
  tbl <- write_output lc dense_lc Tarr Terr_arr Rarr Rerr_arr bol_lum bol_err
           my_filters snname outdir ;;
  Ok (mk_run lc dense_lc ufilts Tarr Rarr Terr_arr Rerr_arr bol_lum bol_err tbl).

(** ** The rows of [read_in_photometry], one at a time

    The program keeps parallel arrays and selects from them by index
    arrays.  The functions below give the value each array holds for a
    row, and the rows each selection keeps; the properties relate the
    arrays of [read_in_photometry] to them. *)

Definition wv_eff_of (index : list svo_filter) (r : row) : R :=
  match svo_lookup index (row_filter r) with
  | Some e => WavelengthEff e
  | None => 0
  end.

Definition width_eff_of (index : list svo_filter) (r : row) : R :=
  match svo_lookup index (row_filter r) with
  | Some e => WidthEff e
  | None => 0
  end.

Definition zpt_of (index : list svo_filter) (r : row) : R :=
  if String.eqb (row_system r) "AB" then 3631.00
  else match svo_lookup index (row_filter r) with
       | Some e => ZeroPoint e
       | None => 0
       end.

Definition flux_of (index : list svo_filter) (dm redshift : R) (r : row) : R :=
  log_flux (Rpower 10 ((row_mag r - dm) / -2.5) * zpt_of index r * (1 + redshift)).

(** Every filter identifier of the rows is in the index. *)
Definition resolvable (index : list svo_filter) (rows : list row) : Prop :=
  forall r, In r rows -> svo_lookup index (row_filter r) <> None.

(** The rows that pass the test of line 135. *)
Definition snr_kept (snr : R) (rows : list row) : list row :=
  filter (fun r => snr_ok snr (row_err r)) rows.

(** Of rows whose times are counted from [t0], those that pass the test
    of line 154. *)
Definition window_kept (start end_ t0 : R) (rows : list row) : list row :=
  filter (fun r => in_window start end_ (row_time r - t0)) rows.

(** ** The aggregate chi-square over every filter's data

    The chi-square of one parameter set as the specification words it:
    for every filter of [wv], the template at that filter against the
    observations of that filter.  [fit_template] does not call it; it is
    here to be compared with [param_chi_from]. *)
Fixpoint chi_all_filters_from (template_to_fit : R -> R -> R) (wv filts : list R)
    (wv_corr : R) (flux time errs : list R) (popt : R * R * R) (acc : R) : result R :=
  match wv with
  | [] => Ok acc
  | filt :: wv' =>
      let '(A, t_c, t_s) := popt in
      let gis := np.where_ (fun f => Reqb (f * 1000 + wv_corr) filt) filts 0 in
      dat_fluxes <- np.take flux gis ;;
      dat_times <- np.take time gis ;;
      dat_errs <- np.take errs gis ;;
      chi <- chi_square dat_fluxes (model template_to_fit dat_times filt A t_c t_s) dat_errs ;;
      chi_all_filters_from template_to_fit wv' filts wv_corr flux time errs popt (acc + chi)
  end.

(** ** Example inputs *)

(** A template that is 0 everywhere, and the least-squares fit to it: the
    amplitude is the mean of the data, the other two parameters stay at
    the initial guess. *)
Definition flat_template : R -> R -> R := fun _ _ => 0.

Definition fit_flat : curve_fit3 :=
  fun _ _ ydata p0 => Ok (np.mean ydata, snd (fst p0), snd p0).

(** Three observations in a filter at 4000 Angstrom and four in a filter
    at 6000 Angstrom, with [wv_corr = 5000] and unit uncertainties. *)
Definition two_filter_wv : list R := [4000; 6000].
Definition two_filter_filts : list R := [-1; -1; -1; 1; 1; 1; 1].
Definition two_filter_flux : list R := [1; 1; 1; 5; 7; 5; 7].
Definition two_filter_time : list R := [0; 1; 2; 0; 1; 2; 3].
Definition two_filter_errs : list R := [1; 1; 1; 1; 1; 1; 1].

Definition example_index : list svo_filter :=
  [mk_svo "g" 4700 1400 3631; mk_svo "r" 6200 1400 3631; mk_svo "i" 7500 1500 3631].

(** Two observations in one filter, ten days apart, both with a
    signal-to-noise ratio of 10. *)
Definition two_epochs : list row :=
  [mk_row 100 18 0.1 "g" "AB"; mk_row 110 19 0.1 "g" "AB"].

(** A Gaussian process whose prediction is 0 with variance 1 everywhere,
    and two light curves with two observations each: in filters 1500
    Angstrom apart, and in filters 0.05 Angstrom apart. *)
Definition constant_gp : gp_posterior := mk_gp (fun _ => 0) (fun _ => 1).

Definition constant_gp_env : interpolate_env :=
  mk_env (fun _ _ => Ok flat_template) fit_flat (fun _ _ _ _ _ => Ok constant_gp).

Definition far_filters_lc : lightcurve :=
  mk_lc [0; 1] [1; 2] [-0.75; 0.75] [0.1; 0.1] [1400; 1400].

Definition close_filters_lc : lightcurve :=
  mk_lc [0; 1] [1; 2] [-0.000025; 0.000025] [0.1; 0.1] [1400; 1400].

(** A [curve_fit] that never converges, one that always returns 10000 K
    and -1e15 cm with unit variances, and a dense light curve of two
    epochs in two filters. *)
Definition never_converges : curve_fit2 :=
  fun _ _ _ _ _ => Raise (RuntimeError "Optimal parameters not found").

Definition always_converges : curve_fit2 :=
  fun _ _ _ _ _ =>
    Ok (mk_bb_fit (Fin 10000, Fin (- 1e15)) ((Fin 1, Fin 0), (Fin 0, Fin 1))).

Definition two_epoch_dense_lc : list (list (R * npfloat)) :=
  [[(-20, Fin 0.1); (-19, Fin 0.1)]; [(-21, Fin 0.2); (-20, NaN)]].

Definition two_wvs : list R := [4700; 6200].

(** A Gaussian process that predicts, at the query point [(t, u)], the
    mean [u] with variance 1, and two observations ten days apart, the
    first in the filter r and the second in the filter i. *)
Definition wavelength_gp : gp_posterior := mk_gp (fun x => snd x) (fun _ => 1).

Definition wavelength_gp_env : interpolate_env :=
  mk_env (fun _ _ => Ok flat_template) fit_flat (fun _ _ _ _ _ => Ok wavelength_gp).

Definition r_then_i : list row :=
  [mk_row 100 18 0.1 "r" "AB"; mk_row 110 19 0.1 "i" "AB"].

(** ** Further views of [read_in_photometry] *)

(** The first filter identifier of the rows that the index lacks. *)
Definition first_unresolved (index : list svo_filter) (rows : list row) : option string :=
  match find (fun r => match svo_lookup index (row_filter r) with
                       | Some _ => false
                       | None => true
                       end) rows with
  | Some r => Some (row_filter r)
  | None => None
  end.

(** Three rows of which the second names a filter the index lacks, and
    two rows with a signal-to-noise ratio of 1. *)
Definition unknown_filter_rows : list row :=
  [mk_row 100 18 0.1 "g" "AB"; mk_row 105 18 0.1 "zz" "AB"; mk_row 110 19 0.1 "yy" "AB"].

Definition noisy_rows : list row :=
  [mk_row 100 18 1 "g" "AB"; mk_row 110 19 1 "g" "AB"].

(** ** The chi-square of one template class in [test]

    The body of the loop of lines 353-355, for one template. *)
Definition template_chi (env : interpolate_env) (lc : lightcurve) (wv_corr z : R)
    (template : string) : result R :=
  let time := lc_phases lc in
  let flux := lc_fluxes lc in
  let filts := lc_wv_effs lc in
  let errs := lc_errs lc in
  let ufilts := np.unique filts in
  let ufilts_in_angstrom := map (fun u => u * 1000.0 + wv_corr) ufilts in
  template_to_fit <- env_generate_template env ufilts_in_angstrom template ;;
  out <- fit_template (env_curve_fit env) ufilts_in_angstrom template_to_fit
           filts wv_corr flux time errs z true false ;;
  match out with
  | ChiOnly chi2 => Ok chi2
  | _ => Raise (ValueError "chi2 is not a number")
  end.

(** ** Ascending arrays *)

(** Every entry is strictly below the entries after it. *)
Fixpoint ascending (xs : list R) : Prop :=
  match xs with
  | [] => True
  | x :: xs' => Forall (fun y => x < y) xs' /\ ascending xs'
  end.

(** The invariant of the loop behind [np.unique]: after the entries
    [pre] of the array [full] were seen, the accumulator is ascending,
    holds exactly the values of [pre], and pairs each with the index of
    its first occurrence in [full]. *)
Definition unique_invariant (full pre : list R) (us : list (R * nat)) : Prop :=
  ascending (map fst us)
  /\ (forall u, In u (map fst us) <-> In u pre)
  /\ (forall u i, In (u, i) us ->
        nth_error full i = Some u
        /\ forall j, (j < i)%nat -> nth_error full j <> Some u).

(** ** A second example index

    An index in which two filter identifiers have one effective
    wavelength, and two observations, one in each of them. *)
Definition twin_index : list svo_filter :=
  [mk_svo "g" 4700 1400 3631; mk_svo "g2" 4700 1300 3631].

Definition twin_rows : list row :=
  [mk_row 100 18 0.1 "g" "AB"; mk_row 110 19 0.1 "g2" "AB"].

(** ** [main], lines 777-783: the output directory and the name of the
    supernova *)

(** [s.split(c)] for a separator [c] of one character: the pieces of [s]
    between the occurrences of [c], at least one piece. *)
Fixpoint split (c : ascii) (s : string) : list string :=
  match s with
  | EmptyString => [EmptyString]
  | String a s' =>
      if Ascii.eqb a c then EmptyString :: split c s'
      else match split c s' with
           | [] => [String a EmptyString]
           | w :: ws => String a w :: ws
           end
  end.

(** [c.join(parts)]. *)
Fixpoint join (c : ascii) (parts : list string) : string :=
  match parts with
  | [] => EmptyString
  | w :: ws =>
      match ws with
      | [] => w
      | _ => String.append w (String c (join c ws))
      end
  end.

(** [parts[-1]]. *)
Definition last_item {A : Type} (parts : list A) : result A :=
  match rev parts with
  | [] => Raise (IndexError "list index out of range")
  | x :: _ => Ok x
  end.

(** Line 783, [('.').join(args.snfile.split('.')[:-1]).split('/')[-1]]. *)
Definition snname_of (snfile : string) : result string :=
  last_item (split "/" (join "." (removelast (split "." snfile)))).

(** [s[-1]]. *)
Fixpoint last_char (s : string) : result ascii :=
  match s with
  | EmptyString => Raise (IndexError "string index out of range")
  | String a EmptyString => Ok a
  | String _ s' => last_char s'
  end.

(** Lines 777-778. *)
Definition outdir_with_slash (outdir : string) : result string :=
  ch <- last_char outdir ;;
  if negb (Ascii.eqb ch "/") then Ok (String.append outdir "/") else Ok outdir.

(** Whether the character [c] occurs in [s]. *)
Fixpoint occurs (c : ascii) (s : string) : bool :=
  match s with
  | EmptyString => false
  | String a s' => Ascii.eqb a c || occurs c s'
  end.

(** ** [generate_template] (lines 170-241)

    [np.load] and [RectBivariateSpline] are arguments.  The template
    file holds three one-dimensional arrays, [time], [wavelength] and
    [f_lambda]: entry [i] of each belongs to sample [i]. *)

Record template_file : Type := mk_template_file {
  tf_time : list R;
  tf_wavelength : list R;
  tf_f_lambda : list R
}.

(** [x % m] on doubles, for a positive [m]: [x - m * floor(x / m)]. *)
Definition fmod (x m : R) : R := x - m * IZR (up (x / m) - 1).

(** Lines 193-196, the loop of the first thinning step.  [np.amax] and
    [np.amin] are evaluated at every pass, [np.amin] only when the first
    comparison holds; [i] is the index of the head of
    [temp_wavelength]. *)
Fixpoint chop_ends (filter_wv temp_wavelength : list R) (i : nat) : result (list nat) :=
  match temp_wavelength with
  | [] => Ok []
  | w :: ws =>
      hi <- np.max filter_wv ;;
      keep <- (if Rltb w hi then lo <- np.min filter_wv ;; Ok (Rltb lo w) else Ok false) ;;
      gis <- chop_ends filter_wv ws (S i) ;;
      Ok (if keep : bool then i :: gis else gis)
  end.

(** The three selections that end each thinning step. *)
Definition select3 (gis : list nat) (temp_times temp_wavelength temp_f_lambda : list R)
  : result (list R * list R * list R) :=
  temp_times <- np.take temp_times gis ;;
  temp_wavelength <- np.take temp_wavelength gis ;;
  temp_f_lambda <- np.take temp_f_lambda gis ;;
  Ok (temp_times, temp_wavelength, temp_f_lambda).

(** Lines 230-232, one pass: the row of the grid for the time [t]. *)
Definition grid_row (temp_times temp_f_lambda : list R) (nw : nat) (t : R)
  : result (list R) :=
  let gis := np.where_ (fun x => Reqb x t) temp_times 0 in
  vals <- np.take temp_f_lambda gis ;;
  assign_column nw vals.

(** Lines 234-236 on one row of the grid: entry [i] is converted with
    the [i]-th wavelength. *)
Definition log_row (temp_wavelength_u : list R) (row : list R) : list npfloat :=
  map (fun wf => npf.mul (Fin 2.5) (npf.log10 (Fin (fst wf ^ 2 * snd wf))))
      (combine temp_wavelength_u row).

Definition generate_template
    (np_load : string -> result template_file)
    (RectBivariateSpline : list R -> list R -> list (list npfloat) -> result (R -> R -> R))
    (filter_wv : list R) (sn_type : string) : result (R -> R -> R) :=
  template <- np_load (String.append "./extrabol/template/smoothed_sn"
                         (String.append sn_type ".npz")) ;;
  let temp_times := tf_time template in
  let temp_wavelength := tf_wavelength template in
  let temp_f_lambda := tf_f_lambda template in
  (* chop ends *)
  gis <- chop_ends filter_wv temp_wavelength 0 ;;
  ' (temp_times, temp_wavelength, temp_f_lambda) <-
      select3 gis temp_times temp_wavelength temp_f_lambda ;;
  (* remove every other time *)
  let gis := np.where_ (fun t => Reqb (fmod t 2) 0) temp_times 0 in
  ' (temp_times, temp_wavelength, temp_f_lambda) <-
      select3 gis temp_times temp_wavelength temp_f_lambda ;;
  (* remove every other wavelength *)
  let gis := np.where_ (fun w => Reqb (fmod w 20) 0) temp_wavelength 0 in
  ' (temp_times, temp_wavelength, temp_f_lambda) <-
      select3 gis temp_times temp_wavelength temp_f_lambda ;;
  (* remove initial rise *)
  let gis := np.where_ (fun t => Rleb 1 t) temp_times 0 in
  ' (temp_times, temp_wavelength, temp_f_lambda) <-
      select3 gis temp_times temp_wavelength temp_f_lambda ;;
  let temp_times_u := np.unique temp_times in
  let temp_wavelength_u := np.unique temp_wavelength in
  temp_f_lambda_u <-
    mapM (grid_row temp_times temp_f_lambda (List.length temp_wavelength_u)) temp_times_u ;;
  (* template needs to be converted to log(flux) to match data *)
  let temp_f_lambda_u := map (log_row temp_wavelength_u) temp_f_lambda_u in
  RectBivariateSpline temp_times_u temp_wavelength_u temp_f_lambda_u.

(** ** The samples of a template file, one at a time *)

Record sample : Type := mk_sample {
  s_time : R;
  s_wavelength : R;
  s_f_lambda : R
}.

(** The file whose arrays hold the samples, in their order. *)
Definition file_of_samples (samples : list sample) : template_file :=
  mk_template_file (map s_time samples) (map s_wavelength samples) (map s_f_lambda samples).

(** The samples the four thinning steps keep, for filters between [lo]
    and [hi]. *)
Definition thinned (lo hi : R) (samples : list sample) : list sample :=
  filter (fun s => Rleb 1 (s_time s))
    (filter (fun s => Reqb (fmod (s_wavelength s) 20) 0)
       (filter (fun s => Reqb (fmod (s_time s) 2) 0)
          (filter (fun s => Rltb (s_wavelength s) hi && Rltb lo (s_wavelength s)) samples))).

(** The samples at the time [t]. *)
Definition at_time (t : R) (samples : list sample) : list sample :=
  filter (fun s => Reqb (s_time s) t) samples.

(** A template on two times and three wavelengths (4700, 4720 and 4740
    Angstrom at 2 and at 4 days), with samples around them that the
    thinning drops, and a spline that returns a constant. *)
Definition small_template : list sample :=
  [mk_sample 0 4700 1; mk_sample 2 4680 1;
   mk_sample 2 4700 1; mk_sample 2 4710 1; mk_sample 2 4720 10; mk_sample 2 4740 100;
   mk_sample 3 4700 1;
   mk_sample 4 4700 2; mk_sample 4 4720 20; mk_sample 4 4740 200;
   mk_sample 4 4760 1].

Definition load_small_template : string -> result template_file :=
  fun _ => Ok (file_of_samples small_template).

Definition constant_spline : list R -> list R -> list (list npfloat) -> result (R -> R -> R) :=
  fun _ _ _ => Ok flat_template.

(** * Properties *)

(** ** Booleans and comparisons *)

Lemma Rleb_true (x y : R) : x <= y -> Rleb x y = true.
Proof. intros H. unfold Rleb. destruct (Rle_dec x y); [reflexivity | contradiction]. Qed.

Lemma Rleb_false (x y : R) : y < x -> Rleb x y = false.
Proof. intros H. unfold Rleb. destruct (Rle_dec x y); [lra | reflexivity]. Qed.

Lemma Rleb_spec (x y : R) : Rleb x y = true <-> x <= y.
Proof. unfold Rleb. destruct (Rle_dec x y); split; intros; (reflexivity || assumption || discriminate || contradiction). Qed.

Lemma Rltb_true (x y : R) : x < y -> Rltb x y = true.
Proof. intros H. unfold Rltb. destruct (Rlt_dec x y); [reflexivity | contradiction]. Qed.

Lemma Rltb_false (x y : R) : y <= x -> Rltb x y = false.
Proof. intros H. unfold Rltb. destruct (Rlt_dec x y); [lra | reflexivity]. Qed.

Lemma Rltb_spec (x y : R) : Rltb x y = true <-> x < y.
Proof. unfold Rltb. destruct (Rlt_dec x y); split; intros; (reflexivity || assumption || discriminate || contradiction). Qed.

Lemma Reqb_true (x y : R) : x = y -> Reqb x y = true.
Proof. intros H. unfold Reqb. destruct (Req_dec_T x y); [reflexivity | contradiction]. Qed.

Lemma Reqb_false (x y : R) : x <> y -> Reqb x y = false.
Proof. intros H. unfold Reqb. destruct (Req_dec_T x y); [contradiction | reflexivity]. Qed.

(** Decides the comparisons between numerals that occur in a goal. *)
Ltac Rcompare :=
  repeat match goal with
    | |- context [Rleb ?a ?b] =>
        first [ rewrite (Rleb_true a b) by lra | rewrite (Rleb_false a b) by lra ]
    | |- context [Rltb ?a ?b] =>
        first [ rewrite (Rltb_true a b) by lra | rewrite (Rltb_false a b) by lra ]
    | |- context [Reqb ?a ?b] =>
        first [ rewrite (Reqb_true a b) by lra | rewrite (Reqb_false a b) by lra ]
    end.

(** Evaluates a goal by alternating simplification and comparisons. *)
Ltac Reval := repeat (progress (Rcompare; simpl)).

Lemma in_window_spec (start end_ p : R) :
  in_window start end_ p = true <-> start <= p <= end_.
Proof.
  unfold in_window. rewrite andb_true_iff, !Rleb_spec. tauto.
Qed.

(** ** Exceptions *)

Lemma bind_ok {A B : Type} (m : result A) (k : A -> result B) (b : B) :
  bind m k = Ok b -> exists a, m = Ok a /\ k a = Ok b.
Proof.
  destruct m as [a | e]; simpl; [| discriminate]. intros H. exists a. split; [reflexivity | exact H].
Qed.

(** ** Minimum of an array *)

Lemma fold_Rmin_le (xs : list R) (x : R) :
  fold_left Rmin xs x <= x /\ Forall (fun y => fold_left Rmin xs x <= y) xs.
Proof.
  revert x. induction xs as [| y ys IH]; intros x; simpl.
  - split; [lra | constructor].
  - destruct (IH (Rmin x y)) as [H1 H2].
    pose proof (Rmin_l x y). pose proof (Rmin_r x y).
    split; [lra |]. constructor; [lra | exact H2].
Qed.

Lemma fold_Rmin_in (xs : list R) (x : R) : In (fold_left Rmin xs x) (x :: xs).
Proof.
  revert x. induction xs as [| y ys IH]; intros x; simpl.
  - left; reflexivity.
  - destruct (IH (Rmin x y)) as [H | H].
    + destruct (Rle_dec x y) as [Hle | Hgt].
      * rewrite (Rmin_left x y Hle) in H |- *. left; exact H.
      * rewrite (Rmin_right x y) in H |- * by lra. right; left; exact H.
    + right; right; exact H.
Qed.

Lemma np_min_ok (xs : list R) : xs <> [] -> exists m, np.min xs = Ok m.
Proof.
  destruct xs as [| x xs]; [congruence | intros _; eexists; reflexivity].
Qed.

Lemma np_min_spec (xs : list R) (m : R) :
  np.min xs = Ok m -> In m xs /\ Forall (fun y => m <= y) xs.
Proof.
  destruct xs as [| x xs]; simpl; [discriminate |].
  intros H. injection H as <-.
  split; [apply fold_Rmin_in |].
  destruct (fold_Rmin_le xs x) as [H1 H2]. constructor; assumption.
Qed.

Lemma np_min_unique (xs : list R) (m : R) :
  In m xs -> Forall (fun y => m <= y) xs -> np.min xs = Ok m.
Proof.
  intros Hin Hall.
  destruct (np_min_ok xs) as [m' Hm']; [destruct xs; [contradiction | discriminate] |].
  destruct (np_min_spec _ _ Hm') as [Hin' Hall'].
  rewrite Forall_forall in Hall, Hall'.
  pose proof (Hall _ Hin'). pose proof (Hall' _ Hin).
  rewrite Hm'. f_equal. lra.
Qed.

(** ** Selection by an index array *)

Lemma take_where_from {A B C : Type} (f : A -> B) (g : A -> C) (p : C -> bool)
    (rows : list A) (pre : list B) :
  np.take (pre ++ map f rows) (np.where_ p (map g rows) (List.length pre))
  = Ok (map f (filter (fun r => p (g r)) rows)).
Proof.
  revert pre. induction rows as [| r rows IH]; intros pre; simpl.
  - reflexivity.
  - assert (Hstep : np.take (pre ++ f r :: map f rows)
                      (np.where_ p (map g rows) (S (List.length pre)))
                    = Ok (map f (filter (fun r => p (g r)) rows))).
    { specialize (IH (pre ++ [f r])%list).
      rewrite <- app_assoc in IH. simpl in IH.
      rewrite length_app in IH. simpl in IH.
      rewrite Nat.add_1_r in IH. exact IH. }
    destruct (p (g r)); simpl.
    + rewrite nth_error_app2, Nat.sub_diag by lia. simpl.
      rewrite Hstep. reflexivity.
    + exact Hstep.
Qed.

Lemma take_where {A B C : Type} (f : A -> B) (g : A -> C) (p : C -> bool) (rows : list A) :
  np.take (map f rows) (np.where_ p (map g rows) 0)
  = Ok (map f (filter (fun r => p (g r)) rows)).
Proof. exact (take_where_from f g p rows []). Qed.

(** ** [read_in_photometry], row by row *)

Lemma resolve_filters_ok (index : list svo_filter) (rows : list row) :
  resolvable index rows ->
  resolve_filters index (map row_filter rows)
  = Ok (map (wv_eff_of index) rows, map (width_eff_of index) rows, map row_filter rows).
Proof.
  induction rows as [| r rows IH]; intros Hres; simpl.
  - reflexivity.
  - assert (Hr : svo_lookup index (row_filter r) <> None) by (apply Hres; left; reflexivity).
    rewrite IH by (intros r' Hin; apply Hres; right; exact Hin).
    unfold wv_eff_of, width_eff_of.
    destruct (svo_lookup index (row_filter r)); [reflexivity | congruence].
Qed.

Lemma row_flux_ok (index : list svo_filter) (dm redshift : R) (rows : list row) :
  resolvable index rows ->
  mapM (row_flux index dm redshift) rows = Ok (map (flux_of index dm redshift) rows).
Proof.
  induction rows as [| r rows IH]; intros Hres; simpl.
  - reflexivity.
  - assert (Hr : svo_lookup index (row_filter r) <> None) by (apply Hres; left; reflexivity).
    rewrite IH by (intros r' Hin; apply Hres; right; exact Hin).
    unfold row_flux, flux_of, zero_point, zpt_of.
    destruct (String.eqb (row_system r) "AB"); [reflexivity |].
    destruct (svo_lookup index (row_filter r)); [reflexivity | congruence].
Qed.

Lemma ln_10_pos : 0 < ln 10.
Proof.
  rewrite <- ln_1. apply ln_increasing; lra.
Qed.

(** C5. Round trip of the log-flux conversion of line 122: for every
    positive linear flux [f], mapping [f] to
    [2.5 * (log10 f - log10 3631)] and back through the inverse map
    [logF |-> 3631 * 10 ** (logF / 2.5)] gives [f] again. *)
Theorem log_flux_round_trip (f : R) (Hf : 0 < f) :
  3631.00 * Rpower 10 (log_flux f / 2.5) = f.
Proof.
  unfold log_flux, np.log10, Rpower.
  pose proof ln_10_pos as H10.
  replace (2.5 * (ln f / ln 10 - ln 3631.00 / ln 10) / 2.5 * ln 10)
    with (ln f - ln 3631.00) by (field; lra).
  unfold Rminus. rewrite exp_plus, exp_Ropp, !exp_ln by lra.
  field; lra.
Qed.

Lemma log_flux_round_trip_witness : 0 < 1 /\ 3631.00 * Rpower 10 (log_flux 1 / 2.5) = 1.
Proof.
  split; [lra | apply (log_flux_round_trip 1); lra].
Defined.

(** The arrays [read_in_photometry] returns, in terms of the rows: [m]
    is the least log-flux of all rows and [t0] the least time of the rows
    that pass the signal-to-noise test. *)
Lemma read_in_photometry_rows (index : list svo_filter) (rows : list row)
    (dm redshift start end_ snr m t0 : R) :
  (2 <= List.length rows)%nat ->
  resolvable index rows ->
  np.min (map (flux_of index dm redshift) rows) = Ok m ->
  np.min (map row_time (snr_kept snr rows)) = Ok t0 ->
  let wv_corr := np.mean (map (fun r => wv_eff_of index r / (1 + redshift)) rows) in
  let flux_corr := m - 1.0 in
  let final := window_kept start end_ t0 (snr_kept snr rows) in
  read_in_photometry index rows dm redshift start end_ snr
  = Ok (mk_lc (map (fun r => row_time r - t0) final)
              (map (fun r => flux_of index dm redshift r - flux_corr) final)
              (map (fun r => (wv_eff_of index r - wv_corr) / 1000) final)
              (map row_err final)
              (map (width_eff_of index) final),
        wv_corr, flux_corr, map row_filter final).
Proof.
  intros Hlen Hres Hm Ht0 wv_corr flux_corr final.
  unfold read_in_photometry, loadtxt_rows.
  destruct (Nat.ltb_spec (List.length rows) 2) as [Hlt | _]; [lia |].
  cbn [bind].
  rewrite (resolve_filters_ok index rows Hres). cbn [bind].
  rewrite (row_flux_ok index dm redshift rows Hres). cbn [bind].
  rewrite Hm. cbn [bind].
  rewrite !map_map.
  rewrite !(take_where _ row_err (snr_ok snr) rows). cbn [bind].
  fold (snr_kept snr rows). rewrite Ht0. cbn [bind].
  rewrite !map_map.
  set (kept := snr_kept snr rows).
  rewrite !(take_where _ (fun r => row_time r - t0) (in_window start end_) kept).
  cbn [bind]. rewrite map_map. reflexivity.
Qed.

Lemma filter_map_comm {A B : Type} (f : A -> B) (p : B -> bool) (xs : list A) :
  map f (filter (fun x => p (f x)) xs) = filter p (map f xs).
Proof.
  induction xs as [| x xs IH]; simpl; [reflexivity |].
  destruct (p (f x)); simpl; rewrite IH; reflexivity.
Qed.

Lemma example_index_resolves_g (rows : list row) :
  Forall (fun r => row_filter r = "g") rows -> resolvable example_index rows.
Proof.
  intros Hall r Hin. rewrite Forall_forall in Hall. rewrite (Hall r Hin).
  discriminate.
Qed.

(** C3, as amended. With at least two input rows, every filter in the
    index and a row that passes the signal-to-noise test,
    [read_in_photometry] returns; the signal-to-noise test comes first,
    the times are then counted from the earliest row [t0] that passed it,
    and the window [start <= t <= end] is applied to the re-based times.
    Every output time is [>= 0]. If [start <= 0] and an observation
    survives, the least output time is 0; if [start > 0] every output
    time is [>= start]. *)
Theorem read_in_photometry_times (index : list svo_filter) (rows : list row)
    (dm redshift start end_ snr : R) :
  (2 <= List.length rows)%nat ->
  resolvable index rows ->
  snr_kept snr rows <> [] ->
  exists lc wv_corr flux_corr my_filters t0,
    read_in_photometry index rows dm redshift start end_ snr
    = Ok (lc, wv_corr, flux_corr, my_filters)
    /\ np.min (map row_time (snr_kept snr rows)) = Ok t0
    /\ lc_phases lc
       = filter (in_window start end_)
                (map (fun r => row_time r - t0) (snr_kept snr rows))
    /\ Forall (fun t => 0 <= t) (lc_phases lc)
    /\ (start <= 0 -> lc_phases lc <> [] -> np.min (lc_phases lc) = Ok 0)
    /\ (0 < start -> Forall (fun t => start <= t) (lc_phases lc)).
Proof.
  intros Hlen Hres Hkept.
  destruct (np_min_ok (map (flux_of index dm redshift) rows)) as [m Hm].
  { destruct rows; [simpl in Hlen; lia | discriminate]. }
  destruct (np_min_ok (map row_time (snr_kept snr rows))) as [t0 Ht0].
  { destruct (snr_kept snr rows); [congruence | discriminate]. }
  pose proof (read_in_photometry_rows index rows dm redshift start end_ snr m t0
                Hlen Hres Hm Ht0) as Hrun.
  cbv zeta in Hrun.
  eexists _, _, _, _, t0. split; [exact Hrun |]. split; [exact Ht0 |].
  cbn [lc_phases]. unfold window_kept.
  rewrite (filter_map_comm (fun r => row_time r - t0) (in_window start end_)).
  destruct (np_min_spec _ _ Ht0) as [Hin Hleast].
  set (rebased := map (fun r => row_time r - t0) (snr_kept snr rows)).
  assert (Hnonneg : Forall (fun t => 0 <= t) rebased).
  { unfold rebased. rewrite Forall_map in Hleast. rewrite Forall_map.
    revert Hleast. apply Forall_impl. intros r Hr. lra. }
  assert (Hzero : In 0 rebased).
  { unfold rebased. apply in_map_iff in Hin. destruct Hin as [r [Hr Hin]].
    apply in_map_iff. exists r. split; [lra | exact Hin]. }
  split; [reflexivity |].
  assert (Hout : Forall (fun t => 0 <= t) (filter (in_window start end_) rebased)).
  { rewrite Forall_forall in Hnonneg. apply Forall_forall.
    intros t Ht. apply filter_In in Ht. apply Hnonneg, Ht. }
  split; [exact Hout |]. split.
  - intros Hstart Hne. apply np_min_unique; [| exact Hout].
    apply filter_In. split; [exact Hzero |].
    apply in_window_spec. split; [exact Hstart |].
    destruct (filter (in_window start end_) rebased) as [| t ts] eqn:E; [congruence |].
    assert (Ht : In t (filter (in_window start end_) rebased)) by (rewrite E; left; reflexivity).
    apply filter_In in Ht. destruct Ht as [Ht Hw].
    apply in_window_spec in Hw. rewrite Forall_forall in Hnonneg.
    pose proof (Hnonneg t Ht). lra.
  - intros Hstart. apply Forall_forall. intros t Ht.
    apply filter_In in Ht. destruct Ht as [_ Hw].
    apply in_window_spec in Hw. lra.
Qed.

Lemma read_in_photometry_times_witness :
  exists lc wv_corr flux_corr my_filters t0,
    read_in_photometry example_index two_epochs 0 0 0 200 4
    = Ok (lc, wv_corr, flux_corr, my_filters)
    /\ np.min (map row_time (snr_kept 4 two_epochs)) = Ok t0
    /\ lc_phases lc
       = filter (in_window 0 200)
                (map (fun r => row_time r - t0) (snr_kept 4 two_epochs))
    /\ Forall (fun t => 0 <= t) (lc_phases lc)
    /\ (0 <= 0 -> lc_phases lc <> [] -> np.min (lc_phases lc) = Ok 0)
    /\ (0 < 0 -> Forall (fun t => 0 <= t) (lc_phases lc)).
Proof.
  apply (read_in_photometry_times example_index two_epochs 0 0 0 200 4).
  - simpl. lia.
  - apply example_index_resolves_g. repeat constructor.
  - unfold snr_kept, two_epochs, snr_ok. simpl. Rcompare. discriminate.
Defined.

Lemma snr_kept_two_epochs : snr_kept 4 two_epochs = two_epochs.
Proof.
  unfold snr_kept, two_epochs, snr_ok. simpl. Rcompare. reflexivity.
Qed.

(** C3 fails as stated: with the window starting at day 5 the
    observation at day 0 is cut after the times were re-based, one
    observation survives, and the least output time is 10. *)
Lemma read_in_photometry_min_time_counterexample :
  exists lc wv_corr flux_corr my_filters,
    read_in_photometry example_index two_epochs 0 0 5 200 4
    = Ok (lc, wv_corr, flux_corr, my_filters)
    /\ lc_phases lc = [10]
    /\ np.min (lc_phases lc) = Ok 10
    /\ np.min (lc_phases lc) <> Ok 0.
Proof.
  destruct (np_min_ok (map (flux_of example_index 0 0) two_epochs)) as [m Hm];
    [discriminate |].
  assert (Ht0 : np.min (map row_time (snr_kept 4 two_epochs)) = Ok 100).
  { rewrite snr_kept_two_epochs. simpl. f_equal.
    apply Rmin_left. lra. }
  pose proof (read_in_photometry_rows example_index two_epochs 0 0 5 200 4 m 100) as Hrun.
  cbv zeta in Hrun. rewrite snr_kept_two_epochs in Hrun, Ht0.
  eexists _, _, _, _. split.
  - apply Hrun; [simpl; lia | apply example_index_resolves_g; repeat constructor
                 | exact Hm | exact Ht0].
  - cbn [lc_phases]. unfold window_kept, two_epochs, in_window. simpl.
    Rcompare. simpl.
    replace (110 - 100) with 10 by lra.
    split; [reflexivity |]. split; [reflexivity |].
    intros H. injection H as H. lra.
Qed.

(** C10. The two offsets are computed from all input rows, before any
    row is discarded: [wv_corr] is the mean of the effective wavelengths
    of all rows, each divided by [1 + redshift], and [flux_corr] is the
    least log-flux of all rows minus 1. The rows that survive both
    filters have exactly these offsets subtracted from their wavelengths
    and log-fluxes. *)
Theorem normalization_context_from_all_rows (index : list svo_filter) (rows : list row)
    (dm redshift start end_ snr : R) :
  (2 <= List.length rows)%nat ->
  resolvable index rows ->
  snr_kept snr rows <> [] ->
  exists lc wv_corr flux_corr my_filters m t0,
    read_in_photometry index rows dm redshift start end_ snr
    = Ok (lc, wv_corr, flux_corr, my_filters)
    /\ wv_corr = np.mean (map (fun r => wv_eff_of index r / (1 + redshift)) rows)
    /\ np.min (map (flux_of index dm redshift) rows) = Ok m
    /\ flux_corr = m - 1
    /\ np.min (map row_time (snr_kept snr rows)) = Ok t0
    /\ lc_wv_effs lc
       = map (fun r => (wv_eff_of index r - wv_corr) / 1000)
             (window_kept start end_ t0 (snr_kept snr rows))
    /\ lc_fluxes lc
       = map (fun r => flux_of index dm redshift r - flux_corr)
             (window_kept start end_ t0 (snr_kept snr rows)).
Proof.
  intros Hlen Hres Hkept.
  destruct (np_min_ok (map (flux_of index dm redshift) rows)) as [m Hm].
  { destruct rows; [simpl in Hlen; lia | discriminate]. }
  destruct (np_min_ok (map row_time (snr_kept snr rows))) as [t0 Ht0].
  { destruct (snr_kept snr rows); [congruence | discriminate]. }
  pose proof (read_in_photometry_rows index rows dm redshift start end_ snr m t0
                Hlen Hres Hm Ht0) as Hrun.
  cbv zeta in Hrun.
  eexists _, _, _, _, m, t0. split; [exact Hrun |].
  cbn [lc_wv_effs lc_fluxes].
  repeat split; try assumption; try reflexivity. lra.
Qed.

Lemma normalization_context_from_all_rows_witness :
  exists lc wv_corr flux_corr my_filters m t0,
    read_in_photometry example_index two_epochs 0 0 5 200 4
    = Ok (lc, wv_corr, flux_corr, my_filters)
    /\ wv_corr = np.mean (map (fun r => wv_eff_of example_index r / (1 + 0)) two_epochs)
    /\ np.min (map (flux_of example_index 0 0) two_epochs) = Ok m
    /\ flux_corr = m - 1
    /\ np.min (map row_time (snr_kept 4 two_epochs)) = Ok t0
    /\ lc_wv_effs lc
       = map (fun r => (wv_eff_of example_index r - wv_corr) / 1000)
             (window_kept 5 200 t0 (snr_kept 4 two_epochs))
    /\ lc_fluxes lc
       = map (fun r => flux_of example_index 0 0 r - flux_corr)
             (window_kept 5 200 t0 (snr_kept 4 two_epochs)).
Proof.
  apply (normalization_context_from_all_rows example_index two_epochs 0 0 5 200 4).
  - simpl. lia.
  - apply example_index_resolves_g. repeat constructor.
  - rewrite snr_kept_two_epochs. discriminate.
Defined.

Lemma mean_pair (x y : R) : np.mean [x; y] = (x + y) / 2.
Proof. unfold np.mean, np.sum. simpl. lra. Qed.

(** C4, at redshift 0.25 with two observations in a filter of effective
    wavelength 4700: [wv_corr] is the mean 3760 of the de-redshifted
    wavelengths, but the wavelengths it is subtracted from are the raw
    ones, so each observation gets [(4700 - 3760) / 1000 = 0.94], where
    de-redshifting first gives [(4700 / 1.25 - 3760) / 1000 = 0]. *)
Theorem wavelengths_not_deredshifted :
  exists lc wv_corr flux_corr my_filters,
    read_in_photometry example_index two_epochs 0 0.25 0 200 4
    = Ok (lc, wv_corr, flux_corr, my_filters)
    /\ wv_corr = 3760
    /\ lc_wv_effs lc = [0.94; 0.94]
    /\ map (fun r => (wv_eff_of example_index r / (1 + 0.25) - wv_corr) / 1000) two_epochs
       = [0; 0].
Proof.
  destruct (np_min_ok (map (flux_of example_index 0 0.25) two_epochs)) as [m Hm];
    [discriminate |].
  assert (Ht0 : np.min (map row_time (snr_kept 4 two_epochs)) = Ok 100).
  { rewrite snr_kept_two_epochs. simpl. f_equal. apply Rmin_left. lra. }
  pose proof (read_in_photometry_rows example_index two_epochs 0 0.25 0 200 4 m 100) as Hrun.
  cbv zeta in Hrun. rewrite snr_kept_two_epochs in Hrun, Ht0.
  assert (Hwc : np.mean (map (fun r => wv_eff_of example_index r / (1 + 0.25)) two_epochs)
                = 3760).
  { unfold two_epochs, wv_eff_of. simpl. rewrite mean_pair. lra. }
  rewrite Hwc in Hrun.
  eexists _, _, _, _. split.
  - apply Hrun; [simpl; lia | apply example_index_resolves_g; repeat constructor
                 | exact Hm | exact Ht0].
  - split; [reflexivity |]. cbn [lc_wv_effs].
    unfold window_kept, two_epochs, in_window, wv_eff_of. simpl.
    Rcompare. simpl.
    split; repeat (f_equal; try lra).
Qed.

(** ** [fit_template] on two filters *)

Lemma mean_4000 : np.mean [1; 1; 1] = 1.
Proof. unfold np.mean, np.sum. simpl. lra. Qed.

Lemma mean_6000 : np.mean [5; 7; 5; 7] = 6.
Proof. unfold np.mean, np.sum. simpl. lra. Qed.

Ltac unfold_two_filters :=
  unfold two_filter_filts, two_filter_flux, two_filter_time, two_filter_errs,
    two_filter_wv.

Lemma fit_4000 :
  fit_one_filter fit_flat flat_template two_filter_wv two_filter_filts 5000
    two_filter_flux two_filter_time two_filter_errs 0 4000
  = Ok (1, 0, 1 + 0, 0).
Proof.
  unfold fit_one_filter, fit_flat. unfold_two_filters.
  simpl np.where_. Rcompare. simpl.
  rewrite mean_4000. unfold chi_square, model, flat_template. Reval.
  repeat f_equal. lra.
Qed.

Lemma fit_6000 :
  fit_one_filter fit_flat flat_template two_filter_wv two_filter_filts 5000
    two_filter_flux two_filter_time two_filter_errs 0 6000
  = Ok (6, 0, 1 + 0, 8).
Proof.
  unfold fit_one_filter, fit_flat. unfold_two_filters.
  simpl np.where_. Rcompare. simpl.
  rewrite mean_6000. unfold chi_square, model, flat_template. Reval.
  repeat f_equal; lra.
Qed.

(** C1, on three observations at 4000 Angstrom (log-flux 1 each) and
    four at 6000 Angstrom (log-fluxes 5, 7, 5, 7), fitted with a flat
    template. [fit_template] scores the amplitude 1 fitted to the first
    filter with 0 and the amplitude 6 fitted to the second with 8, and
    returns the amplitude 1: each score is summed over the filters of
    [wv], but every term compares the candidate's own observations with
    the template. Against the observations of both filters the amplitude
    1 scores 104 and the amplitude 6 scores 79, so the candidate that
    minimises the aggregate over every filter's data is the other one. *)
Theorem fit_template_scores_own_data_only :
  fit_template fit_flat two_filter_wv flat_template two_filter_filts 5000
    two_filter_flux two_filter_time two_filter_errs 0 true true
  = Ok (ParamsAndChi 1 0 (1 + 0) 0)
  /\ chi_all_filters_from flat_template two_filter_wv two_filter_filts 5000
       two_filter_flux two_filter_time two_filter_errs (1, 0, 1 + 0) 0 = Ok 104
  /\ chi_all_filters_from flat_template two_filter_wv two_filter_filts 5000
       two_filter_flux two_filter_time two_filter_errs (6, 0, 1 + 0) 0 = Ok 79.
Proof.
  split; [| split].
  - unfold fit_template. unfold two_filter_wv at 2. cbn [mapM].
    rewrite fit_4000, fit_6000. simpl. Rcompare. reflexivity.
  - unfold_two_filters. unfold flat_template.
    simpl. Reval. unfold chi_square, model. Reval.
    f_equal. lra.
  - unfold_two_filters. unfold flat_template.
    simpl. Reval. unfold chi_square, model. Reval.
    f_equal. lra.
Qed.

(** ** [interpolate] *)

Lemma epsilon_pos : 0 < epsilon.
Proof. unfold epsilon. lra. Qed.

Lemma take_where_same {A B : Type} (f : A -> B) (p : A -> bool) (rows : list A) :
  np.take (map f rows) (np.where_ p rows 0) = Ok (map f (filter p rows)).
Proof.
  pose proof (take_where f (fun x => x) p rows) as H.
  rewrite map_id in H. exact H.
Qed.

Lemma mapM_ok {A B : Type} (f : A -> result B) (g : A -> B) (xs : list A) :
  (forall x, In x xs -> f x = Ok (g x)) -> mapM f xs = Ok (map g xs).
Proof.
  induction xs as [| x xs IH]; intros H; simpl.
  - reflexivity.
  - rewrite (H x) by (left; reflexivity). cbn [bind].
    rewrite IH by (intros y Hy; apply H; right; exact Hy).
    reflexivity.
Qed.

Lemma filter_none_close (u : R) (l : list R) :
  Forall (fun v => epsilon <= Rabs (u - v)) l ->
  filter (fun v => Rltb (Rabs (v - u)) epsilon) l = [].
Proof.
  induction 1 as [| v l Hv _ IH]; simpl; [reflexivity |].
  rewrite Rltb_false by (rewrite Rabs_minus_sym; exact Hv).
  exact IH.
Qed.

Lemma separated_filter (u : R) (l : list R) :
  separated l -> In u l ->
  filter (fun v => Rltb (Rabs (v - u)) epsilon) l = [u].
Proof.
  unfold separated. induction 1 as [| a l Ha _ IH]; intros Hin; [contradiction |].
  pose proof epsilon_pos as Heps.
  simpl. destruct (Req_dec_T a u) as [-> | Hne].
  - rewrite Rltb_true by (rewrite Rminus_diag, Rabs_R0; exact Heps).
    rewrite filter_none_close by exact Ha. reflexivity.
  - destruct Hin as [Hin | Hin]; [contradiction |].
    rewrite Forall_forall in Ha.
    rewrite Rltb_false by (apply Ha; exact Hin).
    apply IH, Hin.
Qed.

Lemma filter_query_points (p : R -> bool) (times ufilts : list R) :
  filter (fun x => p (snd x)) (query_points times ufilts)
  = query_points times (filter p ufilts).
Proof.
  unfold query_points. induction times as [| t times IH]; simpl; [reflexivity |].
  rewrite filter_app, IH. f_equal.
  clear IH. induction ufilts as [| u ufilts IHu]; simpl; [reflexivity |].
  destruct (p u); simpl; rewrite IHu; reflexivity.
Qed.

Lemma query_points_single (times : list R) (u : R) :
  query_points times [u] = map (fun t => (t, u)) times.
Proof.
  unfold query_points. induction times as [| t times IH]; simpl; [reflexivity |].
  now f_equal.
Qed.

Lemma assign_column_same {A : Type} (n : nat) (vals : list A) :
  List.length vals = n -> assign_column n vals = Ok vals.
Proof.
  intros H. unfold assign_column. rewrite (proj2 (Nat.eqb_eq _ _) H). reflexivity.
Qed.

Lemma dense_column_separated (times ufilts : list R) (gm gv : R * R -> R) (u : R) :
  separated ufilts -> In u ufilts ->
  dense_column (List.length times) (query_points times ufilts)
    (map gm (query_points times ufilts)) (map gv (query_points times ufilts)) u
  = Ok (map (fun t => gm (t, u)) times,
        map (fun t => npf.sqrt (Fin (gv (t, u)))) times).
Proof.
  intros Hsep Hin. unfold dense_column.
  rewrite !take_where_same.
  rewrite (filter_query_points (fun v => Rltb (Rabs (v - u)) epsilon)).
  rewrite (separated_filter u ufilts Hsep Hin), query_points_single.
  rewrite !map_map. cbn [bind].
  rewrite assign_column_same by (rewrite length_map; reflexivity). cbn [bind].
  rewrite assign_column_same by (rewrite !length_map; reflexivity). cbn [bind].
  rewrite map_map. reflexivity.
Qed.

Lemma map_nth_seq {A B : Type} (f : A -> B) (d : A) (l : list A) :
  map (fun i => f (nth i l d)) (seq 0 (List.length l)) = map f l.
Proof.
  induction l as [| x l IH]; simpl; [reflexivity |].
  f_equal. rewrite <- seq_shift, map_map. exact IH.
Qed.

Lemma dstack_columns (times ufilts : list R) (gm : R * R -> R) (gv : R * R -> npfloat) :
  dstack (List.length times)
    (map (fun u => (map (fun t => gm (t, u)) times, map (fun t => gv (t, u)) times)) ufilts)
  = map (fun t => map (fun u => (gm (t, u), gv (t, u))) ufilts) times.
Proof.
  unfold dstack.
  rewrite <- (map_nth_seq (fun t => map (fun u => (gm (t, u), gv (t, u))) ufilts) 0 times).
  apply map_ext_in. intros i Hi. apply in_seq in Hi.
  rewrite map_map. apply map_ext. intros u. cbn [fst snd].
  f_equal.
  - rewrite (nth_indep _ 0 (gm (0, u))) by (rewrite length_map; lia).
    rewrite (map_nth (fun t => gm (t, u))). reflexivity.
  - rewrite (nth_indep _ NaN (gv (0, u))) by (rewrite length_map; lia).
    rewrite (map_nth (fun t => gv (t, u))). reflexivity.
Qed.

(** C2, on two observations in filters 0.05 Angstrom apart: the Gaussian
    process is fitted and [np.unique] counts two filters, but the test of
    line 446 selects the predictions of both filters for each column, and
    the assignment of four values to a column of two raises; no dense
    light curve is produced. *)
Theorem interpolate_close_filters_raise :
  env_gp constant_gp_env (np.var (lc_fluxes close_filters_lc)) (fun _ => 0)
    (combine (lc_phases close_filters_lc) (lc_wv_effs close_filters_lc))
    (lc_errs close_filters_lc) (lc_fluxes close_filters_lc) = Ok constant_gp
  /\ np.unique (lc_wv_effs close_filters_lc) = [-0.000025; 0.000025]
  /\ interpolate constant_gp_env close_filters_lc 4700.025 "0" false 0
     = Raise (ValueError "could not broadcast input array").
Proof.
  assert (Hu : np.unique (lc_wv_effs close_filters_lc) = [-0.000025; 0.000025]).
  { unfold np.unique, np.unique_index, close_filters_lc. simpl. Rcompare. reflexivity. }
  split; [reflexivity |]. split; [exact Hu |].
  unfold interpolate. cbn [mean_function bind constant_gp_env env_gp].
  rewrite Hu. unfold query_points, close_filters_lc. cbn [lc_phases flat_map map app].
  cbn [mapM]. unfold dense_column at 1. cbn [np.where_ snd].
  unfold epsilon.
  rewrite (Rltb_true (Rabs (-0.000025 - -0.000025)))
    by (rewrite Rminus_diag, Rabs_R0; lra).
  rewrite (Rltb_true (Rabs (0.000025 - -0.000025))) by (rewrite Rabs_pos_eq; lra).
  reflexivity.
Qed.

Lemma interpolate_separated (env : interpolate_env) (lc : lightcurve) (wv_corr : R)
    (sn_type : string) (use_mean : bool) (z : R)
    (mean : R * R -> R) (test_y : list (list R)) (test_times : list R)
    (gp : gp_posterior) :
  mean_function env lc wv_corr sn_type use_mean z = Ok (mean, test_y, test_times) ->
  env_gp env (np.var (lc_fluxes lc)) mean (combine (lc_phases lc) (lc_wv_effs lc))
    (lc_errs lc) (lc_fluxes lc) = Ok gp ->
  separated (np.unique (lc_wv_effs lc)) ->
  interpolate env lc wv_corr sn_type use_mean z
  = Ok (map (fun t => map (fun u => (gp_mean gp (t, u), npf.sqrt (Fin (gp_var gp (t, u)))))
                          (np.unique (lc_wv_effs lc)))
            (lc_phases lc),
        test_y, test_times).
Proof.
  intros Hmean Hgp Hsep.
  unfold interpolate. rewrite Hmean. cbn [bind]. rewrite Hgp. cbn [bind].
  set (times := lc_phases lc). set (ufilts := np.unique (lc_wv_effs lc)) in *.
  rewrite (mapM_ok _ (fun u => (map (fun t => gp_mean gp (t, u)) times,
                                map (fun t => npf.sqrt (Fin (gp_var gp (t, u)))) times))).
  - cbn [bind].
    rewrite (dstack_columns times ufilts (gp_mean gp)
               (fun x => npf.sqrt (Fin (gp_var gp x)))).
    reflexivity.
  - intros u Hu.
    apply (dense_column_separated times ufilts (gp_mean gp) (gp_var gp) u Hsep Hu).
Qed.

(** X13. The dense light curve away from that case. After a successful
    Gaussian-process fit, and when any two of the unique filter
    wavelengths are at least [epsilon] apart, [interpolate] returns; the
    dense light curve has one row per observation (the rows of [lc]) and
    in each row one entry per unique filter, that is [len(lc) * nfilts]
    entries in all; the entry for time [t] and filter [u] is the
    predicted mean at the query point [(t, u)], paired with the square
    root of the predicted variance there. *)
Theorem interpolate_dense_lc (env : interpolate_env) (lc : lightcurve) (wv_corr : R)
    (sn_type : string) (use_mean : bool) (z : R)
    (mean : R * R -> R) (test_y : list (list R)) (test_times : list R)
    (gp : gp_posterior) :
  mean_function env lc wv_corr sn_type use_mean z = Ok (mean, test_y, test_times) ->
  env_gp env (np.var (lc_fluxes lc)) mean (combine (lc_phases lc) (lc_wv_effs lc))
    (lc_errs lc) (lc_fluxes lc) = Ok gp ->
  separated (np.unique (lc_wv_effs lc)) ->
  let times := lc_phases lc in
  let ufilts := np.unique (lc_wv_effs lc) in
  let dense_lc :=
    map (fun t => map (fun u => (gp_mean gp (t, u), npf.sqrt (Fin (gp_var gp (t, u)))))
                      ufilts) times in
  interpolate env lc wv_corr sn_type use_mean z = Ok (dense_lc, test_y, test_times)
  /\ List.length dense_lc = List.length times
  /\ Forall (fun datapoint => List.length datapoint = List.length ufilts) dense_lc
  /\ List.length (List.concat dense_lc) = (List.length times * List.length ufilts)%nat.
Proof.
  intros Hmean Hgp Hsep times ufilts dense_lc.
  assert (Hrows : Forall (fun datapoint => List.length datapoint = List.length ufilts) dense_lc).
  { unfold dense_lc. apply Forall_forall. intros datapoint Hin.
    apply in_map_iff in Hin. destruct Hin as [t [<- _]]. apply length_map. }
  split; [| split; [apply length_map | split; [exact Hrows |]]].
  - apply (interpolate_separated env lc wv_corr sn_type use_mean z mean); assumption.
  - clear -Hrows. unfold dense_lc in *. clear dense_lc.
    induction times as [| t ts IH]; simpl; [reflexivity |].
    rewrite length_app, length_map. f_equal. apply IH.
    apply Forall_forall. intros d Hd. apply in_map_iff in Hd.
    destruct Hd as [t' [<- _]]. apply length_map.
Qed.

Lemma mapM_inv {A B : Type} (f : A -> result B) (g : A -> B) (xs : list A) (ys : list B) :
  mapM f xs = Ok ys ->
  (forall x y, In x xs -> f x = Ok y -> y = g x) ->
  ys = map g xs.
Proof.
  revert ys. induction xs as [| x xs IH]; intros ys H Hg; simpl in H.
  - injection H as <-. reflexivity.
  - destruct (f x) as [y |] eqn:Ey; cbn [bind] in H; [| discriminate].
    destruct (mapM f xs) as [ys' |]; cbn [bind] in H; [| discriminate].
    injection H as <-. simpl. f_equal.
    + apply Hg; [left; reflexivity | exact Ey].
    + apply IH; [reflexivity |]. intros x' y' Hin. apply Hg. right. exact Hin.
Qed.

Lemma length_query_points (times ufilts : list R) :
  List.length (query_points times ufilts) = (List.length times * List.length ufilts)%nat.
Proof.
  unfold query_points. induction times as [| t times IH]; simpl; [reflexivity |].
  rewrite length_app, length_map, IH. reflexivity.
Qed.

Lemma close_to_itself (u : R) (l : list R) :
  In u l -> In u (filter (fun v => Rltb (Rabs (v - u)) epsilon) l).
Proof.
  intros Hin. apply filter_In. split; [exact Hin |].
  apply Rltb_true. rewrite Rminus_diag, Rabs_R0. exact epsilon_pos.
Qed.

Lemma assign_column_inv {A : Type} (n : nat) (vals out : list A) :
  assign_column n vals = Ok out ->
  (List.length vals = n /\ out = vals) \/ (List.length vals = 1%nat /\ n <> 1%nat).
Proof.
  unfold assign_column.
  destruct (Nat.eqb_spec (List.length vals) n) as [H | H].
  - intros E. injection E as <-. left. split; [exact H | reflexivity].
  - destruct vals as [| v [| v' vals]]; try discriminate.
    intros _. right. split; [reflexivity |]. simpl in H. congruence.
Qed.

(** Whenever [dense_column] returns, the column holds the predictions for
    its own filter at every observation time. *)
Lemma dense_column_inv (times ufilts : list R) (gm gv : R * R -> R) (u : R)
    (fluxes : list R) (errs : list npfloat) :
  In u ufilts ->
  dense_column (List.length times) (query_points times ufilts)
    (map gm (query_points times ufilts)) (map gv (query_points times ufilts)) u
  = Ok (fluxes, errs) ->
  (fluxes, errs) = (map (fun t => gm (t, u)) times,
                    map (fun t => npf.sqrt (Fin (gv (t, u)))) times).
Proof.
  intros Hin Hcol. unfold dense_column in Hcol.
  rewrite !take_where_same in Hcol.
  rewrite (filter_query_points (fun v => Rltb (Rabs (v - u)) epsilon)) in Hcol.
  cbn [bind] in Hcol.
  set (close := filter (fun v => Rltb (Rabs (v - u)) epsilon) ufilts) in *.
  assert (Hu : In u close) by (apply close_to_itself; exact Hin).
  destruct (assign_column (List.length times) (map gm (query_points times close)))
    as [fl |] eqn:Efl; cbn [bind] in Hcol; [| discriminate].
  destruct (assign_column (List.length times)
              (map (fun v => npf.sqrt (Fin v)) (map gv (query_points times close))))
    as [er |] eqn:Eer; cbn [bind] in Hcol; [| discriminate].
  injection Hcol as <- <-.
  apply assign_column_inv in Efl. apply assign_column_inv in Eer.
  rewrite !length_map in Efl. rewrite !length_map in Eer.
  rewrite !length_query_points in Efl. rewrite !length_query_points in Eer.
  destruct (Nat.eq_dec (List.length times) 0) as [Hzero | Hpos].
  - (* no observation: every column is empty *)
    destruct times; [| discriminate]. simpl in Efl, Eer.
    destruct Efl as [[_ ->] | [H _]]; [| discriminate].
    destruct Eer as [[_ ->] | [H _]]; [| discriminate].
    reflexivity.
  - assert (Hclose : close = [u]).
    { assert (Hk : List.length close = 1%nat).
      { destruct Efl as [[H _] | [H Hn1]]; [nia |].
        destruct (List.length close) as [| [| k]]; [| reflexivity |]; nia. }
      destruct close as [| v [| v' rest]]; try discriminate.
      destruct Hu as [-> | []]. reflexivity. }
    rewrite Hclose in Efl, Eer. simpl List.length in Efl, Eer.
    rewrite query_points_single in Efl, Eer.
    destruct Efl as [[_ ->] | [H Hn1]]; [| lia].
    destruct Eer as [[_ ->] | [H Hn1]]; [| lia].
    rewrite !map_map. reflexivity.
Qed.

(** Whenever [interpolate] returns, the Gaussian process was fitted and
    the dense light curve has one row per observation and one entry per
    unique filter, the prediction at that time and filter. *)
Lemma interpolate_inv (env : interpolate_env) (lc : lightcurve) (wv_corr : R)
    (sn_type : string) (use_mean : bool) (z : R)
    (dense_lc : list (list (R * npfloat))) (test_y : list (list R)) (test_times : list R) :
  interpolate env lc wv_corr sn_type use_mean z = Ok (dense_lc, test_y, test_times) ->
  exists mean gp,
    mean_function env lc wv_corr sn_type use_mean z = Ok (mean, test_y, test_times)
    /\ env_gp env (np.var (lc_fluxes lc)) mean (combine (lc_phases lc) (lc_wv_effs lc))
         (lc_errs lc) (lc_fluxes lc) = Ok gp
    /\ dense_lc
       = map (fun t => map (fun u => (gp_mean gp (t, u), npf.sqrt (Fin (gp_var gp (t, u)))))
                          (np.unique (lc_wv_effs lc)))
             (lc_phases lc).
Proof.
  unfold interpolate. intros H.
  apply bind_ok in H. destruct H as [[[mean ty] tt] [Hmean H]].
  apply bind_ok in H. destruct H as [gp [Hgp H]].
  apply bind_ok in H. destruct H as [columns [Hcols H]].
  injection H as <- <- <-.
  exists mean, gp. split; [exact Hmean |]. split; [exact Hgp |].
  set (times := lc_phases lc) in *. set (ufilts := np.unique (lc_wv_effs lc)) in *.
  rewrite (mapM_inv _ (fun u => (map (fun t => gp_mean gp (t, u)) times,
                                 map (fun t => npf.sqrt (Fin (gp_var gp (t, u)))) times))
             _ _ Hcols).
  - apply (dstack_columns times ufilts (gp_mean gp) (fun x => npf.sqrt (Fin (gp_var gp x)))).
  - intros u [fluxes errs] Hu Hcol.
    apply (dense_column_inv times ufilts (gp_mean gp) (gp_var gp) u fluxes errs Hu Hcol).
Qed.

Lemma unique_far_filters : np.unique (lc_wv_effs far_filters_lc) = [-0.75; 0.75].
Proof.
  unfold np.unique, np.unique_index, far_filters_lc. simpl. Rcompare. reflexivity.
Qed.

Lemma interpolate_dense_lc_witness :
  let times := lc_phases far_filters_lc in
  let ufilts := np.unique (lc_wv_effs far_filters_lc) in
  let dense_lc :=
    map (fun t => map (fun u => (gp_mean constant_gp (t, u),
                                 npf.sqrt (Fin (gp_var constant_gp (t, u)))))
                      ufilts) times in
  interpolate constant_gp_env far_filters_lc 5450 "0" false 0 = Ok (dense_lc, [], [])
  /\ List.length dense_lc = List.length times
  /\ Forall (fun datapoint => List.length datapoint = List.length ufilts) dense_lc
  /\ List.length (List.concat dense_lc) = (List.length times * List.length ufilts)%nat.
Proof.
  apply (interpolate_dense_lc constant_gp_env far_filters_lc 5450 "0" false 0
           (fun _ => 0) [] [] constant_gp).
  - reflexivity.
  - reflexivity.
  - unfold separated. rewrite unique_far_filters.
    repeat constructor. unfold epsilon, Rabs.
    destruct (Rcase_abs (-0.75 - 0.75)); lra.
Defined.

(** ** [fit_bb] *)

Lemma mapM_total {A B : Type} (f : A -> result B) (xs : list A) :
  Forall (fun x => exists y, f x = Ok y) xs ->
  exists ys, mapM f xs = Ok ys /\ Forall2 (fun x y => f x = Ok y) xs ys.
Proof.
  induction 1 as [| x xs [y Hy] _ [ys [Hys Hall]]]; simpl.
  - exists []. split; [reflexivity | constructor].
  - exists (y :: ys). rewrite Hy. cbn [bind]. rewrite Hys. cbn [bind].
    split; [reflexivity | constructor; assumption].
Qed.

Lemma Forall2_nth_error {A B : Type} (P : A -> B -> Prop) (xs : list A) (ys : list B) :
  Forall2 P xs ys ->
  forall i x, nth_error xs i = Some x -> exists y, nth_error ys i = Some y /\ P x y.
Proof.
  induction 1 as [| x0 y0 xs ys HP _ IH]; intros i x Hi.
  - destruct i; discriminate.
  - destruct i as [| i]; simpl in *.
    + injection Hi as <-. exists y0. split; [reflexivity | exact HP].
    + apply IH, Hi.
Qed.

Lemma broadcast2_same {A B C : Type} (f : A -> B -> C) (xs : list A) (ys : list B) :
  List.length xs = List.length ys ->
  broadcast2 f xs ys = Ok (map (fun xy => f (fst xy) (snd xy)) (combine xs ys)).
Proof.
  intros H. unfold broadcast2. rewrite (proj2 (Nat.eqb_eq _ _) H). reflexivity.
Qed.

Lemma epoch_flam_ok (datapoint : list (R * npfloat)) (wvs : list R) :
  List.length datapoint = List.length wvs ->
  exists flam flam_err, epoch_flam datapoint wvs = Ok (flam, flam_err).
Proof.
  intros H. unfold epoch_flam.
  rewrite broadcast2_same by (rewrite !length_map; exact H). cbn [bind].
  rewrite broadcast2_same by (rewrite !length_map; exact H). cbn [bind].
  eexists _, _. reflexivity.
Qed.

(** C6. On a dense light curve whose epochs have one entry per
    wavelength of [wvs], [fit_bb] returns four arrays with one entry per
    epoch, whatever [curve_fit] does. For an epoch whose fit raises, the
    four entries are [nan]; for an epoch whose fit returns, the
    temperature is the first fitted parameter, the radius the absolute
    value of the second, and the errors the square roots of the diagonal
    of the covariance matrix. *)
Theorem fit_bb_epochs (curve_fit : curve_fit2) (dense_lc : list (list (R * npfloat)))
    (wvs : list R) :
  Forall (fun datapoint => List.length datapoint = List.length wvs) dense_lc ->
  exists T_arr R_arr Terr_arr Rerr_arr,
    fit_bb curve_fit dense_lc wvs = Ok (T_arr, R_arr, Terr_arr, Rerr_arr)
    /\ List.length T_arr = List.length dense_lc
    /\ List.length R_arr = List.length dense_lc
    /\ List.length Terr_arr = List.length dense_lc
    /\ List.length Rerr_arr = List.length dense_lc
    /\ forall i datapoint,
         nth_error dense_lc i = Some datapoint ->
         exists flam flam_err,
           epoch_flam datapoint wvs = Ok (flam, flam_err)
           /\ match curve_fit bbody wvs flam (9000, 1e15) flam_err with
              | Raise _ =>
                  nth_error T_arr i = Some NaN
                  /\ nth_error R_arr i = Some NaN
                  /\ nth_error Terr_arr i = Some NaN
                  /\ nth_error Rerr_arr i = Some NaN
              | Ok fit =>
                  nth_error T_arr i = Some (fst (BBparams fit))
                  /\ nth_error R_arr i = Some (npf.abs (snd (BBparams fit)))
                  /\ nth_error Terr_arr i = Some (npf.sqrt (fst (fst (covar fit))))
                  /\ nth_error Rerr_arr i = Some (npf.sqrt (snd (snd (covar fit))))
              end.
Proof.
  intros Hshape.
  destruct (mapM_total (fit_epoch curve_fit wvs) dense_lc) as [fits [Hfits Hall]].
  { revert Hshape. apply Forall_impl. intros datapoint Hlen.
    destruct (epoch_flam_ok datapoint wvs Hlen) as [flam [flam_err H]].
    unfold fit_epoch. rewrite H. cbn [bind]. eexists. reflexivity. }
  unfold fit_bb. rewrite Hfits. cbn [bind].
  eexists _, _, _, _. split; [reflexivity |].
  rewrite !length_map, <- (Forall2_length Hall).
  repeat (split; [reflexivity |]).
  intros i datapoint Hi.
  destruct (Forall2_nth_error _ _ _ Hall i datapoint Hi) as [fit [Hfit Hrun]].
  rewrite Forall_forall in Hshape.
  destruct (epoch_flam_ok datapoint wvs (Hshape _ (nth_error_In _ _ Hi)))
    as [flam [flam_err Hflam]].
  exists flam, flam_err. split; [exact Hflam |].
  unfold fit_epoch in Hrun. rewrite Hflam in Hrun. cbn [bind] in Hrun.
  injection Hrun as <-.
  rewrite !nth_error_map, Hfit. unfold try_fit, diag.
  destruct (curve_fit bbody wvs flam (9000, 1e15) flam_err); cbn; repeat split.
Qed.

Lemma fit_bb_epochs_witness :
  exists T_arr R_arr Terr_arr Rerr_arr,
    fit_bb never_converges two_epoch_dense_lc two_wvs = Ok (T_arr, R_arr, Terr_arr, Rerr_arr)
    /\ List.length T_arr = List.length two_epoch_dense_lc
    /\ List.length R_arr = List.length two_epoch_dense_lc
    /\ List.length Terr_arr = List.length two_epoch_dense_lc
    /\ List.length Rerr_arr = List.length two_epoch_dense_lc
    /\ forall i datapoint,
         nth_error two_epoch_dense_lc i = Some datapoint ->
         exists flam flam_err,
           epoch_flam datapoint two_wvs = Ok (flam, flam_err)
           /\ match never_converges bbody two_wvs flam (9000, 1e15) flam_err with
              | Raise _ =>
                  nth_error T_arr i = Some NaN
                  /\ nth_error R_arr i = Some NaN
                  /\ nth_error Terr_arr i = Some NaN
                  /\ nth_error Rerr_arr i = Some NaN
              | Ok fit =>
                  nth_error T_arr i = Some (fst (BBparams fit))
                  /\ nth_error R_arr i = Some (npf.abs (snd (BBparams fit)))
                  /\ nth_error Terr_arr i = Some (npf.sqrt (fst (fst (covar fit))))
                  /\ nth_error Rerr_arr i = Some (npf.sqrt (snd (snd (covar fit))))
              end.
Proof.
  apply (fit_bb_epochs never_converges two_epoch_dense_lc two_wvs).
  repeat constructor.
Defined.

(** ** Bolometric luminosity *)

Lemma fit_bb_arrays (curve_fit : curve_fit2) (dense_lc : list (list (R * npfloat)))
    (wvs : list R) (T_arr R_arr Terr_arr Rerr_arr : list npfloat) :
  fit_bb curve_fit dense_lc wvs = Ok (T_arr, R_arr, Terr_arr, Rerr_arr) ->
  exists fits : list (npfloat * npfloat * npfloat * npfloat),
    List.length fits = List.length dense_lc
    /\ T_arr = map (fun f => fst (fst (fst f))) fits
    /\ R_arr = map (fun f => snd (fst (fst f))) fits
    /\ Terr_arr = map (fun f => snd (fst f)) fits
    /\ Rerr_arr = map snd fits.
Proof.
  unfold fit_bb. intros H.
  destruct (mapM (fit_epoch curve_fit wvs) dense_lc) as [fits | e] eqn:E;
    cbn [bind] in H; [| discriminate].
  injection H as <- <- <- <-.
  exists fits. repeat split.
  clear -E. revert fits E.
  induction dense_lc as [| d ds IH]; intros fits E; simpl in E.
  - injection E as <-. reflexivity.
  - destruct (fit_epoch curve_fit wvs d); cbn [bind] in E; [| discriminate].
    destruct (mapM (fit_epoch curve_fit wvs) ds); cbn [bind] in E; [| discriminate].
    injection E as <-. simpl. f_equal. apply IH. reflexivity.
Qed.

Lemma combine_map_same {A B C : Type} (f : A -> B) (g : A -> C) (l : list A) :
  combine (map f l) (map g l) = map (fun x => (f x, g x)) l.
Proof.
  induction l as [| x l IH]; simpl; [reflexivity | rewrite IH; reflexivity].
Qed.

Lemma np_sqrt_nonneg (x : R) : 0 <= x -> npf.sqrt (Fin x) = Fin (sqrt x).
Proof.
  intros H. unfold npf.sqrt. rewrite Rltb_false by exact H. reflexivity.
Qed.

Lemma bol_lum1_fin (R_ T : R) :
  bol_lum1 (Fin R_) (Fin T) = Fin (4 * PI * R_ ^ 2 * sigsb * T ^ 4).
Proof. reflexivity. Qed.

Lemma bol_err1_fin (R_ T Rerr Terr : R) :
  bol_err1 (Fin R_) (Fin T) (Fin Rerr) (Fin Terr)
  = Fin (4 * PI * sigsb
         * sqrt ((2 * R_ * T ^ 4 * Rerr) ^ 2 + (4 * T ^ 3 * R_ ^ 2 * Terr) ^ 2)).
Proof.
  unfold bol_err1. cbn [npf.mul npf.pow npf.add npf.lift1 npf.lift2].
  rewrite np_sqrt_nonneg; [reflexivity |].
  apply Rplus_le_le_0_compat; apply pow2_ge_0.
Qed.

Lemma bol_lum1_nan (R_ T : npfloat) : R_ = NaN \/ T = NaN -> bol_lum1 R_ T = NaN.
Proof.
  intros [-> | ->]; [reflexivity |]. destruct R_; reflexivity.
Qed.

(** C7. On the arrays [fit_bb] returns: for an epoch whose temperature
    [T], radius [R] and errors are defined, the luminosity is
    [4 pi R^2 sigsb T^4] and its error
    [4 pi sigsb sqrt((2 R T^4 R_err)^2 + (4 T^3 R^2 T_err)^2)]; for an
    epoch whose temperature or radius is [nan], the luminosity is [nan];
    and for [T = 10000] and [R = 1e15] the luminosity is the closed
    form. *)
Theorem bolometric_luminosity_epochs (curve_fit : curve_fit2)
    (dense_lc : list (list (R * npfloat))) (wvs : list R)
    (T_arr R_arr Terr_arr Rerr_arr : list npfloat) :
  fit_bb curve_fit dense_lc wvs = Ok (T_arr, R_arr, Terr_arr, Rerr_arr) ->
  let bol_lum := bolometric_luminosity R_arr T_arr in
  let bol_err := bolometric_error R_arr T_arr Rerr_arr Terr_arr in
  List.length bol_lum = List.length dense_lc
  /\ List.length bol_err = List.length dense_lc
  /\ (forall i T R_ T_err R_err,
        nth_error T_arr i = Some (Fin T) ->
        nth_error R_arr i = Some (Fin R_) ->
        nth_error Terr_arr i = Some (Fin T_err) ->
        nth_error Rerr_arr i = Some (Fin R_err) ->
        nth_error bol_lum i = Some (Fin (4 * PI * R_ ^ 2 * sigsb * T ^ 4))
        /\ nth_error bol_err i
           = Some (Fin (4 * PI * sigsb
                        * sqrt ((2 * R_ * T ^ 4 * R_err) ^ 2
                                + (4 * T ^ 3 * R_ ^ 2 * T_err) ^ 2))))
  /\ (forall i,
        nth_error T_arr i = Some NaN \/ nth_error R_arr i = Some NaN ->
        nth_error bol_lum i = Some NaN)
  /\ bol_lum1 (Fin 1e15) (Fin 10000) = Fin (4 * PI * 1e15 ^ 2 * sigsb * 10000 ^ 4).
Proof.
  intros Hfit bol_lum bol_err.
  destruct (fit_bb_arrays _ _ _ _ _ _ _ Hfit) as [fits [Hlen [-> [-> [-> ->]]]]].
  unfold bol_lum, bol_err, bolometric_luminosity, bolometric_error.
  rewrite !combine_map_same, !map_map. cbn [fst snd].
  rewrite !length_map.
  split; [exact Hlen |]. split; [exact Hlen |]. split; [| split].
  - intros i T R_ T_err R_err HT HR HTe HRe.
    rewrite nth_error_map in HT, HR, HTe, HRe. rewrite !nth_error_map.
    destruct (nth_error fits i) as [[[[T' R'] Te'] Re'] |]; [| discriminate].
    cbn [option_map fst snd] in HT, HR, HTe, HRe |- *.
    injection HT as ->. injection HR as ->. injection HTe as ->. injection HRe as ->.
    rewrite bol_err1_fin. split; reflexivity.
  - intros i H. rewrite !nth_error_map in H. rewrite nth_error_map.
    destruct (nth_error fits i) as [[[[T' R'] Te'] Re'] |];
      cbn [option_map fst snd] in H |- *.
    + f_equal. apply bol_lum1_nan.
      destruct H as [H | H]; injection H as ->; [right | left]; reflexivity.
    + destruct H; discriminate.
  - reflexivity.
Qed.

Lemma bolometric_luminosity_epochs_witness :
  let T_arr := [Fin 10000; Fin 10000] in
  let R_arr := [npf.abs (Fin (- 1e15)); npf.abs (Fin (- 1e15))] in
  let Terr_arr := [npf.sqrt (Fin 1); npf.sqrt (Fin 1)] in
  let Rerr_arr := [npf.sqrt (Fin 1); npf.sqrt (Fin 1)] in
  let bol_lum := bolometric_luminosity R_arr T_arr in
  let bol_err := bolometric_error R_arr T_arr Rerr_arr Terr_arr in
  List.length bol_lum = List.length two_epoch_dense_lc
  /\ List.length bol_err = List.length two_epoch_dense_lc
  /\ (forall i T R_ T_err R_err,
        nth_error T_arr i = Some (Fin T) ->
        nth_error R_arr i = Some (Fin R_) ->
        nth_error Terr_arr i = Some (Fin T_err) ->
        nth_error Rerr_arr i = Some (Fin R_err) ->
        nth_error bol_lum i = Some (Fin (4 * PI * R_ ^ 2 * sigsb * T ^ 4))
        /\ nth_error bol_err i
           = Some (Fin (4 * PI * sigsb
                        * sqrt ((2 * R_ * T ^ 4 * R_err) ^ 2
                                + (4 * T ^ 3 * R_ ^ 2 * T_err) ^ 2))))
  /\ (forall i,
        nth_error T_arr i = Some NaN \/ nth_error R_arr i = Some NaN ->
        nth_error bol_lum i = Some NaN)
  /\ bol_lum1 (Fin 1e15) (Fin 10000) = Fin (4 * PI * 1e15 ^ 2 * sigsb * 10000 ^ 4).
Proof.
  apply (bolometric_luminosity_epochs always_converges two_epoch_dense_lc two_wvs).
  reflexivity.
Defined.

(** ** [write_output] *)

Lemma hstack_ok {A : Type} (xs ys rows : list (list A)) :
  hstack xs ys = Ok rows ->
  List.length xs = List.length ys
  /\ rows = map (fun xy => fst xy ++ snd xy)%list (combine xs ys).
Proof.
  unfold hstack. destruct (Nat.eqb_spec (List.length xs) (List.length ys)) as [H | H].
  - intros E. injection E as <-. split; [exact H | reflexivity].
  - discriminate.
Qed.

Lemma column_left {A : Type} (d : A) (k : nat) (xs ys : list (list A)) :
  List.length xs = List.length ys ->
  Forall (fun a => (k < List.length a)%nat) xs ->
  map (fun r => nth k r d) (map (fun xy => fst xy ++ snd xy)%list (combine xs ys))
  = map (fun a => nth k a d) xs.
Proof.
  revert ys. induction xs as [| a xs IH]; intros [| b ys] Hlen Hall; simpl in *;
    try discriminate; [reflexivity |].
  inversion Hall as [| ? ? Ha Hxs]; subst.
  rewrite app_nth1 by exact Ha. f_equal. apply IH; [lia | exact Hxs].
Qed.

Lemma column_right {A : Type} (d : A) (n m : nat) (xs ys : list (list A)) :
  List.length xs = List.length ys ->
  Forall (fun a => List.length a = n) xs ->
  map (fun r => nth (n + m) r d) (map (fun xy => fst xy ++ snd xy)%list (combine xs ys))
  = map (fun b => nth m b d) ys.
Proof.
  revert ys. induction xs as [| a xs IH]; intros [| b ys] Hlen Hall; simpl in *;
    try discriminate; [reflexivity |].
  inversion Hall as [| ? ? Ha Hxs]; subst.
  rewrite app_nth2 by lia.
  replace (List.length a + m - List.length a)%nat with m by lia.
  f_equal. apply IH; [lia | exact Hxs].
Qed.

Lemma nth_flat_pairs (datapoint : list (R * npfloat)) (j : nat) :
  (j < List.length datapoint)%nat ->
  nth (2 * j) (flat_map (fun d => [Fin (fst d); snd d]) datapoint) NaN
  = Fin (fst (nth j datapoint (0, NaN)))
  /\ nth (2 * j + 1) (flat_map (fun d => [Fin (fst d); snd d]) datapoint) NaN
     = snd (nth j datapoint (0, NaN)).
Proof.
  revert j. induction datapoint as [| d ds IH]; intros j Hj; simpl in Hj; [lia |].
  destruct j as [| j].
  - split; reflexivity.
  - replace (2 * S j)%nat with (S (S (2 * j))) by lia.
    replace (S (S (2 * j)) + 1)%nat with (S (S (2 * j + 1))) by lia.
    simpl nth. apply IH. lia.
Qed.

Lemma length_flat_pairs (datapoint : list (R * npfloat)) :
  List.length (flat_map (fun d => [Fin (fst d); snd d]) datapoint)
  = (2 * List.length datapoint)%nat.
Proof.
  induction datapoint as [| d ds IH]; simpl; [reflexivity | rewrite IH; lia].
Qed.

Lemma transpose_nth (rows : list (list npfloat)) (k : nat) :
  (k < List.length (hd [] rows))%nat ->
  nth_error (transpose rows) k = Some (map (fun r => nth k r NaN) rows).
Proof.
  intros Hk. unfold transpose.
  rewrite nth_error_map, nth_error_nth' with (d := 0%nat) by (rewrite length_seq; exact Hk).
  rewrite seq_nth by exact Hk. reflexivity.
Qed.

Lemma Table_ok (columns : list (list npfloat)) (names : list string) (path : string)
    (tbl : table) :
  Table columns names path = Ok tbl ->
  map fst (tbl_columns tbl) = names /\ map snd (tbl_columns tbl) = columns.
Proof.
  unfold Table.
  destruct (Nat.eqb_spec (List.length columns) (List.length names)) as [H | H];
    cbn [negb]; [| discriminate].
  destruct (nodup_str names); cbn [negb]; [| discriminate].
  intros E. injection E as <-. cbn [tbl_columns].
  clear -H. revert columns H.
  induction names as [| n ns IH]; intros [| col cols] H; simpl in *;
    try discriminate; [split; reflexivity |].
  destruct (IH cols) as [H1 H2]; [lia |]. rewrite H1, H2. split; reflexivity.
Qed.

Lemma Forall_hstack {A : Type} (n m : nat) (xs ys : list (list A)) :
  Forall (fun a => List.length a = n) xs ->
  Forall (fun b => List.length b = m) ys ->
  Forall (fun r => List.length r = (n + m)%nat)
         (map (fun xy => fst xy ++ snd xy)%list (combine xs ys)).
Proof.
  intros Hx. revert ys. induction Hx as [| a xs Ha _ IH]; intros ys Hy; simpl; [constructor |].
  destruct Hy as [| b ys Hb Hy]; simpl; [constructor |].
  constructor; [rewrite length_app; cbn [fst snd]; lia | apply IH; exact Hy].
Qed.

Lemma stack_T_ok (arrays : list (list npfloat)) (rows : list (list npfloat)) (a : list npfloat) :
  stack_T (a :: arrays) = Ok rows ->
  Forall (fun b => List.length b = List.length a) (a :: arrays)
  /\ rows = map (fun i => map (fun b => nth i b NaN) (a :: arrays)) (seq 0 (List.length a)).
Proof.
  unfold stack_T.
  destruct (forallb (fun b => (List.length b =? List.length a)%nat) (a :: arrays)) eqn:E;
    [| discriminate].
  intros H. injection H as <-. split; [| reflexivity].
  rewrite forallb_forall in E. apply Forall_forall. intros b Hb.
  apply Nat.eqb_eq, E, Hb.
Qed.

Lemma stack_T_column (arrays : list (list npfloat)) (n m : nat) (b : list npfloat) :
  nth_error arrays m = Some b ->
  List.length b = n ->
  map (fun r => nth m r NaN) (map (fun i => map (fun b => nth i b NaN) arrays) (seq 0 n)) = b.
Proof.
  intros Hm Hn. rewrite map_map. subst n.
  rewrite <- (map_id b) at 2. rewrite <- (map_nth_seq (fun x => x) NaN b).
  apply map_ext. intros i.
  rewrite (nth_indep _ NaN (nth i [] NaN))
    by (rewrite length_map; apply nth_error_Some; rewrite Hm; discriminate).
  rewrite (map_nth (fun b => nth i b NaN)).
  rewrite (nth_error_nth _ _ _ Hm). reflexivity.
Qed.

(** The columns of the table [write_output] builds, for a dense light
    curve with [nfilts] filters at every epoch. *)
Lemma write_output_columns (lc : lightcurve) (dense_lc : list (list (R * npfloat)))
    (Tarr Terr_arr Rarr Rerr_arr bol_lum bol_err : list npfloat)
    (my_filters : list string) (snname outdir : string) (tbl : table) (nfilts : nat) :
  write_output lc dense_lc Tarr Terr_arr Rarr Rerr_arr bol_lum bol_err
    my_filters snname outdir = Ok tbl ->
  Forall (fun datapoint => List.length datapoint = nfilts) dense_lc ->
  let names := map fst (tbl_columns tbl) in
  let columns := map snd (tbl_columns tbl) in
  names = table_header my_filters
  /\ List.length (lc_phases lc) = List.length dense_lc
  /\ List.length Tarr = List.length dense_lc
  /\ nth_error columns 0 = Some (map (fun t => npf.neg (Fin (- t))) (lc_phases lc))
  /\ (forall j, (j < nfilts)%nat ->
        nth_error columns (1 + 2 * j)
        = Some (map (fun datapoint => npf.neg (Fin (fst (nth j datapoint (0, NaN))))) dense_lc)
        /\ nth_error columns (1 + (2 * j + 1))
           = Some (map (fun datapoint => npf.neg (snd (nth j datapoint (0, NaN)))) dense_lc))
  /\ nth_error columns (1 + 2 * nfilts + 0) = Some (map (fun T => npf.div T (Fin 1e3)) Tarr)
  /\ nth_error columns (1 + 2 * nfilts + 1) = Some (map (fun T => npf.div T (Fin 1e3)) Terr_arr)
  /\ nth_error columns (1 + 2 * nfilts + 2) = Some (map (fun R_ => npf.div R_ (Fin 1e15)) Rarr)
  /\ nth_error columns (1 + 2 * nfilts + 3) = Some (map (fun R_ => npf.div R_ (Fin 1e15)) Rerr_arr)
  /\ nth_error columns (1 + 2 * nfilts + 4) = Some (map npf.log10 bol_lum)
  /\ nth_error columns (1 + 2 * nfilts + 5) = Some (map npf.log10 bol_err)
  /\ List.length columns = (1 + 2 * nfilts + 6)%nat.
Proof.
  intros Hrun Hshape names columns. unfold write_output in Hrun.
  apply bind_ok in Hrun. destruct Hrun as [flat [Hflat Hrun]].
  apply bind_ok in Hrun. destruct Hrun as [left_rows [Hleft Hrun]].
  apply bind_ok in Hrun. destruct Hrun as [tabledata [Hstack Hrun]].
  apply bind_ok in Hrun. destruct Hrun as [rows [Hrows Hrun]].
  apply Table_ok in Hrun. destruct Hrun as [Hnames Hcols].
  unfold reshape_rows in Hflat.
  destruct dense_lc as [| d0 ds] eqn:Edense; [discriminate |]. rewrite <- Edense in *.
  injection Hflat as <-.
  apply hstack_ok in Hleft. destruct Hleft as [Hlen1 ->].
  apply stack_T_ok in Hstack. destruct Hstack as [Hlens ->].
  apply hstack_ok in Hrows. destruct Hrows as [Hlen2 ->].
  rewrite !length_map in Hlen1. rewrite !length_map in Hlens.
  rewrite (length_map (fun T => npf.div T (Fin 1e3)) Tarr) in Hcols.
  rewrite !length_map, length_combine, !length_map, length_seq, <- Hlen1, Nat.min_id in Hlen2.
  set (times := lc_phases lc) in *.
  set (flat := map (flat_map (fun d : R * npfloat => [Fin (fst d); snd d])) dense_lc) in *.
  set (left_rows := map (fun xy => fst xy ++ snd xy)%list
                        (combine (map (fun t : R => [Fin (- t)]) times) flat)) in *.
  set (arrays := [map (fun T => npf.div T (Fin 1e3)) Tarr;
                  map (fun T => npf.div T (Fin 1e3)) Terr_arr;
                  map (fun R_ => npf.div R_ (Fin 1e15)) Rarr;
                  map (fun R_ => npf.div R_ (Fin 1e15)) Rerr_arr;
                  map npf.log10 bol_lum; map npf.log10 bol_err]) in *.
  set (tabledata := map (fun i => map (fun b => nth i b NaN) arrays)
                        (seq 0 (List.length Tarr))) in *.
  set (rows := map (fun xy => fst xy ++ snd xy)%list
                   (combine (map (map npf.neg) left_rows) tabledata)) in *.
  assert (Hflat_len : Forall (fun r => List.length r = (2 * nfilts)%nat) flat).
  { unfold flat. rewrite Forall_map. revert Hshape. apply Forall_impl.
    intros d Hd. rewrite length_flat_pairs, Hd. reflexivity. }
  assert (Htimes_len : Forall (fun r : list npfloat => List.length r = 1%nat)
                         (map (fun t : R => [Fin (- t)]) times)).
  { rewrite Forall_map. apply Forall_forall. reflexivity. }
  assert (Hleft_len : Forall (fun r => List.length r = (1 + 2 * nfilts)%nat) left_rows).
  { apply Forall_hstack; assumption. }
  assert (Hneg_len : Forall (fun r => List.length r = (1 + 2 * nfilts)%nat)
                       (map (map npf.neg) left_rows)).
  { rewrite Forall_map. revert Hleft_len. apply Forall_impl.
    intros r Hr. rewrite length_map. exact Hr. }
  assert (Htab_len : Forall (fun r => List.length r = 6%nat) tabledata).
  { unfold tabledata. rewrite Forall_map. apply Forall_forall. reflexivity. }
  assert (Hrows_len : Forall (fun r => List.length r = (1 + 2 * nfilts + 6)%nat) rows).
  { apply Forall_hstack; assumption. }
  assert (Hleft_n : List.length left_rows = List.length dense_lc).
  { unfold left_rows, flat. rewrite length_map, length_combine, !length_map.
    rewrite Hlen1. apply Nat.min_id. }
  assert (Hneg_n : List.length (map (map npf.neg) left_rows) = List.length tabledata).
  { unfold tabledata. rewrite !length_map, length_seq. lia. }
  assert (Hrows_n : List.length rows = List.length dense_lc).
  { unfold rows. rewrite length_map, length_combine, Hneg_n, Nat.min_id.
    unfold tabledata. rewrite length_map, length_seq. lia. }
  assert (Hwidth : List.length (hd [] rows) = (1 + 2 * nfilts + 6)%nat).
  { destruct Hrows_len as [| r0 rs Hr0 _].
    - rewrite Edense in Hrows_n. discriminate.
    - exact Hr0. }
  assert (Hcol : forall k, (k < 1 + 2 * nfilts + 6)%nat ->
                 nth_error columns k = Some (map (fun r => nth k r NaN) rows)).
  { intros k Hk. unfold columns. rewrite Hcols. apply transpose_nth. lia. }
  assert (Hcol_left : forall k, (k < 1 + 2 * nfilts)%nat ->
            nth_error columns k
            = Some (map (fun r => npf.neg (nth k r NaN)) left_rows)).
  { intros k Hk. rewrite Hcol by lia. f_equal. unfold rows.
    rewrite column_left; [| exact Hneg_n |].
    - rewrite map_map. apply map_ext. intros r.
      change NaN with (npf.neg NaN) at 1. apply map_nth.
    - revert Hneg_len. apply Forall_impl. intros r Hr. lia. }
  assert (Hcol_right : forall m b, (m < 6)%nat -> nth_error arrays m = Some b ->
            nth_error columns (1 + 2 * nfilts + m) = Some b).
  { intros m b Hm Hb. rewrite Hcol by lia. f_equal. unfold rows.
    rewrite column_right; [| exact Hneg_n | exact Hneg_len].
    apply stack_T_column; [exact Hb |].
    rewrite Forall_forall in Hlens.
    apply Hlens. apply (nth_error_In _ _ Hb). }
  split; [exact Hnames |]. split; [exact Hlen1 |]. split; [lia |].
  split.
  { rewrite Hcol_left by lia. f_equal. unfold left_rows.
    rewrite <- (map_map (fun r => nth 0 r NaN) npf.neg).
    rewrite column_left.
    - rewrite !map_map. reflexivity.
    - rewrite !length_map. unfold flat. rewrite length_map. exact Hlen1.
    - revert Htimes_len. apply Forall_impl. intros r Hr. lia. }
  split.
  { intros j Hj.
    assert (Hpair : forall k, (k < 2 * nfilts)%nat ->
              nth_error columns (1 + k)
              = Some (map (fun datapoint =>
                             npf.neg (nth k (flat_map (fun d => [Fin (fst d); snd d]) datapoint) NaN))
                          dense_lc)).
    { intros k Hk. rewrite Hcol_left by lia. f_equal. unfold left_rows.
      rewrite <- (map_map (fun r => nth (1 + k) r NaN) npf.neg).
      rewrite (column_right NaN 1 k).
      - unfold flat. rewrite !map_map. reflexivity.
      - rewrite !length_map. unfold flat. rewrite length_map. exact Hlen1.
      - exact Htimes_len. }
    rewrite !Hpair by lia. split; f_equal; apply map_ext_in; intros d Hd;
      rewrite Forall_forall in Hshape; pose proof (Hshape d Hd) as Hlen;
      destruct (nth_flat_pairs d j) as [He Ho]; try lia; congruence. }
  repeat (split; [apply Hcol_right; [lia | reflexivity] |]).
  unfold columns. rewrite Hcols. unfold transpose. rewrite length_map, length_seq. exact Hwidth.
Qed.

Lemma nth_add_flux_corr (flux_corr : R) (datapoint : list (R * npfloat)) (j : nat) :
  (j < List.length datapoint)%nat ->
  nth j (map (fun d => (fst d + flux_corr, snd d)) datapoint) (0, NaN)
  = (fst (nth j datapoint (0, NaN)) + flux_corr, snd (nth j datapoint (0, NaN))).
Proof.
  intros Hj.
  rewrite (nth_indep _ (0, NaN) ((fun d => (fst d + flux_corr, snd d)) (0, NaN)))
    by (rewrite length_map; exact Hj).
  apply (map_nth (fun d : R * npfloat => (fst d + flux_corr, snd d))).
Qed.

(** C9. In the table [write_output] builds from the dense light curve of
    line 800 (the predicted means plus [flux_corr], and the predicted
    standard deviations), the first column holds the observation times
    with their own sign, the flux column of filter [j] holds the negated
    value [-(mean + flux_corr)] and its error column the negated standard
    deviation; a standard deviation [e >= 0] is therefore written as a
    number [<= 0]. *)
Theorem write_output_negates_dense_lc (lc : lightcurve)
    (gp_dense_lc : list (list (R * npfloat))) (flux_corr : R)
    (Tarr Terr_arr Rarr Rerr_arr bol_lum bol_err : list npfloat)
    (my_filters : list string) (snname outdir : string) (tbl : table) (nfilts : nat) :
  write_output lc (add_flux_corr flux_corr gp_dense_lc) Tarr Terr_arr Rarr Rerr_arr
    bol_lum bol_err my_filters snname outdir = Ok tbl ->
  Forall (fun datapoint => List.length datapoint = nfilts) gp_dense_lc ->
  let columns := map snd (tbl_columns tbl) in
  nth_error columns 0 = Some (map Fin (lc_phases lc))
  /\ forall j, (j < nfilts)%nat ->
       nth_error columns (1 + 2 * j)
       = Some (map (fun datapoint => Fin (- (fst (nth j datapoint (0, NaN)) + flux_corr)))
                   gp_dense_lc)
       /\ nth_error columns (1 + (2 * j + 1))
          = Some (map (fun datapoint => npf.neg (snd (nth j datapoint (0, NaN)))) gp_dense_lc)
       /\ forall i datapoint e,
            nth_error gp_dense_lc i = Some datapoint ->
            snd (nth j datapoint (0, NaN)) = Fin e ->
            0 <= e ->
            exists column w,
              nth_error columns (1 + (2 * j + 1)) = Some column
              /\ nth_error column i = Some (Fin w)
              /\ w <= 0.
Proof.
  intros Hrun Hshape columns.
  assert (Hshape' : Forall (fun datapoint => List.length datapoint = nfilts)
                      (add_flux_corr flux_corr gp_dense_lc)).
  { unfold add_flux_corr. rewrite Forall_map. revert Hshape. apply Forall_impl.
    intros d Hd. rewrite length_map. exact Hd. }
  destruct (write_output_columns _ _ _ _ _ _ _ _ _ _ _ _ nfilts Hrun Hshape')
    as [_ [_ [_ [Htime [Hpairs _]]]]].
  fold columns in Htime, Hpairs.
  split.
  - rewrite Htime. f_equal. apply map_ext. intros t. cbn. f_equal. lra.
  - intros j Hj. destruct (Hpairs j Hj) as [Hflux Herr].
    assert (Hflux' : nth_error columns (1 + 2 * j)
                     = Some (map (fun datapoint =>
                                    Fin (- (fst (nth j datapoint (0, NaN)) + flux_corr)))
                                 gp_dense_lc)).
    { rewrite Hflux. unfold add_flux_corr. rewrite map_map. f_equal.
      apply map_ext_in. intros d Hd. rewrite Forall_forall in Hshape.
      rewrite nth_add_flux_corr by (rewrite (Hshape d Hd); exact Hj). reflexivity. }
    assert (Herr' : nth_error columns (1 + (2 * j + 1))
                    = Some (map (fun datapoint => npf.neg (snd (nth j datapoint (0, NaN))))
                                gp_dense_lc)).
    { rewrite Herr. unfold add_flux_corr. rewrite map_map. f_equal.
      apply map_ext_in. intros d Hd. rewrite Forall_forall in Hshape.
      rewrite nth_add_flux_corr by (rewrite (Hshape d Hd); exact Hj). reflexivity. }
    split; [exact Hflux' |]. split; [exact Herr' |].
    intros i datapoint e Hi He Hpos.
    eexists _, (- e). split; [exact Herr' |].
    rewrite nth_error_map, Hi. cbn [option_map]. rewrite He.
    split; [reflexivity | lra].
Qed.

Lemma write_output_negates_dense_lc_witness :
  exists tbl,
    write_output far_filters_lc (add_flux_corr 2 two_epoch_dense_lc)
      [NaN; NaN] [NaN; NaN] [NaN; NaN] [NaN; NaN] [NaN; NaN] [NaN; NaN]
      ["g"; "r"] "sn" "./products/" = Ok tbl
    /\ let columns := map snd (tbl_columns tbl) in
       nth_error columns 0 = Some (map Fin (lc_phases far_filters_lc))
       /\ forall j, (j < 2)%nat ->
            nth_error columns (1 + 2 * j)
            = Some (map (fun datapoint => Fin (- (fst (nth j datapoint (0, NaN)) + 2)))
                        two_epoch_dense_lc)
            /\ nth_error columns (1 + (2 * j + 1))
               = Some (map (fun datapoint => npf.neg (snd (nth j datapoint (0, NaN))))
                           two_epoch_dense_lc)
            /\ forall i datapoint e,
                 nth_error two_epoch_dense_lc i = Some datapoint ->
                 snd (nth j datapoint (0, NaN)) = Fin e ->
                 0 <= e ->
                 exists column w,
                   nth_error columns (1 + (2 * j + 1)) = Some column
                   /\ nth_error column i = Some (Fin w)
                   /\ w <= 0.
Proof.
  eexists. split.
  - reflexivity.
  - apply (write_output_negates_dense_lc far_filters_lc two_epoch_dense_lc 2
             [NaN; NaN] [NaN; NaN] [NaN; NaN] [NaN; NaN] [NaN; NaN] [NaN; NaN]
             ["g"; "r"] "sn" "./products/" _ 2).
    + reflexivity.
    + repeat constructor.
Defined.

(** ** A run on the filters r and i *)

Lemma read_r_then_i :
  exists flux_corr f1 f2,
    read_in_photometry example_index r_then_i 0 0 0 200 4
    = Ok (mk_lc [0; 10] [f1; f2] [-0.65; 0.65] [0.1; 0.1] [1400; 1500],
          6850, flux_corr, ["r"; "i"]).
Proof.
  destruct (np_min_ok (map (flux_of example_index 0 0) r_then_i)) as [m Hm];
    [discriminate |].
  assert (Hkept : snr_kept 4 r_then_i = r_then_i).
  { unfold snr_kept, r_then_i, snr_ok. simpl. Rcompare. reflexivity. }
  assert (Ht0 : np.min (map row_time (snr_kept 4 r_then_i)) = Ok 100).
  { rewrite Hkept. simpl. f_equal. apply Rmin_left. lra. }
  pose proof (read_in_photometry_rows example_index r_then_i 0 0 0 200 4 m 100) as Hrun.
  cbv zeta in Hrun. rewrite Hkept in Hrun, Ht0.
  assert (Hwc : np.mean (map (fun r => wv_eff_of example_index r / (1 + 0)) r_then_i) = 6850).
  { unfold r_then_i, wv_eff_of. simpl. rewrite mean_pair. lra. }
  assert (Hfinal : window_kept 0 200 100 r_then_i = r_then_i).
  { unfold window_kept, r_then_i, in_window. simpl. Rcompare. reflexivity. }
  rewrite Hwc, Hfinal in Hrun.
  eexists (m - 1.0), _, _. rewrite Hrun.
  - unfold r_then_i, wv_eff_of, width_eff_of. simpl.
    repeat f_equal; lra.
  - simpl. lia.
  - intros r [<- | [<- | []]]; discriminate.
  - exact Hm.
  - exact Ht0.
Qed.

Lemma unique_index_r_i : np.unique_index [-0.65; 0.65] = ([-0.65; 0.65], [0%nat; 1%nat]).
Proof.
  unfold np.unique_index. simpl. Rcompare. reflexivity.
Qed.

Lemma separated_r_i : separated [-0.65; 0.65].
Proof.
  unfold separated. repeat constructor. unfold epsilon, Rabs.
  destruct (Rcase_abs (-0.65 - 0.65)); lra.
Qed.

(** C8, on two observations, the first in the filter r (6200 Angstrom)
    and the second in the filter i (7500 Angstrom), with a Gaussian
    process that predicts at [(t, u)] the wavelength coordinate [u]. The
    dense light curve has its columns in ascending wavelength, r
    ([-0.65]) before i ([0.65]), and line 797 finds these filters,
    [r; i]. The table has one row per epoch, but [write_output] names
    the column pairs after the sorted filter names, [i] before [r]: the
    pair named [i] holds the predictions at the wavelength of r, and the
    pair named [r] those at the wavelength of i. *)
Theorem table_labels_follow_names_not_wavelengths :
  exists run flux_corr,
    main wavelength_gp_env never_converges example_index r_then_i 0 0 0 200 4
      "0" false "sn" "./products/" = Ok run
    /\ lc_phases (run_lc run) = [0; 10]
    /\ lc_wv_effs (run_lc run) = [-0.65; 0.65]
    /\ run_ufilts run = ["r"; "i"]
    /\ run_dense_lc run
       = [[(-0.65 + flux_corr, npf.sqrt (Fin 1)); (0.65 + flux_corr, npf.sqrt (Fin 1))];
          [(-0.65 + flux_corr, npf.sqrt (Fin 1)); (0.65 + flux_corr, npf.sqrt (Fin 1))]]
    /\ map fst (tbl_columns (run_table run))
       = ["Time (MJD)"; "i"; "i_err"; "r"; "r_err"; "Temp./1e3 (K)"; "Temp. Err.";
          "Radius/1e15 (cm)"; "Radius Err."; "Log10(Bol. Lum)"; "Log10(Bol. Err)"]
    /\ nth_error (tbl_columns (run_table run)) 1
       = Some ("i", [npf.neg (Fin (-0.65 + flux_corr)); npf.neg (Fin (-0.65 + flux_corr))])
    /\ nth_error (tbl_columns (run_table run)) 3
       = Some ("r", [npf.neg (Fin (0.65 + flux_corr)); npf.neg (Fin (0.65 + flux_corr))]).
Proof.
  destruct read_r_then_i as [flux_corr [f1 [f2 Hread]]].
  eexists _, flux_corr. unfold main. rewrite Hread. cbn [bind String.eqb Ascii.eqb Bool.eqb].
  rewrite (interpolate_separated wavelength_gp_env _ 6850 "0" false 0 (fun _ => 0) [] []
             wavelength_gp);
    [| reflexivity | reflexivity
     | cbn [lc_wv_effs]; unfold np.unique; rewrite unique_index_r_i; exact separated_r_i].
  cbn [bind lc_wv_effs lc_phases]. unfold np.unique. rewrite unique_index_r_i.
  cbn [fst map gp_mean gp_var wavelength_gp snd].
  repeat split.
Qed.

(** * Further properties *)

(** ** [read_in_photometry]: what every returned observation satisfies *)

Lemma snr_ok_spec (snr err : R) :
  snr_ok snr err = true <-> err = 0 \/ snr <= 1 / err.
Proof.
  unfold snr_ok, Reqb. destruct (Req_dec_T err 0) as [H | H].
  - split; [left; exact H | reflexivity].
  - rewrite Rleb_spec. split; [right; assumption | intros [? | ?]; [contradiction | assumption]].
Qed.



(** X2. Under the same conditions the returned arrays are aligned and in
    input order: there is a selection [final] of the input rows, in
    their order (the rows that pass the signal-to-noise test and then
    the window), such that the uncertainties, bandwidths and filter
    names returned are those of [final], row by row, and the five arrays
    of [lc] and [my_filters] all have [len(final)] entries. *)
Theorem read_in_photometry_aligned (index : list svo_filter) (rows : list row)
    (dm redshift start end_ snr : R) :
  (2 <= List.length rows)%nat ->
  resolvable index rows ->
  snr_kept snr rows <> [] ->
  exists lc wv_corr flux_corr my_filters t0 final,
    read_in_photometry index rows dm redshift start end_ snr
    = Ok (lc, wv_corr, flux_corr, my_filters)
    /\ final = filter (fun r => snr_ok snr (row_err r)
                                && in_window start end_ (row_time r - t0)) rows
    /\ lc_errs lc = map row_err final
    /\ lc_width_effs lc = map (width_eff_of index) final
    /\ my_filters = map row_filter final
    /\ lc_phases lc = map (fun r => row_time r - t0) final
    /\ List.length (lc_fluxes lc) = List.length final
    /\ List.length (lc_wv_effs lc) = List.length final.
Proof.
  intros Hlen Hres Hkept.
  destruct (np_min_ok (map (flux_of index dm redshift) rows)) as [m Hm].
  { destruct rows; [simpl in Hlen; lia | discriminate]. }
  destruct (np_min_ok (map row_time (snr_kept snr rows))) as [t0 Ht0].
  { destruct (snr_kept snr rows); [congruence | discriminate]. }
  pose proof (read_in_photometry_rows index rows dm redshift start end_ snr m t0
                Hlen Hres Hm Ht0) as Hrun.
  cbv zeta in Hrun.
  eexists _, _, _, _, t0, _. split; [exact Hrun |].
  split; [reflexivity |].
  assert (Hfinal : window_kept start end_ t0 (snr_kept snr rows)
                   = filter (fun r => snr_ok snr (row_err r)
                                      && in_window start end_ (row_time r - t0)) rows).
  { unfold window_kept, snr_kept. clear.
    induction rows as [| r rows IH]; simpl; [reflexivity |].
    destruct (snr_ok snr (row_err r)); simpl; [| exact IH].
    destruct (in_window start end_ (row_time r - t0)); rewrite IH; reflexivity. }
  cbn [lc_errs lc_width_effs lc_phases lc_fluxes lc_wv_effs].
  rewrite Hfinal, !length_map. repeat split; reflexivity.
Qed.

Lemma read_in_photometry_aligned_witness :
  exists lc wv_corr flux_corr my_filters t0 final,
    read_in_photometry example_index two_epochs 0 0 5 200 4
    = Ok (lc, wv_corr, flux_corr, my_filters)
    /\ final = filter (fun r => snr_ok 4 (row_err r)
                                && in_window 5 200 (row_time r - t0)) two_epochs
    /\ lc_errs lc = map row_err final
    /\ lc_width_effs lc = map (width_eff_of example_index) final
    /\ my_filters = map row_filter final
    /\ lc_phases lc = map (fun r => row_time r - t0) final
    /\ List.length (lc_fluxes lc) = List.length final
    /\ List.length (lc_wv_effs lc) = List.length final.
Proof.
  apply (read_in_photometry_aligned example_index two_epochs 0 0 5 200 4).
  - simpl. lia.
  - apply example_index_resolves_g. repeat constructor.
  - rewrite snr_kept_two_epochs. discriminate.
Defined.

(** ** [read_in_photometry]: errors and edge cases *)

Lemma resolve_filters_unresolved (index : list svo_filter) (rows : list row) (f : string) :
  first_unresolved index rows = Some f ->
  resolve_filters index (map row_filter rows)
  = Raise (SysExit (String.append "Cannot find " (String.append f " in SVO."))).
Proof.
  unfold first_unresolved. induction rows as [| r rows IH]; simpl; [discriminate |].
  destruct (svo_lookup index (row_filter r)) as [e |].
  - intros H. rewrite (IH H). reflexivity.
  - intros H. injection H as <-. reflexivity.
Qed.

(** X3. A filter identifier that is not in the index is fatal: with at
    least two rows, [read_in_photometry] exits with the message
    [Cannot find <id> in SVO.] for the first such identifier in input
    order, whatever the other arguments are. *)
Theorem read_in_photometry_unknown_filter (index : list svo_filter) (rows : list row)
    (dm redshift start end_ snr : R) (f : string) :
  (2 <= List.length rows)%nat ->
  first_unresolved index rows = Some f ->
  read_in_photometry index rows dm redshift start end_ snr
  = Raise (SysExit (String.append "Cannot find " (String.append f " in SVO."))).
Proof.
  intros Hlen Hf. unfold read_in_photometry, loadtxt_rows.
  destruct (Nat.ltb_spec (List.length rows) 2) as [Hlt | _]; [lia |].
  cbn [bind]. rewrite (resolve_filters_unresolved index rows f Hf). reflexivity.
Qed.

Lemma read_in_photometry_unknown_filter_witness :
  read_in_photometry example_index unknown_filter_rows 0 0 0 200 4
  = Raise (SysExit (String.append "Cannot find " (String.append "zz" " in SVO."))).
Proof.
  apply (read_in_photometry_unknown_filter example_index unknown_filter_rows 0 0 0 200 4 "zz").
  - simpl. lia.
  - reflexivity.
Defined.

(** X4. When no row passes the signal-to-noise test the rebasing of line
    149 raises: with at least two rows and all filters in the index,
    [read_in_photometry] raises the [ValueError] of [np.min] on an empty
    array; it does not return an empty light curve. *)
Theorem read_in_photometry_no_survivor (index : list svo_filter) (rows : list row)
    (dm redshift start end_ snr : R) :
  (2 <= List.length rows)%nat ->
  resolvable index rows ->
  snr_kept snr rows = [] ->
  read_in_photometry index rows dm redshift start end_ snr
  = Raise (ValueError "zero-size array to reduction operation minimum which has no identity").
Proof.
  intros Hlen Hres Hkept.
  destruct (np_min_ok (map (flux_of index dm redshift) rows)) as [m Hm].
  { destruct rows; [simpl in Hlen; lia | discriminate]. }
  unfold read_in_photometry, loadtxt_rows.
  destruct (Nat.ltb_spec (List.length rows) 2) as [Hlt | _]; [lia |].
  cbn [bind].
  rewrite (resolve_filters_ok index rows Hres). cbn [bind].
  rewrite (row_flux_ok index dm redshift rows Hres). cbn [bind].
  rewrite Hm. cbn [bind].
  rewrite !map_map.
  rewrite !(take_where _ row_err (snr_ok snr) rows). cbn [bind].
  fold (snr_kept snr rows). rewrite Hkept. reflexivity.
Qed.

Lemma read_in_photometry_no_survivor_witness :
  read_in_photometry example_index noisy_rows 0 0 0 200 4
  = Raise (ValueError "zero-size array to reduction operation minimum which has no identity").
Proof.
  apply (read_in_photometry_no_survivor example_index noisy_rows 0 0 0 200 4).
  - simpl. lia.
  - apply example_index_resolves_g. repeat constructor.
  - unfold snr_kept, noisy_rows, snr_ok. simpl. Rcompare. reflexivity.
Defined.

Lemma window_kept_none (start end_ t0 : R) (kept : list row) :
  Forall (fun r => t0 <= row_time r) kept ->
  end_ < 0 \/ end_ < start ->
  window_kept start end_ t0 kept = [].
Proof.
  intros Hleast Hwin. unfold window_kept.
  induction Hleast as [| r kept Hr _ IH]; simpl; [reflexivity |].
  destruct (in_window start end_ (row_time r - t0)) eqn:E; [| exact IH].
  apply in_window_spec in E. lra.
Qed.

(** X5. A window that no re-based time falls into is not an error: when
    rows pass the signal-to-noise test but [end < 0] or [end < start],
    [read_in_photometry] returns a light curve whose five arrays are
    empty, and no filter name. *)
Theorem read_in_photometry_empty_window (index : list svo_filter) (rows : list row)
    (dm redshift start end_ snr : R) :
  (2 <= List.length rows)%nat ->
  resolvable index rows ->
  snr_kept snr rows <> [] ->
  end_ < 0 \/ end_ < start ->
  exists wv_corr flux_corr,
    read_in_photometry index rows dm redshift start end_ snr
    = Ok (mk_lc [] [] [] [] [], wv_corr, flux_corr, []).
Proof.
  intros Hlen Hres Hkept Hwin.
  destruct (np_min_ok (map (flux_of index dm redshift) rows)) as [m Hm].
  { destruct rows; [simpl in Hlen; lia | discriminate]. }
  destruct (np_min_ok (map row_time (snr_kept snr rows))) as [t0 Ht0].
  { destruct (snr_kept snr rows); [congruence | discriminate]. }
  pose proof (read_in_photometry_rows index rows dm redshift start end_ snr m t0
                Hlen Hres Hm Ht0) as Hrun.
  cbv zeta in Hrun.
  assert (Hnone : window_kept start end_ t0 (snr_kept snr rows) = []).
  { destruct (np_min_spec _ _ Ht0) as [_ Hleast]. rewrite Forall_map in Hleast.
    apply window_kept_none; assumption. }
  rewrite Hnone in Hrun. simpl in Hrun.
  eexists _, _. exact Hrun.
Qed.

Lemma read_in_photometry_empty_window_witness :
  exists wv_corr flux_corr,
    read_in_photometry example_index two_epochs 0 0 50 20 4
    = Ok (mk_lc [] [] [] [] [], wv_corr, flux_corr, []).
Proof.
  apply (read_in_photometry_empty_window example_index two_epochs 0 0 50 20 4).
  - simpl. lia.
  - apply example_index_resolves_g. repeat constructor.
  - rewrite snr_kept_two_epochs. discriminate.
  - right. lra.
Defined.

(** ** The log-flux of a row *)

Lemma ln_Rpower_10 (x : R) : ln (Rpower 10 x) = x * ln 10.
Proof. unfold Rpower. apply ln_exp. Qed.

Lemma log_flux_product (m zpt z : R) :
  0 < zpt -> -1 < z ->
  log_flux (Rpower 10 (m / -2.5) * zpt * (1 + z))
  = - m + 2.5 * (np.log10 (zpt * (1 + z)) - np.log10 3631.00).
Proof.
  intros Hz Hred. unfold log_flux, np.log10.
  pose proof ln_10_pos as H10.
  assert (Hpow : 0 < Rpower 10 (m / -2.5)) by (unfold Rpower; apply exp_pos).
  rewrite Rmult_assoc, ln_mult, ln_Rpower_10; [| exact Hpow | nra].
  replace (m / -2.5) with (- (m / 2.5)) by lra. field. lra.
Qed.

(** X6. For a row in the AB system and a redshift above -1, the log-flux
    of lines 113-122 is the negated distance-corrected magnitude plus
    [2.5 log10(1 + redshift)]: the zero point 3631 cancels against the
    anchor of the scale. *)
Theorem row_flux_AB (index : list svo_filter) (dm redshift : R) (datapoint : row) :
  row_system datapoint = "AB" ->
  -1 < redshift ->
  row_flux index dm redshift datapoint
  = Ok (- (row_mag datapoint - dm) + 2.5 * np.log10 (1 + redshift)).
Proof.
  intros HAB Hz. unfold row_flux, zero_point. rewrite HAB. cbn [String.eqb Ascii.eqb Bool.eqb bind].
  f_equal. rewrite log_flux_product by lra.
  unfold np.log10. pose proof ln_10_pos.
  rewrite ln_mult by lra. field. lra.
Qed.

Lemma row_flux_AB_witness :
  row_flux example_index 38.38 0.1 (mk_row 100 18 0.1 "g" "AB")
  = Ok (- (18 - 38.38) + 2.5 * np.log10 (1 + 0.1)).
Proof.
  apply (row_flux_AB example_index 38.38 0.1 (mk_row 100 18 0.1 "g" "AB")).
  - reflexivity.
  - lra.
Defined.

Lemma fold_Rmin_shift (d : R) (xs : list R) (x : R) :
  fold_left Rmin (map (fun y => d + y) xs) (d + x) = d + fold_left Rmin xs x.
Proof.
  revert x. induction xs as [| y ys IH]; intros x; simpl; [reflexivity |].
  replace (Rmin (d + x) (d + y)) with (d + Rmin x y); [apply IH |].
  unfold Rmin. destruct (Rle_dec x y), (Rle_dec (d + x) (d + y)); lra.
Qed.

Lemma np_min_shift (d m : R) (xs : list R) :
  np.min xs = Ok m -> np.min (map (fun y => d + y) xs) = Ok (d + m).
Proof.
  destruct xs as [| x xs]; simpl; [discriminate |].
  intros H. injection H as <-. rewrite fold_Rmin_shift. reflexivity.
Qed.

Lemma flux_of_dm (index : list svo_filter) (dm redshift : R) (r : row) :
  0 < zpt_of index r -> -1 < redshift ->
  flux_of index dm redshift r = dm + flux_of index 0 redshift r.
Proof.
  intros Hz Hred. unfold flux_of. rewrite !log_flux_product by assumption. lra.
Qed.

(** X7. The distance modulus cancels out of the light curve: with
    positive zero points and a redshift above -1, running
    [read_in_photometry] with distance modulus [dm] returns the same
    light curve, wavelength offset and filter names as running it with
    distance modulus 0; only [flux_corr] differs, by exactly [dm]. *)
Theorem read_in_photometry_dm_cancels (index : list svo_filter) (rows : list row)
    (dm redshift start end_ snr : R) :
  (2 <= List.length rows)%nat ->
  resolvable index rows ->
  snr_kept snr rows <> [] ->
  Forall (fun r => 0 < zpt_of index r) rows ->
  -1 < redshift ->
  exists lc wv_corr flux_corr my_filters,
    read_in_photometry index rows 0 redshift start end_ snr
    = Ok (lc, wv_corr, flux_corr, my_filters)
    /\ read_in_photometry index rows dm redshift start end_ snr
       = Ok (lc, wv_corr, dm + flux_corr, my_filters).
Proof.
  intros Hlen Hres Hkept Hzpt Hred.
  destruct (np_min_ok (map (flux_of index 0 redshift) rows)) as [m Hm].
  { destruct rows; [simpl in Hlen; lia | discriminate]. }
  destruct (np_min_ok (map row_time (snr_kept snr rows))) as [t0 Ht0].
  { destruct (snr_kept snr rows); [congruence | discriminate]. }
  assert (Hflux : forall r, In r rows ->
            flux_of index dm redshift r = dm + flux_of index 0 redshift r).
  { intros r Hr. rewrite Forall_forall in Hzpt. apply flux_of_dm; [apply Hzpt, Hr | exact Hred]. }
  assert (Hm' : np.min (map (flux_of index dm redshift) rows) = Ok (dm + m)).
  { rewrite (map_ext_in _ (fun r => dm + flux_of index 0 redshift r) rows Hflux).
    rewrite <- (map_map (flux_of index 0 redshift) (fun y => dm + y)).
    apply np_min_shift, Hm. }
  pose proof (read_in_photometry_rows index rows 0 redshift start end_ snr m t0
                Hlen Hres Hm Ht0) as Hrun0.
  pose proof (read_in_photometry_rows index rows dm redshift start end_ snr (dm + m) t0
                Hlen Hres Hm' Ht0) as Hrun.
  cbv zeta in Hrun0, Hrun.
  eexists _, _, _, _. split; [exact Hrun0 |].
  rewrite Hrun.
  replace (dm + m - 1.0) with (dm + (m - 1.0)) by lra.
  rewrite (map_ext_in (fun r => flux_of index dm redshift r - (dm + (m - 1.0)))
             (fun r => flux_of index 0 redshift r - (m - 1.0))).
  - reflexivity.
  - intros r Hr. unfold window_kept, snr_kept in Hr.
    apply filter_In in Hr. destruct Hr as [Hr _].
    apply filter_In in Hr. destruct Hr as [Hr _].
    rewrite (Hflux r Hr). lra.
Qed.

Lemma read_in_photometry_dm_cancels_witness :
  exists lc wv_corr flux_corr my_filters,
    read_in_photometry example_index two_epochs 0 0.1 0 200 4
    = Ok (lc, wv_corr, flux_corr, my_filters)
    /\ read_in_photometry example_index two_epochs 38.38 0.1 0 200 4
       = Ok (lc, wv_corr, 38.38 + flux_corr, my_filters).
Proof.
  apply (read_in_photometry_dm_cancels example_index two_epochs 38.38 0.1 0 200 4).
  - simpl. lia.
  - apply example_index_resolves_g. repeat constructor.
  - rewrite snr_kept_two_epochs. discriminate.
  - unfold two_epochs, zpt_of. repeat constructor; simpl; lra.
  - lra.
Defined.

(** ** [chi_square] *)

Lemma chi_square_from_ok (dat model uncertainty : list R) (acc : R) :
  (List.length dat <= List.length model)%nat ->
  (List.length dat <= List.length uncertainty)%nat ->
  exists chi2, chi_square_from acc dat model uncertainty = Ok chi2 /\ acc <= chi2.
Proof.
  revert model uncertainty acc.
  induction dat as [| d dat IH]; intros model uncertainty acc Hm Hu; simpl.
  - exists acc. split; [reflexivity | lra].
  - destruct model as [| m model]; [simpl in Hm; lia |].
    destruct uncertainty as [| u uncertainty]; [simpl in Hu; lia |].
    simpl in Hm, Hu.
    destruct (IH model uncertainty (acc + ((m - d) / u) ^ 2)) as [chi2 [H1 H2]]; try lia.
    exists chi2. split; [exact H1 |].
    pose proof (pow2_ge_0 ((m - d) / u)). lra.
Qed.

Lemma chi_square_from_short (dat model uncertainty : list R) (acc : R) :
  (List.length model < List.length dat)%nat
  \/ (List.length uncertainty < List.length dat)%nat ->
  chi_square_from acc dat model uncertainty = Raise (IndexError "index out of bounds").
Proof.
  revert model uncertainty acc.
  induction dat as [| d dat IH]; intros model uncertainty acc H; simpl.
  - simpl in H. lia.
  - destruct model as [| m model]; [reflexivity |].
    destruct uncertainty as [| u uncertainty]; [reflexivity |].
    apply IH. simpl in H. lia.
Qed.

Lemma chi_square_from_exact (dat uncertainty : list R) (acc : R) :
  (List.length dat <= List.length uncertainty)%nat ->
  chi_square_from acc dat dat uncertainty = Ok acc.
Proof.
  revert uncertainty acc.
  induction dat as [| d dat IH]; intros uncertainty acc Hu; simpl; [reflexivity |].
  destruct uncertainty as [| u uncertainty]; [simpl in Hu; lia |].
  replace (acc + (d - d) / u * ((d - d) / u * 1)) with acc; [apply IH; simpl in Hu; lia |].
  unfold Rminus. rewrite Rplus_opp_r. unfold Rdiv. ring.
Qed.


(** ** [bbody] *)

Lemma planck_constants_pos : 0 < h /\ 0 < c /\ 0 < k_B /\ 0 < ang_to_cm.
Proof. unfold h, c, k_B, ang_to_cm. repeat split; lra. Qed.

(** X9. [bbody] does not see the sign of the radius,
    [bbody(lam, T, -R) = bbody(lam, T, R)], and for a positive wavelength,
    a positive temperature and a radius other than 0 it is positive. *)
Theorem bbody_radius_sign (lam T R_ : R) :
  bbody lam T (- R_) = bbody lam T R_
  /\ (0 < lam -> 0 < T -> R_ <> 0 -> 0 < bbody lam T R_).
Proof.
  split.
  - unfold bbody. cbv zeta. f_equal. ring.
  - intros Hlam HT HR. unfold bbody. cbv zeta.
    destruct planck_constants_pos as [Hh [Hc [Hk Ha]]].
    assert (Hcm : 0 < lam * ang_to_cm) by (apply Rmult_lt_0_compat; assumption).
    assert (Hx : 0 < h * c / (lam * ang_to_cm * k_B * T)).
    { apply Rdiv_lt_0_compat; [apply Rmult_lt_0_compat; assumption |].
      apply Rmult_lt_0_compat; [apply Rmult_lt_0_compat |]; assumption. }
    assert (Hexp : 0 < exp (h * c / (lam * ang_to_cm * k_B * T)) - 1).
    { pose proof (exp_ineq1 (h * c / (lam * ang_to_cm * k_B * T))) as He.
      assert (h * c / (lam * ang_to_cm * k_B * T) <> 0) by lra.
      specialize (He H). lra. }
    pose proof PI_RGT_0 as Hpi.
    apply Rmult_lt_0_compat.
    + apply Rdiv_lt_0_compat; [| exact Hexp].
      apply Rdiv_lt_0_compat; [| apply pow_lt; exact Hcm].
      apply Rmult_lt_0_compat; [| apply pow_lt; exact Hc].
      apply Rmult_lt_0_compat; [| exact Hh].
      apply Rmult_lt_0_compat; [lra | exact Hpi].
    + apply Rmult_lt_0_compat; [| simpl; rewrite Rmult_1_r; apply Rsqr_pos_lt; exact HR].
      apply Rmult_lt_0_compat; [lra | exact Hpi].
Qed.

(** ** [np.argmin] and the selection in [fit_template] *)

Lemma argmin_from_spec (ys pre : list R) (best_i : nat) (best : R) :
  nth_error pre best_i = Some best ->
  Forall (fun y => best <= y) pre ->
  (forall j y, (j < best_i)%nat -> nth_error pre j = Some y -> best < y) ->
  exists v,
    nth_error (pre ++ ys) (np.argmin_from best_i best (List.length pre) ys) = Some v
    /\ Forall (fun y => v <= y) (pre ++ ys)
    /\ (forall j y, (j < np.argmin_from best_i best (List.length pre) ys)%nat ->
                    nth_error (pre ++ ys) j = Some y -> v < y).
Proof.
  revert pre best_i best.
  induction ys as [| x ys IH]; intros pre best_i best Hbest Hle Hlt; simpl.
  - rewrite app_nil_r. exists best. repeat split; assumption.
  - assert (Hbi : (best_i < List.length pre)%nat)
      by (apply nth_error_Some; rewrite Hbest; discriminate).
    replace (pre ++ x :: ys)%list with ((pre ++ [x]) ++ ys)%list
      by (rewrite <- app_assoc; reflexivity).
    replace (S (List.length pre)) with (List.length (pre ++ [x]))
      by (rewrite length_app; simpl; lia).
    destruct (Rltb x best) eqn:E.
    + apply Rltb_spec in E. apply IH.
      * rewrite nth_error_app2, Nat.sub_diag by lia. reflexivity.
      * apply Forall_app. split; [| constructor; [lra | constructor]].
        revert Hle. apply Forall_impl. intros y Hy. lra.
      * intros j y Hj Hy. rewrite nth_error_app1 in Hy by exact Hj.
        rewrite Forall_forall in Hle. pose proof (Hle y (nth_error_In _ _ Hy)). lra.
    + assert (Hxb : best <= x).
      { destruct (Rlt_dec x best) as [H | H]; [| lra].
        rewrite (Rltb_true _ _ H) in E. discriminate. }
      apply IH.
      * rewrite nth_error_app1 by exact Hbi. exact Hbest.
      * apply Forall_app. split; [exact Hle | constructor; [exact Hxb | constructor]].
      * intros j y Hj Hy. rewrite nth_error_app1 in Hy by lia. apply (Hlt j y Hj Hy).
Qed.

Lemma argmin_spec (xs : list R) (i : nat) :
  np.argmin xs = Ok i ->
  exists v,
    nth_error xs i = Some v
    /\ Forall (fun y => v <= y) xs
    /\ (forall j y, (j < i)%nat -> nth_error xs j = Some y -> v < y).
Proof.
  destruct xs as [| x xs]; simpl; [discriminate |].
  intros H. injection H as <-.
  apply (argmin_from_spec xs [x] 0 x).
  - reflexivity.
  - constructor; [lra | constructor].
  - intros j y Hj. lia.
Qed.

Lemma mapM_Forall2 {A B : Type} (f : A -> result B) (xs : list A) (ys : list B) :
  mapM f xs = Ok ys -> Forall2 (fun x y => f x = Ok y) xs ys.
Proof.
  revert ys. induction xs as [| x xs IH]; intros ys H; simpl in H.
  - injection H as <-. constructor.
  - destruct (f x) as [y |] eqn:Ey; cbn [bind] in H; [| discriminate].
    destruct (mapM f xs) as [ys' |]; cbn [bind] in H; [| discriminate].
    injection H as <-. constructor; [exact Ey | apply IH; reflexivity].
Qed.

Lemma Forall2_nth_error_r {A B : Type} (P : A -> B -> Prop) (xs : list A) (ys : list B) :
  Forall2 P xs ys ->
  forall i y, nth_error ys i = Some y -> exists x, nth_error xs i = Some x /\ P x y.
Proof.
  induction 1 as [| x0 y0 xs ys HP _ IH]; intros i y Hi.
  - destruct i; discriminate.
  - destruct i as [| i]; simpl in *.
    + injection Hi as <-. exists x0. split; [reflexivity | exact HP].
    + apply IH, Hi.
Qed.

(** What [fit_template] returns with both flags set, in terms of the
    per-filter fits. *)
Lemma fit_template_selects (curve_fit : curve_fit3) (wv : list R)
    (template_to_fit : R -> R -> R) (filts : list R) (wv_corr : R)
    (flux time errs : list R) (z A t_c t_s chi2 : R) :
  fit_template curve_fit wv template_to_fit filts wv_corr flux time errs z true true
  = Ok (ParamsAndChi A t_c t_s chi2) ->
  exists i wavelength,
    nth_error wv i = Some wavelength
    /\ fit_one_filter curve_fit template_to_fit wv filts wv_corr flux time errs z wavelength
       = Ok (A, t_c, t_s, chi2)
    /\ forall j w fit,
         nth_error wv j = Some w ->
         fit_one_filter curve_fit template_to_fit wv filts wv_corr flux time errs z w = Ok fit ->
         chi2 <= snd fit /\ ((j < i)%nat -> chi2 < snd fit).
Proof.
  unfold fit_template. intros H.
  apply bind_ok in H. destruct H as [fits [Hfits H]].
  apply bind_ok in H. destruct H as [gi [Hgi H]].
  apply bind_ok in H. destruct H as [chi [Hchi H]].
  apply bind_ok in H. destruct H as [A' [HA H]].
  apply bind_ok in H. destruct H as [tc' [Htc H]].
  apply bind_ok in H. destruct H as [ts' [Hts H]].
  injection H as -> -> -> ->.
  apply mapM_Forall2 in Hfits.
  unfold np.item in Hchi, HA, Htc, Hts.
  rewrite nth_error_map in Hchi, HA, Htc, Hts.
  destruct (nth_error fits gi) as [[[[a b] c0] d] |] eqn:Efit; [| discriminate].
  cbn in Hchi, HA, Htc, Hts.
  injection Hchi as ->. injection HA as ->. injection Htc as ->. injection Hts as ->.
  destruct (Forall2_nth_error_r _ _ _ Hfits gi _ Efit) as [wavelength [Hw Hrun]].
  exists gi, wavelength. split; [exact Hw |]. split; [exact Hrun |].
  destruct (argmin_spec _ _ Hgi) as [v [Hv [Hle Hlt]]].
  rewrite nth_error_map, Efit in Hv. cbn in Hv. injection Hv as <-.
  intros j w fit Hj Hfit.
  destruct (Forall2_nth_error _ _ _ Hfits j w Hj) as [fit' [Hfit' Hrun']].
  rewrite Hfit in Hrun'. injection Hrun' as <-.
  assert (Hsnd : nth_error (map snd fits) j = Some (snd fit))
    by (rewrite nth_error_map, Hfit'; reflexivity).
  split.
  - rewrite Forall_forall in Hle. apply Hle. apply (nth_error_In _ _ Hsnd).
  - intros Hlt'. apply (Hlt j _ Hlt' Hsnd).
Qed.


Lemma fit_template_two_filters :
  fit_template fit_flat two_filter_wv flat_template two_filter_filts 5000
    two_filter_flux two_filter_time two_filter_errs 0 true true
  = Ok (ParamsAndChi 1 0 (1 + 0) 0).
Proof.
  unfold fit_template. unfold two_filter_wv at 2. cbn [mapM].
  rewrite fit_4000, fit_6000. simpl. Rcompare. reflexivity.
Qed.


Lemma mapM_first_failure {A B : Type} (f : A -> result B) (pre post : list A)
    (x : A) (e : error) :
  Forall (fun y => exists b, f y = Ok b) pre ->
  f x = Raise e ->
  mapM f (pre ++ x :: post) = Raise e.
Proof.
  intros Hpre Hx. induction Hpre as [| y pre [b Hb] _ IH]; simpl.
  - rewrite Hx. reflexivity.
  - rewrite Hb. cbn [bind]. rewrite IH. reflexivity.
Qed.

(** X11. A fit that fails is fatal for [fit_template]: when the fit to
    one filter of [wv] raises and the fits to the filters before it
    returned, [fit_template] raises the same error, whatever the flags
    and the later filters are; no candidate is skipped. On an empty [wv]
    it raises the [ValueError] of [np.argmin]. *)
Theorem fit_template_failure_is_fatal (curve_fit : curve_fit3) (pre post : list R)
    (wavelength : R) (template_to_fit : R -> R -> R) (filts : list R) (wv_corr : R)
    (flux time errs : list R) (z : R) (output_chi output_params : bool) (e : error) :
  let wv := (pre ++ wavelength :: post)%list in
  Forall (fun w => exists fit,
            fit_one_filter curve_fit template_to_fit wv filts wv_corr flux time errs z w
            = Ok fit) pre ->
  fit_one_filter curve_fit template_to_fit wv filts wv_corr flux time errs z wavelength
  = Raise e ->
  fit_template curve_fit wv template_to_fit filts wv_corr flux time errs z
    output_chi output_params = Raise e
  /\ fit_template curve_fit [] template_to_fit filts wv_corr flux time errs z
       output_chi output_params
     = Raise (ValueError "attempt to get argmin of an empty sequence").
Proof.
  intros wv Hpre Hw. subst wv. split; [| reflexivity].
  unfold fit_template.
  rewrite (mapM_first_failure _ pre post wavelength e Hpre Hw). reflexivity.
Qed.

Lemma fit_template_failure_is_fatal_witness :
  let raising : curve_fit3 :=
    fun _ _ _ _ => Raise (RuntimeError "Optimal parameters not found") in
  fit_template raising ([] ++ 4000 :: [6000]) flat_template two_filter_filts 5000
    two_filter_flux two_filter_time two_filter_errs 0 false true
  = Raise (RuntimeError "Optimal parameters not found")
  /\ fit_template raising [] flat_template two_filter_filts 5000
       two_filter_flux two_filter_time two_filter_errs 0 false true
     = Raise (ValueError "attempt to get argmin of an empty sequence").
Proof.
  intros raising.
  apply (fit_template_failure_is_fatal raising [] [6000] 4000 flat_template
           two_filter_filts 5000 two_filter_flux two_filter_time two_filter_errs 0
           false true (RuntimeError "Optimal parameters not found")).
  - constructor.
  - unfold fit_one_filter. unfold_two_filters.
    simpl np.where_. Rcompare. reflexivity.
Defined.

(** ** [test] *)

Lemma test_unfold (env : interpolate_env) (lc : lightcurve) (wv_corr z : R) :
  test env lc wv_corr z
  = (chi2 <- mapM (template_chi env lc wv_corr z) templates ;;
     gi <- np.argmin chi2 ;;
     np.item templates gi).
Proof. reflexivity. Qed.


Lemma mean_single (x : R) : np.mean [x] = x.
Proof. unfold np.mean, np.sum. simpl. lra. Qed.

Lemma template_chi_far_filters (template : string) :
  template_chi constant_gp_env far_filters_lc 5450 0 template = Ok 0.
Proof.
  unfold template_chi. rewrite unique_far_filters.
  cbn [constant_gp_env env_generate_template env_curve_fit bind far_filters_lc
       lc_phases lc_fluxes lc_wv_effs lc_errs map].
  unfold fit_template, fit_one_filter, fit_flat, flat_template, chi_square, model.
  Reval. rewrite !mean_single. Reval.
  f_equal. lra.
Qed.

Lemma test_far_filters : test constant_gp_env far_filters_lc 5450 0 = Ok "1a".
Proof.
  rewrite test_unfold. unfold templates. cbn [mapM].
  rewrite !template_chi_far_filters. cbn [bind np.argmin np.argmin_from].
  Rcompare. reflexivity.
Qed.


(** ** [np.unique] *)

Lemma insert_unique_In (x : R) (i : nat) (us : list (R * nat)) (u : R) :
  In u (map fst (np.insert_unique x i us)) <-> u = x \/ In u (map fst us).
Proof.
  induction us as [| [v j] us IH]; simpl.
  - split; intros [H | []]; left; symmetry; exact H.
  - destruct (Rltb x v) eqn:E1; simpl.
    + split; (intros [H | H]; [left; symmetry; exact H | right; exact H]).
    + unfold Reqb. destruct (Req_dec_T x v) as [-> | Hne]; simpl.
      * split; [intros H; right; exact H | intros [-> | H]; [left; reflexivity | exact H]].
      * rewrite IH. tauto.
Qed.

Lemma Rltb_false_inv (x y : R) : Rltb x y = false -> y <= x.
Proof.
  intros E. destruct (Rlt_dec x y) as [H | H]; [| lra].
  rewrite (Rltb_true _ _ H) in E. discriminate.
Qed.

Lemma insert_unique_ascending (x : R) (i : nat) (us : list (R * nat)) :
  ascending (map fst us) -> ascending (map fst (np.insert_unique x i us)).
Proof.
  induction us as [| [v j] us IH]; simpl.
  - intros _. split; [constructor | exact I].
  - intros [Hv Hasc]. destruct (Rltb x v) eqn:E1.
    + apply Rltb_spec in E1. simpl. split; [| split; assumption].
      constructor; [exact E1 |]. revert Hv. apply Forall_impl. intros y Hy. lra.
    + apply Rltb_false_inv in E1.
      unfold Reqb. destruct (Req_dec_T x v) as [-> | Hne]; simpl.
      * split; assumption.
      * split; [| apply IH; exact Hasc].
        apply Forall_forall. intros y Hy. apply insert_unique_In in Hy.
        destruct Hy as [-> | Hy]; [lra |].
        rewrite Forall_forall in Hv. apply Hv, Hy.
Qed.

Lemma insert_unique_entries (x : R) (i : nat) (us : list (R * nat)) (u : R) (k : nat) :
  ascending (map fst us) ->
  In (u, k) (np.insert_unique x i us) ->
  In (u, k) us \/ ((u, k) = (x, i) /\ ~ In x (map fst us)).
Proof.
  induction us as [| [v j] us IH]; simpl.
  - intros _ [H | []]. right. split; [symmetry; exact H | tauto].
  - intros [Hv Hasc]. destruct (Rltb x v) eqn:E1.
    + apply Rltb_spec in E1. simpl. intros [H | H]; [| left; exact H].
      right. split; [symmetry; exact H |].
      intros [Hxv | Hin]; [lra |].
      rewrite Forall_forall in Hv. pose proof (Hv x Hin). lra.
    + apply Rltb_false_inv in E1.
      unfold Reqb. destruct (Req_dec_T x v) as [-> | Hne]; simpl.
      * intros H. left. exact H.
      * intros [H | H]; [left; left; exact H |].
        destruct (IH Hasc H) as [H' | [H1 H2]]; [left; right; exact H' |].
        right. split; [exact H1 |]. intros [Hvx | Hin]; [congruence | contradiction].
Qed.

Lemma unique_from_invariant (xs pre : list R) (us : list (R * nat)) :
  unique_invariant (pre ++ xs) pre us ->
  unique_invariant (pre ++ xs) (pre ++ xs) (np.unique_from xs (List.length pre) us).
Proof.
  revert pre us. induction xs as [| x xs IH]; intros pre us Hinv; simpl.
  - rewrite app_nil_r in *. exact Hinv.
  - replace (pre ++ x :: xs)%list with ((pre ++ [x]) ++ xs)%list in *
      by (rewrite <- app_assoc; reflexivity).
    replace (S (List.length pre)) with (List.length (pre ++ [x]))
      by (rewrite length_app; simpl; lia).
    apply IH. destruct Hinv as [Hasc [Hkeys Hidx]].
    split; [apply insert_unique_ascending; exact Hasc |]. split.
    + intros u. rewrite insert_unique_In, in_app_iff, Hkeys. simpl. intuition.
    + intros u i Hin.
      destruct (insert_unique_entries x (List.length pre) us u i Hasc Hin)
        as [Hold | [Heq Hnew]].
      * apply Hidx, Hold.
      * injection Heq as -> ->. split.
        -- rewrite nth_error_app1 by (rewrite length_app; simpl; lia).
           rewrite nth_error_app2, Nat.sub_diag by lia. reflexivity.
        -- intros j Hj Hnth. apply Hnew. apply Hkeys.
           rewrite nth_error_app1 in Hnth by (rewrite length_app; simpl; lia).
           rewrite nth_error_app1 in Hnth by exact Hj.
           apply (nth_error_In _ _ Hnth).
Qed.

Lemma unique_index_invariant (xs : list R) :
  unique_invariant xs xs (np.unique_from xs 0 []).
Proof.
  apply (unique_from_invariant xs [] []).
  split; [exact I |]. split; [intros u; simpl; tauto | intros u i []].
Qed.

Lemma unique_ascending (xs : list R) : ascending (np.unique xs).
Proof. apply (unique_index_invariant xs). Qed.

Lemma unique_In (xs : list R) (u : R) : In u (np.unique xs) <-> In u xs.
Proof. apply (unique_index_invariant xs). Qed.

Lemma unique_index_first (xs : list R) (j : nat) (u : R) (i : nat) :
  nth_error (fst (np.unique_index xs)) j = Some u ->
  nth_error (snd (np.unique_index xs)) j = Some i ->
  nth_error xs i = Some u /\ forall k, (k < i)%nat -> nth_error xs k <> Some u.
Proof.
  unfold np.unique_index. cbn [fst snd]. rewrite !nth_error_map.
  destruct (nth_error (np.unique_from xs 0 []) j) as [[u' i'] |] eqn:E; [| discriminate].
  cbn. intros Hu Hi. injection Hu as <-. injection Hi as <-.
  apply (unique_index_invariant xs). apply (nth_error_In _ _ E).
Qed.

(** ** [interpolate]: what it returns *)


Lemma interpolate_far_filters :
  interpolate constant_gp_env far_filters_lc 5450 "0" false 0
  = Ok (map (fun t => map (fun u => (gp_mean constant_gp (t, u),
                                     npf.sqrt (Fin (gp_var constant_gp (t, u)))))
                          (np.unique (lc_wv_effs far_filters_lc)))
            (lc_phases far_filters_lc), [], []).
Proof.
  apply (interpolate_separated constant_gp_env far_filters_lc 5450 "0" false 0
           (fun _ => 0) [] [] constant_gp).
  - reflexivity.
  - reflexivity.
  - unfold separated. rewrite unique_far_filters.
    repeat constructor. unfold epsilon, Rabs.
    destruct (Rcase_abs (-0.75 - 0.75)); lra.
Qed.


(** ** The filter of each dense column (lines 794-797 of [main]) *)

Lemma take_in_range {A : Type} (arr : list A) (gis : list nat) :
  Forall (fun i => (i < List.length arr)%nat) gis ->
  exists out, np.take arr gis = Ok out
              /\ Forall2 (fun i x => nth_error arr i = Some x) gis out.
Proof.
  induction 1 as [| i gis Hi _ [out [Hout Hall]]]; simpl.
  - exists []. split; [reflexivity | constructor].
  - destruct (nth_error arr i) as [x |] eqn:E.
    + exists (x :: out). rewrite Hout. split; [reflexivity | constructor; assumption].
    + apply nth_error_None in E. lia.
Qed.

Lemma unique_index_in_range (xs : list R) :
  Forall (fun i => (i < List.length xs)%nat) (snd (np.unique_index xs)).
Proof.
  apply Forall_forall. intros i Hi.
  destruct (In_nth_error _ _ Hi) as [j Hj].
  assert (Hlen : (j < List.length (fst (np.unique_index xs)))%nat).
  { unfold np.unique_index in *. cbn [fst snd] in *. rewrite length_map.
    rewrite <- (length_map snd). apply nth_error_Some. rewrite Hj. discriminate. }
  destruct (nth_error (fst (np.unique_index xs)) j) as [u |] eqn:Eu;
    [| apply nth_error_None in Eu; lia].
  destruct (unique_index_first xs j u i Eu Hj) as [H _].
  apply nth_error_Some. rewrite H. discriminate.
Qed.

(** X15. Lines 794-797 of [main]: when [my_filters] has one name per
    observation, the selection [my_filters[wvind]] does not raise and
    gives one name per distinct wavelength; the name of column [j] is
    the filter name of the first observation whose wavelength is the
    [j]-th distinct wavelength. *)
Theorem column_filters_of_first_observation (wv_effs : list R) (my_filters : list string) :
  List.length my_filters = List.length wv_effs ->
  let wvs := fst (np.unique_index wv_effs) in
  let wvind := snd (np.unique_index wv_effs) in
  exists ufilts,
    np.take my_filters wvind = Ok ufilts
    /\ List.length ufilts = List.length wvs
    /\ forall j u,
         nth_error wvs j = Some u ->
         exists i name,
           nth_error wvind j = Some i
           /\ nth_error wv_effs i = Some u
           /\ (forall k, (k < i)%nat -> nth_error wv_effs k <> Some u)
           /\ nth_error my_filters i = Some name
           /\ nth_error ufilts j = Some name.
Proof.
  intros Hlen wvs wvind.
  destruct (take_in_range my_filters wvind) as [ufilts [Htake Hall]].
  { rewrite Hlen. apply unique_index_in_range. }
  exists ufilts. split; [exact Htake |].
  assert (Hsame : List.length wvind = List.length wvs)
    by (unfold wvind, wvs, np.unique_index; cbn [fst snd]; rewrite !length_map; reflexivity).
  split; [rewrite <- (Forall2_length Hall); exact Hsame |].
  intros j u Hu.
  destruct (nth_error wvind j) as [i |] eqn:Ei.
  - destruct (Forall2_nth_error _ _ _ Hall j i Ei) as [name [Hname Hi]].
    destruct (unique_index_first wv_effs j u i Hu Ei) as [H1 H2].
    exists i, name. repeat split; assumption.
  - apply nth_error_None in Ei.
    assert (j < List.length wvs)%nat by (apply nth_error_Some; rewrite Hu; discriminate).
    lia.
Qed.

Lemma column_filters_of_first_observation_witness :
  let wvs := fst (np.unique_index [0.65; -0.65; 0.65]) in
  let wvind := snd (np.unique_index [0.65; -0.65; 0.65]) in
  exists ufilts,
    np.take ["i"; "r"; "i"] wvind = Ok ufilts
    /\ List.length ufilts = List.length wvs
    /\ forall j u,
         nth_error wvs j = Some u ->
         exists i name,
           nth_error wvind j = Some i
           /\ nth_error [0.65; -0.65; 0.65] i = Some u
           /\ (forall k, (k < i)%nat -> nth_error [0.65; -0.65; 0.65] k <> Some u)
           /\ nth_error ["i"; "r"; "i"] i = Some name
           /\ nth_error ufilts j = Some name.
Proof.
  apply (column_filters_of_first_observation [0.65; -0.65; 0.65] ["i"; "r"; "i"]).
  reflexivity.
Defined.

(** ** [fit_bb]: the fluxes handed to [curve_fit] *)

Lemma combine_map_l {A B C : Type} (f : A -> C) (xs : list A) (ys : list B) :
  combine (map f xs) ys = map (fun xy => (f (fst xy), snd xy)) (combine xs ys).
Proof.
  revert ys. induction xs as [| x xs IH]; intros [| y ys]; simpl; try reflexivity.
  rewrite IH. reflexivity.
Qed.

Lemma epoch_flam_elements (datapoint : list (R * npfloat)) (wvs : list R) :
  List.length datapoint = List.length wvs ->
  epoch_flam datapoint wvs
  = Ok (map (fun dw => Rpower 10 ((- fst (fst dw) + 48.6) / -2.5) * 4 * PI * 3.086e19 ^ 2
                       * c / (snd dw * ang_to_cm) ^ 2)
            (combine datapoint wvs),
        map (fun dw =>
               npf.div
                 (npf.mul
                    (npf.mul (npf.mul (npf.mul (npf.mul
                       (Fin (Rabs (0.921034 * Rpower 10 (0.4 * fst (fst dw) - 19.44))))
                       (snd (fst dw))) (Fin 4)) (Fin PI)) (Fin (3.086e19 ^ 2)))
                    (Fin c))
                 (Fin ((snd dw * ang_to_cm) ^ 2)))
            (combine datapoint wvs)).
Proof.
  intros H. unfold epoch_flam.
  rewrite broadcast2_same by (rewrite !length_map; exact H). cbn [bind].
  rewrite broadcast2_same by (rewrite !length_map; exact H). cbn [bind].
  rewrite map_map, !combine_map_l, !map_map. reflexivity.
Qed.

(** X16. For an epoch with one dense entry per wavelength, the arrays
    [fit_bb] hands to [curve_fit] have one entry per filter; each flux
    error is [0.921034] times the flux times the uncertainty of the
    dense entry ([nan] where that is [nan]), and with wavelengths other
    than 0 every flux is positive. *)
Theorem epoch_flam_relative_error (datapoint : list (R * npfloat)) (wvs : list R) :
  List.length datapoint = List.length wvs ->
  exists flam flam_err,
    epoch_flam datapoint wvs = Ok (flam, flam_err)
    /\ List.length flam = List.length datapoint
    /\ flam_err
       = map (fun fd => npf.mul (Fin (0.921034 * fst fd)) (snd (snd fd)))
             (combine flam datapoint)
    /\ (Forall (fun w => w <> 0) wvs -> Forall (fun f => 0 < f) flam).
Proof.
  intros H. rewrite (epoch_flam_elements datapoint wvs H).
  eexists _, _. split; [reflexivity |].
  split; [rewrite length_map, length_combine; lia |]. split.
  - clear H. revert wvs. induction datapoint as [| [d e] ds IH]; intros [| w ws];
      simpl; try reflexivity.
    rewrite <- IH. f_equal.
    assert (Hpow : 0 < Rpower 10 (0.4 * d - 19.44)) by (unfold Rpower; apply exp_pos).
    replace ((- d + 48.6) / -2.5) with (0.4 * d - 19.44) by lra.
    destruct e as [err |]; [| reflexivity]. cbn. f_equal.
    rewrite Rabs_pos_eq by nra. unfold Rdiv. ring.
  - intros Hw. apply Forall_forall. intros f Hf.
    apply in_map_iff in Hf. destruct Hf as [[[d e] w] [<- Hin]]. cbn [fst snd].
    apply in_combine_r in Hin. rewrite Forall_forall in Hw. pose proof (Hw w Hin) as Hw0.
    assert (Hpow : 0 < Rpower 10 ((- d + 48.6) / -2.5)) by (unfold Rpower; apply exp_pos).
    destruct planck_constants_pos as [_ [Hc [_ Ha]]]. pose proof PI_RGT_0 as Hpi.
    apply Rdiv_lt_0_compat.
    + apply Rmult_lt_0_compat; [| exact Hc].
      apply Rmult_lt_0_compat; [| apply pow_lt; lra].
      apply Rmult_lt_0_compat; [| exact Hpi].
      apply Rmult_lt_0_compat; [exact Hpow | lra].
    + simpl. rewrite Rmult_1_r. apply Rsqr_pos_lt.
      apply Rmult_integral_contrapositive_currified; lra.
Qed.

Lemma epoch_flam_relative_error_witness :
  exists flam flam_err,
    epoch_flam [(-20, Fin 0.1); (-19, NaN)] two_wvs = Ok (flam, flam_err)
    /\ List.length flam = List.length [(-20, Fin 0.1); (-19, NaN)]
    /\ flam_err
       = map (fun fd => npf.mul (Fin (0.921034 * fst fd)) (snd (snd fd)))
             (combine flam [(-20, Fin 0.1); (-19, NaN)])
    /\ (Forall (fun w => w <> 0) two_wvs -> Forall (fun f => 0 < f) flam).
Proof.
  apply (epoch_flam_relative_error [(-20, Fin 0.1); (-19, NaN)] two_wvs).
  reflexivity.
Defined.

(** ** [write_output]: when it returns *)

Lemma hstack_same {A : Type} (xs ys : list (list A)) :
  List.length xs = List.length ys ->
  hstack xs ys = Ok (map (fun xy => fst xy ++ snd xy)%list (combine xs ys)).
Proof.
  intros H. unfold hstack. rewrite (proj2 (Nat.eqb_eq _ _) H). reflexivity.
Qed.

Lemma length_table_header (my_filters : list string) :
  List.length (table_header my_filters)
  = (1 + 2 * List.length (np.unique_str my_filters) + 6)%nat.
Proof.
  unfold table_header. simpl. rewrite length_app. simpl.
  assert (H : forall l : list string,
             List.length (flat_map (fun filt => [filt; String.append filt "_err"]) l)
             = (2 * List.length l)%nat).
  { induction l as [| x l IH]; simpl; [reflexivity | rewrite IH; lia]. }
  rewrite H. lia.
Qed.

(** With arrays of matching shapes [write_output] reaches the [Table]
    call, with [1 + 2 nfilts + 6] columns of one entry per epoch. *)
Lemma write_output_shapes (lc : lightcurve) (dense_lc : list (list (R * npfloat)))
    (Tarr Terr_arr Rarr Rerr_arr bol_lum bol_err : list npfloat)
    (my_filters : list string) (snname outdir : string) (nfilts : nat) :
  dense_lc <> [] ->
  Forall (fun datapoint => List.length datapoint = nfilts) dense_lc ->
  List.length (lc_phases lc) = List.length dense_lc ->
  Forall (fun arr => List.length arr = List.length dense_lc)
         [Tarr; Terr_arr; Rarr; Rerr_arr; bol_lum; bol_err] ->
  exists columns,
    List.length columns = (1 + 2 * nfilts + 6)%nat
    /\ Forall (fun column => List.length column = List.length dense_lc) columns
    /\ write_output lc dense_lc Tarr Terr_arr Rarr Rerr_arr bol_lum bol_err
         my_filters snname outdir
       = Table columns (table_header my_filters)
               (String.append outdir (String.append snname ".txt")).
Proof.
  intros Hne Hshape Htimes Harrays.
  unfold write_output, reshape_rows.
  destruct dense_lc as [| d0 ds] eqn:Edense; [congruence |]. rewrite <- Edense in *.
  cbn [bind].
  rewrite hstack_same by (rewrite !length_map; exact Htimes). cbn [bind].
  set (arrays := [map (fun T => npf.div T (Fin 1e3)) Tarr;
                  map (fun T => npf.div T (Fin 1e3)) Terr_arr;
                  map (fun R_ => npf.div R_ (Fin 1e15)) Rarr;
                  map (fun R_ => npf.div R_ (Fin 1e15)) Rerr_arr;
                  map npf.log10 bol_lum; map npf.log10 bol_err]).
  assert (Hstack : stack_T arrays
                   = Ok (map (fun i => map (fun b => nth i b NaN) arrays)
                             (seq 0 (List.length dense_lc)))).
  { unfold stack_T, arrays.
    repeat match goal with
           | H : Forall _ (_ :: _) |- _ => inversion H; subst; clear H
           end.
    cbn [forallb]. rewrite !length_map.
    repeat match goal with H : List.length _ = List.length _ |- _ => rewrite H; clear H end.
    rewrite Nat.eqb_refl. reflexivity. }
  rewrite Hstack. cbn [bind].
  set (left_rows := map (fun xy => fst xy ++ snd xy)%list
                        (combine (map (fun t : R => [Fin (- t)]) (lc_phases lc))
                           (map (flat_map (fun d : R * npfloat => [Fin (fst d); snd d]))
                                dense_lc))).
  set (tabledata := map (fun i => map (fun b => nth i b NaN) arrays)
                        (seq 0 (List.length dense_lc))).
  assert (Hleft_n : List.length left_rows = List.length dense_lc).
  { unfold left_rows. rewrite length_map, length_combine, !length_map. lia. }
  assert (Hneg_n : List.length (map (map npf.neg) left_rows) = List.length tabledata).
  { unfold tabledata. rewrite !length_map, length_seq. exact Hleft_n. }
  rewrite hstack_same by exact Hneg_n. cbn [bind].
  set (rows := map (fun xy => fst xy ++ snd xy)%list
                   (combine (map (map npf.neg) left_rows) tabledata)).
  assert (Hrows_len : Forall (fun r => List.length r = (1 + 2 * nfilts + 6)%nat) rows).
  { apply Forall_hstack.
    - rewrite Forall_map. unfold left_rows.
      assert (Hl : Forall (fun r => List.length r = (1 + 2 * nfilts)%nat) left_rows).
      { apply Forall_hstack.
        - rewrite Forall_map. apply Forall_forall. reflexivity.
        - rewrite Forall_map. revert Hshape. apply Forall_impl.
          intros d Hd. rewrite length_flat_pairs, Hd. reflexivity. }
      revert Hl. apply Forall_impl. intros r Hr. rewrite length_map. exact Hr.
    - unfold tabledata. rewrite Forall_map. apply Forall_forall. reflexivity. }
  assert (Hrows_n : List.length rows = List.length dense_lc).
  { unfold rows. rewrite length_map, length_combine, Hneg_n, Nat.min_id.
    unfold tabledata. rewrite length_map, length_seq. reflexivity. }
  exists (transpose rows). split; [| split; [| reflexivity]].
  - unfold transpose. rewrite length_map, length_seq.
    destruct Hrows_len as [| r0 rs Hr0 _]; [rewrite Edense in Hrows_n; discriminate |].
    exact Hr0.
  - unfold transpose. rewrite Forall_map. apply Forall_forall. intros k _.
    rewrite length_map. exact Hrows_n.
Qed.

Lemma Table_columns (columns : list (list npfloat)) (names : list string) (path : string) :
  List.length columns = List.length names ->
  nodup_str names = true ->
  Table columns names path = Ok (mk_table (combine names columns) path).
Proof.
  intros Hlen Hdup. unfold Table.
  rewrite (proj2 (Nat.eqb_eq _ _) Hlen), Hdup. reflexivity.
Qed.

Lemma Table_name_count (columns : list (list npfloat)) (names : list string) (path : string) :
  List.length columns <> List.length names ->
  Table columns names path
  = Raise (ValueError "Arguments names and dtype must match number of columns").
Proof.
  intros Hlen. unfold Table.
  rewrite (proj2 (Nat.eqb_neq _ _) Hlen). reflexivity.
Qed.

Lemma combine_names_columns {A B : Type} (names : list A) (columns : list B) :
  List.length columns = List.length names ->
  map fst (combine names columns) = names /\ map snd (combine names columns) = columns.
Proof.
  revert columns. induction names as [| n ns IH]; intros [| col cols] H; simpl in *;
    try discriminate; [split; reflexivity |].
  destruct (IH cols) as [H1 H2]; [lia |]. rewrite H1, H2. split; reflexivity.
Qed.

(** X17. With one dense entry per filter at every epoch, one time and
    one entry of each of the six arrays per epoch, as many distinct
    filter names as dense columns and no name twice in the header,
    [write_output] writes a table to [outdir + snname + '.txt']: its
    names are the header, it has [1 + 2 nfilts + 6] columns, and every
    column has one entry per epoch. *)
Theorem write_output_writes_table (lc : lightcurve) (dense_lc : list (list (R * npfloat)))
    (Tarr Terr_arr Rarr Rerr_arr bol_lum bol_err : list npfloat)
    (my_filters : list string) (snname outdir : string) (nfilts : nat) :
  dense_lc <> [] ->
  Forall (fun datapoint => List.length datapoint = nfilts) dense_lc ->
  List.length (lc_phases lc) = List.length dense_lc ->
  Forall (fun arr => List.length arr = List.length dense_lc)
         [Tarr; Terr_arr; Rarr; Rerr_arr; bol_lum; bol_err] ->
  List.length (np.unique_str my_filters) = nfilts ->
  nodup_str (table_header my_filters) = true ->
  exists tbl,
    write_output lc dense_lc Tarr Terr_arr Rarr Rerr_arr bol_lum bol_err
      my_filters snname outdir = Ok tbl
    /\ tbl_path tbl = String.append outdir (String.append snname ".txt")
    /\ map fst (tbl_columns tbl) = table_header my_filters
    /\ List.length (tbl_columns tbl) = (1 + 2 * nfilts + 6)%nat
    /\ Forall (fun column => List.length (snd column) = List.length dense_lc)
              (tbl_columns tbl).
Proof.
  intros Hne Hshape Htimes Harrays Hnames Hdup.
  destruct (write_output_shapes lc dense_lc Tarr Terr_arr Rarr Rerr_arr bol_lum bol_err
              my_filters snname outdir nfilts Hne Hshape Htimes Harrays)
    as [columns [Hcount [Hcols Hrun]]].
  assert (Hlen : List.length columns = List.length (table_header my_filters)).
  { rewrite length_table_header, Hnames. exact Hcount. }
  rewrite (Table_columns _ _ _ Hlen Hdup) in Hrun.
  eexists. split; [exact Hrun |]. cbn [tbl_path tbl_columns].
  destruct (combine_names_columns (table_header my_filters) columns Hlen) as [Hfst Hsnd].
  split; [reflexivity |]. split; [exact Hfst |]. split.
  - rewrite <- (length_map snd), Hsnd. exact Hcount.
  - rewrite <- Hsnd in Hcols. rewrite Forall_map in Hcols. exact Hcols.
Qed.

Lemma write_output_writes_table_witness :
  exists tbl,
    write_output far_filters_lc (add_flux_corr 2 two_epoch_dense_lc)
      [NaN; NaN] [NaN; NaN] [NaN; NaN] [NaN; NaN] [NaN; NaN] [NaN; NaN]
      ["g"; "r"] "sn" "./products/" = Ok tbl
    /\ tbl_path tbl = String.append "./products/" (String.append "sn" ".txt")
    /\ map fst (tbl_columns tbl) = table_header ["g"; "r"]
    /\ List.length (tbl_columns tbl) = (1 + 2 * 2 + 6)%nat
    /\ Forall (fun column => List.length (snd column)
                             = List.length (add_flux_corr 2 two_epoch_dense_lc))
              (tbl_columns tbl).
Proof.
  apply (write_output_writes_table far_filters_lc (add_flux_corr 2 two_epoch_dense_lc)
           [NaN; NaN] [NaN; NaN] [NaN; NaN] [NaN; NaN] [NaN; NaN] [NaN; NaN]
           ["g"; "r"] "sn" "./products/" 2).
  - discriminate.
  - repeat constructor.
  - reflexivity.
  - repeat constructor.
  - reflexivity.
  - reflexivity.
Defined.

(** X18. The header has a pair of names per distinct filter name, the
    data a pair of columns per dense column: when the two counts differ,
    the arrays being of matching shapes, the [Table] call raises a
    [ValueError] and nothing is written. *)
Theorem write_output_name_count_mismatch (lc : lightcurve)
    (dense_lc : list (list (R * npfloat)))
    (Tarr Terr_arr Rarr Rerr_arr bol_lum bol_err : list npfloat)
    (my_filters : list string) (snname outdir : string) (nfilts : nat) :
  dense_lc <> [] ->
  Forall (fun datapoint => List.length datapoint = nfilts) dense_lc ->
  List.length (lc_phases lc) = List.length dense_lc ->
  Forall (fun arr => List.length arr = List.length dense_lc)
         [Tarr; Terr_arr; Rarr; Rerr_arr; bol_lum; bol_err] ->
  List.length (np.unique_str my_filters) <> nfilts ->
  exists msg,
    write_output lc dense_lc Tarr Terr_arr Rarr Rerr_arr bol_lum bol_err
      my_filters snname outdir = Raise (ValueError msg).
Proof.
  intros Hne Hshape Htimes Harrays Hnames.
  destruct (write_output_shapes lc dense_lc Tarr Terr_arr Rarr Rerr_arr bol_lum bol_err
              my_filters snname outdir nfilts Hne Hshape Htimes Harrays)
    as [columns [Hcount [_ Hrun]]].
  rewrite Table_name_count in Hrun.
  - eexists. exact Hrun.
  - rewrite length_table_header, Hcount. lia.
Qed.

Lemma write_output_name_count_mismatch_witness :
  exists msg,
    write_output far_filters_lc two_epoch_dense_lc
      [NaN; NaN] [NaN; NaN] [NaN; NaN] [NaN; NaN] [NaN; NaN] [NaN; NaN]
      ["g"; "g"] "sn" "./products/" = Raise (ValueError msg).
Proof.
  apply (write_output_name_count_mismatch far_filters_lc two_epoch_dense_lc
           [NaN; NaN] [NaN; NaN] [NaN; NaN] [NaN; NaN] [NaN; NaN] [NaN; NaN]
           ["g"; "g"] "sn" "./products/" 2).
  - discriminate.
  - repeat constructor.
  - reflexivity.
  - repeat constructor.
  - simpl. lia.
Defined.

(** ** [read_in_photometry]: when it returns *)

Lemma resolve_filters_inv (index : list svo_filter) (rows : list row)
    (out : list R * list R * list string) :
  resolve_filters index (map row_filter rows) = Ok out -> resolvable index rows.
Proof.
  revert out. induction rows as [| r rows IH]; intros out H; simpl in H.
  - intros r [].
  - destruct (svo_lookup index (row_filter r)) as [e |] eqn:E; [| discriminate].
    destruct (resolve_filters index (map row_filter rows)) as [out' | err] eqn:E';
      [| destruct out; discriminate].
    intros r' [<- | Hr'].
    + rewrite E. discriminate.
    + apply (IH out' eq_refl r' Hr').
Qed.

Lemma read_in_photometry_inv (index : list svo_filter) (rows : list row)
    (dm redshift start end_ snr : R) (out : lightcurve * R * R * list string) :
  read_in_photometry index rows dm redshift start end_ snr = Ok out ->
  (2 <= List.length rows)%nat /\ resolvable index rows /\ snr_kept snr rows <> [].
Proof.
  intros H.
  assert (Hlen : (2 <= List.length rows)%nat).
  { unfold read_in_photometry, loadtxt_rows in H.
    destruct (Nat.ltb_spec (List.length rows) 2) as [Hlt | Hge]; [discriminate | exact Hge]. }
  assert (Hres : resolvable index rows).
  { unfold read_in_photometry, loadtxt_rows in H.
    destruct (Nat.ltb_spec (List.length rows) 2) as [Hlt | _]; [lia |].
    cbn [bind] in H.
    destruct (resolve_filters index (map row_filter rows)) as [x |] eqn:E; [| discriminate].
    apply (resolve_filters_inv index rows x E). }
  split; [exact Hlen |]. split; [exact Hres |].
  intros Hkept.
  destruct (np_min_ok (map (flux_of index dm redshift) rows)) as [m Hm].
  { destruct rows; [simpl in Hlen; lia | discriminate]. }
  unfold read_in_photometry, loadtxt_rows in H.
  destruct (Nat.ltb_spec (List.length rows) 2) as [Hlt | _]; [lia |].
  cbn [bind] in H.
  rewrite (resolve_filters_ok index rows Hres) in H. cbn [bind] in H.
  rewrite (row_flux_ok index dm redshift rows Hres) in H. cbn [bind] in H.
  rewrite Hm in H. cbn [bind] in H.
  rewrite !map_map in H.
  rewrite !(take_where _ row_err (snr_ok snr) rows) in H. cbn [bind] in H.
  fold (snr_kept snr rows) in H. rewrite Hkept in H. discriminate.
Qed.

(** X19. On rows that were parsed, [read_in_photometry] returns exactly
    when the file has at least two data rows, every filter identifier is
    in the index, and at least one row passes the signal-to-noise test;
    the window, the distance modulus and the redshift play no part in
    this. *)
Theorem read_in_photometry_returns_iff (index : list svo_filter) (rows : list row)
    (dm redshift start end_ snr : R) :
  (exists out, read_in_photometry index rows dm redshift start end_ snr = Ok out)
  <-> (2 <= List.length rows)%nat /\ resolvable index rows /\ snr_kept snr rows <> [].
Proof.
  split.
  - intros [out H]. apply (read_in_photometry_inv _ _ _ _ _ _ _ _ H).
  - intros [Hlen [Hres Hkept]].
    destruct (np_min_ok (map (flux_of index dm redshift) rows)) as [m Hm].
    { destruct rows; [simpl in Hlen; lia | discriminate]. }
    destruct (np_min_ok (map row_time (snr_kept snr rows))) as [t0 Ht0].
    { destruct (snr_kept snr rows); [congruence | discriminate]. }
    eexists.
    apply (read_in_photometry_rows index rows dm redshift start end_ snr m t0
             Hlen Hres Hm Ht0).
Qed.

Lemma read_in_photometry_lengths (index : list svo_filter) (rows : list row)
    (dm redshift start end_ snr : R) (lc : lightcurve) (wv_corr flux_corr : R)
    (my_filters : list string) :
  read_in_photometry index rows dm redshift start end_ snr
  = Ok (lc, wv_corr, flux_corr, my_filters) ->
  List.length (lc_wv_effs lc) = List.length (lc_phases lc)
  /\ List.length my_filters = List.length (lc_phases lc).
Proof.
  intros H.
  destruct (read_in_photometry_inv _ _ _ _ _ _ _ _ H) as [Hlen [Hres Hkept]].
  destruct (np_min_ok (map (flux_of index dm redshift) rows)) as [m Hm].
  { destruct rows; [simpl in Hlen; lia | discriminate]. }
  destruct (np_min_ok (map row_time (snr_kept snr rows))) as [t0 Ht0].
  { destruct (snr_kept snr rows); [congruence | discriminate]. }
  rewrite (read_in_photometry_rows index rows dm redshift start end_ snr m t0
             Hlen Hres Hm Ht0) in H.
  injection H as <- _ _ <-. cbn [lc_wv_effs lc_phases].
  rewrite !length_map. split; reflexivity.
Qed.

(** ** [main]: from the dense light curve to the table *)

Lemma fit_bb_total (curve_fit : curve_fit2) (dense_lc : list (list (R * npfloat)))
    (wvs : list R) :
  Forall (fun datapoint => List.length datapoint = List.length wvs) dense_lc ->
  exists Tarr Rarr Terr_arr Rerr_arr,
    fit_bb curve_fit dense_lc wvs = Ok (Tarr, Rarr, Terr_arr, Rerr_arr)
    /\ Forall (fun arr => List.length arr = List.length dense_lc)
              [Tarr; Rarr; Terr_arr; Rerr_arr].
Proof.
  intros Hshape.
  destruct (mapM_total (fit_epoch curve_fit wvs) dense_lc) as [fits [Hfits Hall]].
  { revert Hshape. apply Forall_impl. intros d Hd. unfold fit_epoch.
    destruct (epoch_flam_ok d wvs Hd) as [flam [flam_err E]]. rewrite E. cbn [bind].
    eexists. reflexivity. }
  unfold fit_bb. rewrite Hfits. cbn [bind].
  eexists _, _, _, _. split; [reflexivity |].
  apply Forall2_length in Hall.
  repeat constructor; rewrite length_map; symmetry; exact Hall.
Qed.

(** After a dense light curve is there, a run fails at the [Table] call
    or not at all. *)
Lemma main_after_interpolate (env : interpolate_env) (curve_fit : curve_fit2)
    (index : list svo_filter) (rows : list row) (dm redshift start end_ snr : R)
    (sn_type cls : string) (mean : bool) (snname outdir : string)
    (lc : lightcurve) (wv_corr flux_corr : R) (my_filters : list string)
    (dense_lc : list (list (R * npfloat))) (test_data : list (list R))
    (test_times : list R) :
  read_in_photometry index rows dm redshift start end_ snr
  = Ok (lc, wv_corr, flux_corr, my_filters) ->
  (if String.eqb sn_type "test" then test env lc wv_corr redshift else Ok sn_type) = Ok cls ->
  interpolate env lc wv_corr cls mean redshift = Ok (dense_lc, test_data, test_times) ->
  lc_phases lc <> [] ->
  exists ufilts Tarr Rarr Terr_arr Rerr_arr columns,
    let dense := add_flux_corr flux_corr dense_lc in
    let bol_lum := bolometric_luminosity Rarr Tarr in
    let bol_err := bolometric_error Rarr Tarr Rerr_arr Terr_arr in
    List.length dense = List.length (lc_phases lc)
    /\ np.take my_filters (snd (np.unique_index (lc_wv_effs lc))) = Ok ufilts
    /\ List.length ufilts = List.length (np.unique (lc_wv_effs lc))
    /\ Forall (fun arr => List.length arr = List.length (lc_phases lc))
              [Tarr; Rarr; Terr_arr; Rerr_arr; bol_lum; bol_err]
    /\ List.length columns = (1 + 2 * List.length (np.unique (lc_wv_effs lc)) + 6)%nat
    /\ main env curve_fit index rows dm redshift start end_ snr sn_type mean snname outdir
       = (tbl <- Table columns (table_header my_filters)
                   (String.append outdir (String.append snname ".txt")) ;;
          Ok (mk_run lc dense ufilts Tarr Rarr Terr_arr Rerr_arr bol_lum bol_err tbl)).
Proof.
  intros Hread Hcls Hdense Hne.
  destruct (read_in_photometry_lengths _ _ _ _ _ _ _ _ _ _ _ Hread) as [Hwv Hnames].
  destruct (interpolate_inv _ _ _ _ _ _ _ _ _ Hdense) as [gmean [gp [_ [_ Edense]]]].
  set (nfilts := List.length (np.unique (lc_wv_effs lc))).
  assert (Hrows : List.length (add_flux_corr flux_corr dense_lc)
                  = List.length (lc_phases lc)).
  { unfold add_flux_corr. rewrite Edense, !length_map. reflexivity. }
  assert (Hshape : Forall (fun datapoint => List.length datapoint = nfilts)
                          (add_flux_corr flux_corr dense_lc)).
  { unfold add_flux_corr. rewrite Edense, !Forall_map. apply Forall_forall. intros t _.
    rewrite !length_map. reflexivity. }
  destruct (take_in_range my_filters (snd (np.unique_index (lc_wv_effs lc))))
    as [ufilts [Htake Hufilts]].
  { rewrite Hnames, <- Hwv. apply unique_index_in_range. }
  set (wvs := map (fun w => w * 1000.0 + wv_corr) (fst (np.unique_index (lc_wv_effs lc)))).
  destruct (fit_bb_total curve_fit (add_flux_corr flux_corr dense_lc) wvs)
    as [Tarr [Rarr [Terr_arr [Rerr_arr [Hfit Hlens]]]]].
  { revert Hshape. apply Forall_impl. intros d Hd. unfold wvs. rewrite length_map. exact Hd. }
  rewrite Hrows in Hlens.
  pose proof (Forall_inv Hlens) as HT. apply Forall_inv_tail in Hlens.
  pose proof (Forall_inv Hlens) as HR. apply Forall_inv_tail in Hlens.
  pose proof (Forall_inv Hlens) as HTe. apply Forall_inv_tail in Hlens.
  pose proof (Forall_inv Hlens) as HRe. cbv beta in HT, HR, HTe, HRe.
  assert (Hlum : List.length (bolometric_luminosity Rarr Tarr)
                 = List.length (lc_phases lc)).
  { unfold bolometric_luminosity. rewrite length_map, length_combine, HR, HT. lia. }
  assert (Herr : List.length (bolometric_error Rarr Tarr Rerr_arr Terr_arr)
                 = List.length (lc_phases lc)).
  { unfold bolometric_error. rewrite length_map, !length_combine, HR, HT, HRe, HTe. lia. }
  destruct (write_output_shapes lc (add_flux_corr flux_corr dense_lc)
              Tarr Terr_arr Rarr Rerr_arr (bolometric_luminosity Rarr Tarr)
              (bolometric_error Rarr Tarr Rerr_arr Terr_arr)
              my_filters snname outdir nfilts)
    as [columns [Hcount [_ Hwrite]]].
  - intros E. rewrite E in Hrows. destruct (lc_phases lc); [congruence | discriminate].
  - exact Hshape.
  - symmetry. exact Hrows.
  - rewrite Hrows. repeat constructor; assumption.
  - exists ufilts, Tarr, Rarr, Terr_arr, Rerr_arr, columns. cbv zeta.
    split; [exact Hrows |]. split; [exact Htake |]. split.
    { apply Forall2_length in Hufilts. rewrite <- Hufilts.
      unfold nfilts, np.unique, np.unique_index. cbn [fst snd]. rewrite !length_map.
      reflexivity. }
    split; [repeat constructor; assumption |].
    split; [exact Hcount |].
    unfold main. rewrite Hread. cbn [bind]. rewrite Hcls. cbn [bind].
    rewrite Hdense. cbn [bind].
    destruct (np.unique_index (lc_wv_effs lc)) as [uwvs wvind] eqn:Eu.
    cbn [fst snd] in *. rewrite Htake. cbn [bind].
    fold wvs. rewrite Hfit. cbn [bind]. rewrite Hwrite. reflexivity.
Qed.

Lemma class_as_given (env : interpolate_env) (lc : lightcurve) (wv_corr redshift : R)
    (sn_type : string) :
  String.eqb sn_type "test" = false ->
  (if String.eqb sn_type "test" then test env lc wv_corr redshift else Ok sn_type)
  = Ok sn_type.
Proof.
  intros H. rewrite H. reflexivity.
Qed.

(** X20. Once [read_in_photometry] and [interpolate] have returned for a
    light curve with at least one observation and a template class other
    than [test], a run (its plots aside) cannot fail before the [Table]
    call, whatever [curve_fit] does: with as many distinct filter names as distinct
    wavelengths and no name twice in the header, [main] writes the table
    to [outdir + snname + '.txt'], with [1 + 2 nfilts + 6] columns, from
    the dense light curve shifted by [flux_corr] and six arrays of one
    entry per observation. *)
Theorem main_writes_table (env : interpolate_env) (curve_fit : curve_fit2)
    (index : list svo_filter) (rows : list row) (dm redshift start end_ snr : R)
    (sn_type : string) (mean : bool) (snname outdir : string)
    (lc : lightcurve) (wv_corr flux_corr : R) (my_filters : list string)
    (dense_lc : list (list (R * npfloat))) (test_data : list (list R))
    (test_times : list R) :
  read_in_photometry index rows dm redshift start end_ snr
  = Ok (lc, wv_corr, flux_corr, my_filters) ->
  String.eqb sn_type "test" = false ->
  interpolate env lc wv_corr sn_type mean redshift = Ok (dense_lc, test_data, test_times) ->
  lc_phases lc <> [] ->
  List.length (np.unique_str my_filters) = List.length (np.unique (lc_wv_effs lc)) ->
  nodup_str (table_header my_filters) = true ->
  exists r,
    main env curve_fit index rows dm redshift start end_ snr sn_type mean snname outdir = Ok r
    /\ run_lc r = lc
    /\ run_dense_lc r = add_flux_corr flux_corr dense_lc
    /\ List.length (run_ufilts r) = List.length (np.unique (lc_wv_effs lc))
    /\ Forall (fun arr => List.length arr = List.length (lc_phases lc))
              [run_Tarr r; run_Rarr r; run_Terr_arr r; run_Rerr_arr r;
               run_bol_lum r; run_bol_err r]
    /\ tbl_path (run_table r) = String.append outdir (String.append snname ".txt")
    /\ map fst (tbl_columns (run_table r)) = table_header my_filters
    /\ List.length (tbl_columns (run_table r))
       = (1 + 2 * List.length (np.unique (lc_wv_effs lc)) + 6)%nat.
Proof.
  intros Hread Htest Hdense Hne Hnames Hdup.
  destruct (main_after_interpolate env curve_fit index rows dm redshift start end_ snr
              sn_type sn_type mean snname outdir lc wv_corr flux_corr my_filters dense_lc
              test_data test_times Hread
              (class_as_given env lc wv_corr redshift sn_type Htest) Hdense Hne)
    as [ufilts [Tarr [Rarr [Terr_arr [Rerr_arr [columns H]]]]]].
  cbv zeta in H. destruct H as [_ [_ [Hufilts [Hlens [Hcount Hmain]]]]].
  assert (Hlen : List.length columns = List.length (table_header my_filters)).
  { rewrite length_table_header, Hnames. exact Hcount. }
  rewrite (Table_columns _ _ _ Hlen Hdup) in Hmain. cbn [bind] in Hmain.
  destruct (combine_names_columns (table_header my_filters) columns Hlen) as [Hfst Hsnd].
  eexists. split; [exact Hmain |].
  cbn [run_lc run_dense_lc run_ufilts run_Tarr run_Rarr run_Terr_arr run_Rerr_arr
       run_bol_lum run_bol_err run_table tbl_path tbl_columns].
  repeat (split; [first [reflexivity | assumption] |]).
  rewrite <- (length_map snd), Hsnd. exact Hcount.
Qed.

Lemma interpolate_r_then_i (f1 f2 : R) :
  exists dense_lc,
    interpolate wavelength_gp_env (mk_lc [0; 10] [f1; f2] [-0.65; 0.65] [0.1; 0.1] [1400; 1500])
      6850 "0" false 0 = Ok (dense_lc, [], []).
Proof.
  eexists.
  apply (interpolate_separated wavelength_gp_env _ 6850 "0" false 0 (fun _ => 0) [] []
           wavelength_gp).
  - reflexivity.
  - reflexivity.
  - cbn [lc_wv_effs]. unfold np.unique. rewrite unique_index_r_i. exact separated_r_i.
Qed.

Lemma main_writes_table_witness :
  exists r,
    main wavelength_gp_env never_converges example_index r_then_i 0 0 0 200 4
      "0" false "sn" "./products/" = Ok r
    /\ tbl_path (run_table r) = String.append "./products/" (String.append "sn" ".txt")
    /\ List.length (tbl_columns (run_table r)) = 11%nat.
Proof.
  destruct read_r_then_i as [flux_corr [f1 [f2 Hread]]].
  destruct (interpolate_r_then_i f1 f2) as [dense_lc Hdense].
  destruct (main_writes_table wavelength_gp_env never_converges example_index r_then_i
              0 0 0 200 4 "0" false "sn" "./products/" _ _ _ _ _ _ _ Hread eq_refl Hdense)
    as [r [Hmain [_ [_ [_ [_ [Hpath [_ Hcols]]]]]]]].
  - discriminate.
  - cbn [lc_wv_effs]. unfold np.unique. rewrite unique_index_r_i. reflexivity.
  - reflexivity.
  - exists r. split; [exact Hmain |]. split; [exact Hpath |].
    rewrite Hcols. cbn [lc_wv_effs]. unfold np.unique. rewrite unique_index_r_i. reflexivity.
Defined.

(** X21. The dense light curve has a column per distinct wavelength, the
    header a pair of names per distinct filter name. When the two counts
    differ (two filter identifiers with one effective wavelength), a run
    whose photometry was read and interpolated ends in the [ValueError]
    of the [Table] call, and no table is written. *)
Theorem main_name_count_mismatch (env : interpolate_env) (curve_fit : curve_fit2)
    (index : list svo_filter) (rows : list row) (dm redshift start end_ snr : R)
    (sn_type : string) (mean : bool) (snname outdir : string)
    (lc : lightcurve) (wv_corr flux_corr : R) (my_filters : list string)
    (dense_lc : list (list (R * npfloat))) (test_data : list (list R))
    (test_times : list R) :
  read_in_photometry index rows dm redshift start end_ snr
  = Ok (lc, wv_corr, flux_corr, my_filters) ->
  String.eqb sn_type "test" = false ->
  interpolate env lc wv_corr sn_type mean redshift = Ok (dense_lc, test_data, test_times) ->
  lc_phases lc <> [] ->
  List.length (np.unique_str my_filters) <> List.length (np.unique (lc_wv_effs lc)) ->
  exists msg,
    main env curve_fit index rows dm redshift start end_ snr sn_type mean snname outdir
    = Raise (ValueError msg).
Proof.
  intros Hread Htest Hdense Hne Hnames.
  destruct (main_after_interpolate env curve_fit index rows dm redshift start end_ snr
              sn_type sn_type mean snname outdir lc wv_corr flux_corr my_filters dense_lc
              test_data test_times Hread
              (class_as_given env lc wv_corr redshift sn_type Htest) Hdense Hne)
    as [ufilts [Tarr [Rarr [Terr_arr [Rerr_arr [columns H]]]]]].
  cbv zeta in H. destruct H as [_ [_ [_ [_ [Hcount Hmain]]]]].
  rewrite Table_name_count in Hmain.
  - eexists. exact Hmain.
  - rewrite length_table_header, Hcount. lia.
Qed.

Lemma read_twin_rows :
  exists flux_corr f1 f2,
    read_in_photometry twin_index twin_rows 0 0 0 200 4
    = Ok (mk_lc [0; 10] [f1; f2] [0; 0] [0.1; 0.1] [1400; 1300],
          4700, flux_corr, ["g"; "g2"]).
Proof.
  destruct (np_min_ok (map (flux_of twin_index 0 0) twin_rows)) as [m Hm];
    [discriminate |].
  assert (Hkept : snr_kept 4 twin_rows = twin_rows).
  { unfold snr_kept, twin_rows, snr_ok. simpl. Rcompare. reflexivity. }
  assert (Ht0 : np.min (map row_time (snr_kept 4 twin_rows)) = Ok 100).
  { rewrite Hkept. simpl. f_equal. apply Rmin_left. lra. }
  pose proof (read_in_photometry_rows twin_index twin_rows 0 0 0 200 4 m 100) as Hrun.
  cbv zeta in Hrun. rewrite Hkept in Hrun, Ht0.
  assert (Hwc : np.mean (map (fun r => wv_eff_of twin_index r / (1 + 0)) twin_rows) = 4700).
  { unfold twin_rows, wv_eff_of. simpl. rewrite mean_pair. lra. }
  assert (Hfinal : window_kept 0 200 100 twin_rows = twin_rows).
  { unfold window_kept, twin_rows, in_window. simpl. Rcompare. reflexivity. }
  rewrite Hwc, Hfinal in Hrun.
  eexists (m - 1.0), _, _. rewrite Hrun.
  - unfold twin_rows, wv_eff_of, width_eff_of. simpl.
    repeat f_equal; lra.
  - simpl. lia.
  - intros r [<- | [<- | []]]; discriminate.
  - exact Hm.
  - exact Ht0.
Qed.

Lemma unique_index_twin : np.unique_index [0; 0] = ([0], [0%nat]).
Proof.
  unfold np.unique_index. simpl. Rcompare. reflexivity.
Qed.

Lemma interpolate_twin_rows (f1 f2 : R) :
  exists dense_lc,
    interpolate constant_gp_env (mk_lc [0; 10] [f1; f2] [0; 0] [0.1; 0.1] [1400; 1300])
      4700 "0" false 0 = Ok (dense_lc, [], []).
Proof.
  eexists.
  apply (interpolate_separated constant_gp_env _ 4700 "0" false 0 (fun _ => 0) [] []
           constant_gp).
  - reflexivity.
  - reflexivity.
  - cbn [lc_wv_effs]. unfold np.unique. rewrite unique_index_twin.
    unfold separated. repeat constructor.
Qed.

Lemma main_name_count_mismatch_witness :
  exists msg,
    main constant_gp_env never_converges twin_index twin_rows 0 0 0 200 4
      "0" false "sn" "./products/" = Raise (ValueError msg).
Proof.
  destruct read_twin_rows as [flux_corr [f1 [f2 Hread]]].
  destruct (interpolate_twin_rows f1 f2) as [dense_lc Hdense].
  apply (main_name_count_mismatch constant_gp_env never_converges twin_index twin_rows
           0 0 0 200 4 "0" false "sn" "./products/" _ _ _ _ _ _ _ Hread eq_refl Hdense).
  - discriminate.
  - cbn [lc_wv_effs]. unfold np.unique. rewrite unique_index_twin. simpl. lia.
Defined.

(** ** The distance modulus in a run *)

Lemma read_in_photometry_dm_of_zero (index : list svo_filter) (rows : list row)
    (dm redshift start end_ snr : R) (lc : lightcurve) (wv_corr flux_corr : R)
    (my_filters : list string) :
  read_in_photometry index rows 0 redshift start end_ snr
  = Ok (lc, wv_corr, flux_corr, my_filters) ->
  Forall (fun r => 0 < zpt_of index r) rows ->
  -1 < redshift ->
  read_in_photometry index rows dm redshift start end_ snr
  = Ok (lc, wv_corr, dm + flux_corr, my_filters).
Proof.
  intros H0 Hzpt Hred.
  destruct (read_in_photometry_inv _ _ _ _ _ _ _ _ H0) as [Hlen [Hres Hkept]].
  destruct (np_min_ok (map (flux_of index 0 redshift) rows)) as [m Hm].
  { destruct rows; [simpl in Hlen; lia | discriminate]. }
  destruct (np_min_ok (map row_time (snr_kept snr rows))) as [t0 Ht0].
  { destruct (snr_kept snr rows); [congruence | discriminate]. }
  assert (Hflux : forall r, In r rows ->
            flux_of index dm redshift r = dm + flux_of index 0 redshift r).
  { intros r Hr. rewrite Forall_forall in Hzpt. apply flux_of_dm; [apply Hzpt, Hr | exact Hred]. }
  assert (Hm' : np.min (map (flux_of index dm redshift) rows) = Ok (dm + m)).
  { rewrite (map_ext_in _ (fun r => dm + flux_of index 0 redshift r) rows Hflux).
    rewrite <- (map_map (flux_of index 0 redshift) (fun y => dm + y)).
    apply np_min_shift, Hm. }
  rewrite (read_in_photometry_rows index rows 0 redshift start end_ snr m t0
             Hlen Hres Hm Ht0) in H0.
  rewrite (read_in_photometry_rows index rows dm redshift start end_ snr (dm + m) t0
             Hlen Hres Hm' Ht0).
  injection H0 as <- <- <- <-.
  replace (dm + m - 1.0) with (dm + (m - 1.0)) by lra.
  rewrite (map_ext_in (fun r => flux_of index dm redshift r - (dm + (m - 1.0)))
             (fun r => flux_of index 0 redshift r - (m - 1.0))).
  - reflexivity.
  - intros r Hr. unfold window_kept, snr_kept in Hr.
    apply filter_In in Hr. destruct Hr as [Hr _].
    apply filter_In in Hr. destruct Hr as [Hr _].
    rewrite (Hflux r Hr). lra.
Qed.

Lemma add_flux_corr_add (d f : R) (dense_lc : list (list (R * npfloat))) :
  add_flux_corr (d + f) dense_lc = add_flux_corr d (add_flux_corr f dense_lc).
Proof.
  unfold add_flux_corr. rewrite map_map. apply map_ext. intros datapoint.
  rewrite map_map. apply map_ext. intros [x e]. cbn [fst snd]. f_equal. lra.
Qed.

Lemma Table_inv (columns : list (list npfloat)) (names : list string) (path : string)
    (tbl : table) :
  Table columns names path = Ok tbl ->
  List.length columns = List.length names /\ nodup_str names = true.
Proof.
  unfold Table.
  destruct (Nat.eqb_spec (List.length columns) (List.length names)) as [H | H];
    cbn [negb]; [| discriminate].
  destruct (nodup_str names); cbn [negb]; [| discriminate].
  intros _. split; [exact H | reflexivity].
Qed.

(** A run that returns had observations in its window. *)
Lemma main_ok_observations (env : interpolate_env) (curve_fit : curve_fit2)
    (index : list svo_filter) (rows : list row) (dm redshift start end_ snr : R)
    (sn_type : string) (mean : bool) (snname outdir : string) (r : run) :
  main env curve_fit index rows dm redshift start end_ snr sn_type mean snname outdir = Ok r ->
  exists wv_corr flux_corr my_filters cls dense_lc test_data test_times,
    read_in_photometry index rows dm redshift start end_ snr
    = Ok (run_lc r, wv_corr, flux_corr, my_filters)
    /\ (if String.eqb sn_type "test" then test env (run_lc r) wv_corr redshift
        else Ok sn_type) = Ok cls
    /\ interpolate env (run_lc r) wv_corr cls mean redshift
       = Ok (dense_lc, test_data, test_times)
    /\ lc_phases (run_lc r) <> [].
Proof.
  unfold main. intros H.
  apply bind_ok in H. destruct H as [[[[lc wv_corr] flux_corr] my_filters] [Hread H]].
  apply bind_ok in H. destruct H as [cls [Hcls H]].
  apply bind_ok in H. destruct H as [[[dense_lc test_data] test_times] [Hdense H]].
  destruct (np.unique_index (lc_wv_effs lc)) as [uwvs wvind].
  apply bind_ok in H. destruct H as [ufilts [_ H]].
  apply bind_ok in H. destruct H as [[[[Tarr Rarr] Terr_arr] Rerr_arr] [_ H]].
  apply bind_ok in H. destruct H as [tbl [Hwrite H]].
  injection H as <-. cbn [run_lc].
  exists wv_corr, flux_corr, my_filters, cls, dense_lc, test_data, test_times.
  repeat (split; [assumption |]).
  intros Hnone.
  destruct (interpolate_inv _ _ _ _ _ _ _ _ _ Hdense) as [gmean [gp [_ [_ Edense]]]].
  rewrite Hnone in Edense. simpl in Edense. subst dense_lc.
  unfold write_output in Hwrite. simpl in Hwrite. discriminate.
Qed.


Lemma main_r_then_i_returns :
  exists r0,
    main wavelength_gp_env never_converges example_index r_then_i 0 0 0 200 4
      "0" false "sn" "./products/" = Ok r0.
Proof.
  destruct read_r_then_i as [flux_corr [f1 [f2 Hread]]].
  destruct (interpolate_r_then_i f1 f2) as [dense_lc Hdense].
  destruct (main_after_interpolate wavelength_gp_env never_converges example_index r_then_i
              0 0 0 200 4 "0" "0" false "sn" "./products/" _ _ _ _ _ _ _
              Hread eq_refl Hdense)
    as [ufilts [T [R_ [Te [Re [columns A]]]]]]; [discriminate |].
  cbv zeta in A. destruct A as [_ [_ [_ [_ [Hcount Hmain]]]]].
  rewrite Table_columns in Hmain.
  - eexists. exact Hmain.
  - rewrite Hcount. cbn [lc_wv_effs]. unfold np.unique. rewrite unique_index_r_i. reflexivity.
  - reflexivity.
Qed.


(** ** The times of [model] *)

Lemma insert_perm (x : R) (xs : list R) : Permutation (x :: xs) (np.insert x xs).
Proof.
  induction xs as [| y ys IH]; simpl; [apply Permutation_refl |].
  destruct (Rleb x y); [apply Permutation_refl |].
  apply perm_trans with (y :: x :: ys); [apply perm_swap | apply perm_skip, IH].
Qed.

Lemma sorted_perm (xs : list R) : Permutation xs (np.sorted xs).
Proof.
  unfold np.sorted. induction xs as [| x xs IH]; simpl; [apply perm_nil |].
  apply perm_trans with (x :: fold_right np.insert [] xs);
    [apply perm_skip, IH | apply insert_perm].
Qed.

Lemma insert_sorted (x : R) (xs : list R) :
  StronglySorted Rle xs -> StronglySorted Rle (np.insert x xs).
Proof.
  induction 1 as [| y ys Hs IH Hy]; simpl; [repeat constructor |].
  destruct (Rleb x y) eqn:E.
  - apply Rleb_spec in E. constructor; [constructor; assumption |].
    constructor; [exact E |]. revert Hy. apply Forall_impl. intros z Hz. lra.
  - assert (Hyx : y <= x).
    { destruct (Rle_dec x y) as [H | H]; [apply Rleb_true in H; congruence | lra]. }
    constructor; [exact IH |].
    apply (Permutation_Forall (insert_perm x ys)). constructor; assumption.
Qed.

Lemma sorted_sorted (xs : list R) : StronglySorted Rle (np.sorted xs).
Proof.
  unfold np.sorted. induction xs as [| x xs IH]; simpl; [constructor |].
  apply insert_sorted, IH.
Qed.

Lemma sorted_perm_unique (xs ys : list R) :
  StronglySorted Rle xs -> StronglySorted Rle ys -> Permutation xs ys -> xs = ys.
Proof.
  intros Hx. revert ys. induction Hx as [| x xs Hs IH Hall]; intros ys Hy Hp.
  - apply Permutation_nil in Hp. symmetry. exact Hp.
  - destruct Hy as [| y ys Hys Hally].
    + apply Permutation_sym, Permutation_nil in Hp. discriminate.
    + assert (Hxy : x = y).
      { assert (H1 : In x (y :: ys)) by (apply (Permutation_in _ Hp); left; reflexivity).
        assert (H2 : In y (x :: xs))
          by (apply (Permutation_in _ (Permutation_sym Hp)); left; reflexivity).
        rewrite Forall_forall in Hall, Hally.
        destruct H1 as [H1 | H1]; [symmetry; exact H1 |].
        destruct H2 as [H2 | H2]; [exact H2 |].
        apply Rle_antisym; [apply Hall, H2 | apply Hally, H1]. }
      subst y. f_equal. apply IH; [exact Hys |].
      apply (Permutation_cons_inv Hp).
Qed.

(** X23. [model] sorts its times (line 280): handed the times of the
    data in any order, it returns the template at the times in
    non-decreasing order, so the [i]-th value belongs to the [i]-th
    earliest time and not to the [i]-th observation. *)
Theorem model_follows_sorted_times (template_to_fit : R -> R -> R)
    (time ascending_time : list R) (filt A t_c t_s : R) :
  Permutation time ascending_time ->
  StronglySorted Rle ascending_time ->
  model template_to_fit time filt A t_c t_s
  = map (fun t => template_to_fit (t * 1 / t_s + t_c) filt + A) ascending_time.
Proof.
  intros Hperm Hsorted. unfold model. rewrite map_map.
  rewrite (sorted_perm_unique (np.sorted time) ascending_time).
  - reflexivity.
  - apply sorted_sorted.
  - exact Hsorted.
  - apply perm_trans with time; [apply Permutation_sym, sorted_perm | exact Hperm].
Qed.

Lemma model_follows_sorted_times_witness :
  model (fun t _ => t) [2; 0; 1] 4700 20 0 1
  = map (fun t => t * 1 / 1 + 0 + 20) [0; 1; 2].
Proof.
  apply (model_follows_sorted_times (fun t _ => t) [2; 0; 1] [0; 1; 2] 4700 20 0 1).
  - apply perm_trans with [0; 2; 1]; [apply perm_swap | apply perm_skip, perm_swap].
  - repeat constructor; lra.
Defined.

(** ** The template samples of [interpolate] *)

Lemma length_arange (a b : Z) : List.length (arange a b) = Z.to_nat (b - a).
Proof.
  unfold arange. rewrite length_map, length_seq. reflexivity.
Qed.

Lemma nth_error_arange (a b : Z) (k : nat) :
  (k < Z.to_nat (b - a))%nat ->
  nth_error (arange a b) k = Some (IZR (a + Z.of_nat k)).
Proof.
  intros Hk. unfold arange.
  rewrite nth_error_map, (nth_error_nth' _ 0%nat) by (rewrite length_seq; exact Hk).
  rewrite seq_nth by exact Hk. reflexivity.
Qed.

(** X24. With a template as mean function (lines 395-413), a dense
    light curve is only returned after [generate_template] and
    [fit_template] returned; the sample times for the plots are then the
    integers from [round(min(times))] up to, and without,
    [round(max(times))], and there is one row of samples per filter: the
    template at the stretched and shifted sample time and the filter's
    wavelength in Angstrom, plus the fitted offset. *)
Theorem interpolate_template_samples (env : interpolate_env) (lc : lightcurve)
    (wv_corr : R) (sn_type : string) (z : R)
    (dense_lc : list (list (R * npfloat))) (test_y : list (list R)) (test_times : list R) :
  interpolate env lc wv_corr sn_type true z = Ok (dense_lc, test_y, test_times) ->
  lc_wv_effs lc <> [] ->
  let ufilts_in_angstrom := map (fun u => u * 1000.0 + wv_corr) (np.unique (lc_wv_effs lc)) in
  exists template f_stretch t_shift t_stretch lo hi,
    env_generate_template env ufilts_in_angstrom sn_type = Ok template
    /\ fit_template (env_curve_fit env) ufilts_in_angstrom template (lc_wv_effs lc) wv_corr
         (lc_fluxes lc) (lc_phases lc) (lc_errs lc) z false true
       = Ok (Params f_stretch t_shift t_stretch)
    /\ np.min (lc_phases lc) = Ok lo
    /\ np.max (lc_phases lc) = Ok hi
    /\ List.length test_times = Z.to_nat (py_round hi - py_round lo)
    /\ (forall k, (k < List.length test_times)%nat ->
          nth_error test_times k = Some (IZR (py_round lo + Z.of_nat k)))
    /\ test_y
       = map (fun w => map (fun t => template (t * 1 / t_stretch + t_shift) w + f_stretch)
                           test_times)
             ufilts_in_angstrom.
Proof.
  intros Hrun Hne wvs.
  destruct (interpolate_inv _ _ _ _ _ _ _ _ _ Hrun) as [mean [gp [Hmean _]]].
  unfold mean_function in Hmean. fold wvs in Hmean.
  apply bind_ok in Hmean. destruct Hmean as [template [Htemplate Hmean]].
  apply bind_ok in Hmean. destruct Hmean as [out [Hfit Hmean]].
  destruct out as [? ? ? ? | ? | | f_stretch t_shift t_stretch]; try discriminate.
  apply bind_ok in Hmean. destruct Hmean as [[ty tt] [Hsamples Hmean]].
  injection Hmean as <- <- <-.
  unfold template_samples in Hsamples.
  destruct wvs as [| w ws] eqn:Ewvs.
  { exfalso. apply Hne. unfold wvs in Ewvs. apply map_eq_nil in Ewvs.
    destruct (lc_wv_effs lc) as [| u us]; [reflexivity |].
    assert (Hin : In u (np.unique (u :: us))) by (apply unique_In; left; reflexivity).
    rewrite Ewvs in Hin. destruct Hin. }
  rewrite <- Ewvs in *.
  apply bind_ok in Hsamples. destruct Hsamples as [hi [Hhi Hsamples]].
  apply bind_ok in Hsamples. destruct Hsamples as [lo [Hlo Hsamples]].
  injection Hsamples as <- <-.
  exists template, f_stretch, t_shift, t_stretch, lo, hi.
  split; [exact Htemplate |]. split; [exact Hfit |].
  split; [exact Hlo |]. split; [exact Hhi |].
  split; [apply length_arange |]. split; [| reflexivity].
  intros k Hk. rewrite length_arange in Hk. apply nth_error_arange, Hk.
Qed.

Lemma mean_function_far_filters :
  exists mean test_y test_times,
    mean_function constant_gp_env far_filters_lc 5450 "1a" true 0
    = Ok (mean, test_y, test_times).
Proof.
  unfold mean_function. rewrite unique_far_filters.
  cbn [constant_gp_env env_generate_template env_curve_fit bind far_filters_lc
       lc_phases lc_fluxes lc_wv_effs lc_errs map].
  unfold fit_template, fit_one_filter, fit_flat, flat_template, chi_square, model.
  Reval. rewrite !mean_single. Reval.
  eexists _, _, _. reflexivity.
Qed.

Lemma interpolate_far_filters_template :
  exists dense_lc test_y test_times,
    interpolate constant_gp_env far_filters_lc 5450 "1a" true 0
    = Ok (dense_lc, test_y, test_times).
Proof.
  destruct mean_function_far_filters as [mean [test_y [test_times Hmean]]].
  eexists _, test_y, test_times.
  apply (interpolate_separated constant_gp_env far_filters_lc 5450 "1a" true 0
           mean test_y test_times constant_gp).
  - exact Hmean.
  - reflexivity.
  - unfold separated. rewrite unique_far_filters.
    repeat constructor. unfold epsilon, Rabs.
    destruct (Rcase_abs (-0.75 - 0.75)); lra.
Qed.

Lemma interpolate_template_samples_witness :
  exists dense_lc test_y test_times template f_stretch t_shift t_stretch lo hi,
    interpolate constant_gp_env far_filters_lc 5450 "1a" true 0
    = Ok (dense_lc, test_y, test_times)
    /\ np.min (lc_phases far_filters_lc) = Ok lo
    /\ np.max (lc_phases far_filters_lc) = Ok hi
    /\ List.length test_times = Z.to_nat (py_round hi - py_round lo)
    /\ test_y
       = map (fun w => map (fun t => template (t * 1 / t_stretch + t_shift) w + f_stretch)
                           test_times)
             (map (fun u => u * 1000.0 + 5450) (np.unique (lc_wv_effs far_filters_lc))).
Proof.
  destruct interpolate_far_filters_template as [dense_lc [test_y [test_times Hrun]]].
  destruct (interpolate_template_samples constant_gp_env far_filters_lc 5450 "1a" 0
              dense_lc test_y test_times Hrun)
    as [template [f_stretch [t_shift [t_stretch [lo [hi H]]]]]].
  - discriminate.
  - destruct H as [_ [_ [Hlo [Hhi [Hlen [_ Hy]]]]]].
    exists dense_lc, test_y, test_times, template, f_stretch, t_shift, t_stretch, lo, hi.
    repeat split; assumption.
Defined.

(** ** The name of the supernova and the output directory *)

Lemma split_nonempty (c : ascii) (s : string) : split c s <> [].
Proof.
  induction s as [| a s IH]; simpl; [discriminate |].
  destruct (Ascii.eqb a c); [discriminate |].
  destruct (split c s); discriminate.
Qed.

Lemma split_no_separator (c : ascii) (s : string) : occurs c s = false -> split c s = [s].
Proof.
  induction s as [| a s IH]; simpl; [reflexivity |].
  destruct (Ascii.eqb a c); simpl; [discriminate |].
  intros H. rewrite (IH H). reflexivity.
Qed.

Lemma split_app (c : ascii) (s t : string) :
  split c (String.append s (String c t)) = (split c s ++ split c t)%list.
Proof.
  induction s as [| a s IH]; simpl.
  - rewrite Ascii.eqb_refl. reflexivity.
  - destruct (Ascii.eqb a c); [rewrite IH; reflexivity |].
    rewrite IH. destruct (split c s) as [| w ws] eqn:E; [| reflexivity].
    destruct (split_nonempty c s E).
Qed.

Lemma join_cons_char (c a : ascii) (w : string) (ws : list string) :
  join c (String a w :: ws) = String a (join c (w :: ws)).
Proof.
  destruct ws; reflexivity.
Qed.

Lemma join_split (c : ascii) (s : string) : join c (split c s) = s.
Proof.
  induction s as [| a s IH]; [reflexivity |].
  cbn [split]. destruct (Ascii.eqb_spec a c) as [-> | Hne].
  - destruct (split c s) as [| w ws] eqn:E; [destruct (split_nonempty c s E) |].
    cbn [join String.append]. cbn [join] in IH. rewrite IH. reflexivity.
  - destruct (split c s) as [| w ws] eqn:E; [destruct (split_nonempty c s E) |].
    rewrite join_cons_char, IH. reflexivity.
Qed.

Lemma last_item_app {A : Type} (parts : list A) (x : A) :
  last_item (parts ++ [x]) = Ok x.
Proof.
  unfold last_item. rewrite rev_app_distr. reflexivity.
Qed.

Lemma string_app_assoc (s t u : string) :
  String.append (String.append s t) u = String.append s (String.append t u).
Proof.
  induction s as [| a s IH]; simpl; [reflexivity | rewrite IH; reflexivity].
Qed.

(** X25. Line 783 on a path [dir + name + '.' + ext], where [dir] is
    empty or ends with a slash, [name] has no slash and [ext] no dot:
    the name of the supernova is [name], whatever dots and slashes [dir]
    has and whatever dots [name] has. *)
Theorem snname_is_base_name (dir name ext : string) :
  dir = EmptyString \/ (exists d, dir = String.append d "/") ->
  occurs "/" name = false ->
  occurs "." ext = false ->
  snname_of (String.append dir (String.append name (String "." ext))) = Ok name.
Proof.
  intros Hdir Hname Hext. unfold snname_of.
  rewrite <- string_app_assoc, split_app, (split_no_separator "." ext Hext).
  rewrite removelast_last, join_split.
  destruct Hdir as [-> | [d ->]].
  - simpl String.append. rewrite (split_no_separator "/" name Hname). reflexivity.
  - rewrite string_app_assoc. simpl String.append.
    rewrite split_app, (split_no_separator "/" name Hname). apply last_item_app.
Qed.

Lemma snname_is_base_name_witness :
  snname_of (String.append "./extrabol/example/" (String.append "Gaia16apd" (String "." "dat")))
  = Ok "Gaia16apd".
Proof.
  apply (snname_is_base_name "./extrabol/example/" "Gaia16apd" "dat").
  - right. exists "./extrabol/example". reflexivity.
  - reflexivity.
  - reflexivity.
Defined.

(** X26. Line 783 on a path without a dot: nothing is left of it, the
    name of the supernova is the empty string (and the table goes to
    [outdir + '.txt']). *)
Theorem snname_without_extension (snfile : string) :
  occurs "." snfile = false ->
  snname_of snfile = Ok EmptyString.
Proof.
  intros H. unfold snname_of. rewrite (split_no_separator "." snfile H). reflexivity.
Qed.

Lemma snname_without_extension_witness : snname_of "data/sn2011fe" = Ok EmptyString.
Proof.
  apply (snname_without_extension "data/sn2011fe"). reflexivity.
Defined.

Lemma last_char_app (s : string) (a : ascii) :
  last_char (String.append s (String a EmptyString)) = Ok a.
Proof.
  induction s as [| b s IH]; [reflexivity |].
  cbn [String.append last_char]. rewrite IH.
  destruct (String.append s (String a EmptyString)) eqn:E; [| reflexivity].
  destruct s; discriminate.
Qed.

Lemma last_char_ok (s : string) :
  s <> EmptyString ->
  exists s' a, s = String.append s' (String a EmptyString) /\ last_char s = Ok a.
Proof.
  induction s as [| b s IH]; [congruence |]. intros _.
  destruct s as [| b' s'].
  - exists EmptyString, b. split; reflexivity.
  - destruct IH as [s0 [a [E Ha]]]; [discriminate |].
    exists (String b s0), a. split.
    + cbn [String.append]. rewrite <- E. reflexivity.
    + cbn [last_char]. cbn [last_char] in Ha. exact Ha.
Qed.

(** X27. Lines 777-778: an output directory other than the empty string
    is left alone when it ends with a slash and gets one appended when
    it does not, so the result ends with a slash and a second pass
    changes nothing; the empty string raises [IndexError]. *)
Theorem outdir_with_slash_ends_in_slash (outdir : string) :
  (outdir <> EmptyString ->
   exists dir,
     outdir_with_slash outdir = Ok dir
     /\ last_char dir = Ok "/"%char
     /\ (dir = outdir \/ (dir = String.append outdir "/" /\ last_char outdir <> Ok "/"%char))
     /\ outdir_with_slash dir = Ok dir)
  /\ (outdir = EmptyString ->
      outdir_with_slash outdir = Raise (IndexError "string index out of range")).
Proof.
  split.
  - intros Hne. destruct (last_char_ok outdir Hne) as [s' [a [E Ha]]].
    unfold outdir_with_slash at 1. rewrite Ha. cbn [bind].
    destruct (Ascii.eqb_spec a "/") as [-> | Hslash]; cbn [negb].
    + exists outdir. split; [reflexivity |]. split; [exact Ha |].
      split; [left; reflexivity |].
      unfold outdir_with_slash. rewrite Ha. reflexivity.
    + exists (String.append outdir "/"). split; [reflexivity |].
      split; [apply last_char_app |]. split.
      * right. split; [reflexivity |]. congruence.
      * unfold outdir_with_slash. rewrite last_char_app. reflexivity.
  - intros ->. reflexivity.
Qed.

(** ** [generate_template] *)

Lemma chop_ends_where (filter_wv temp_wavelength : list R) (lo hi : R) (i : nat) :
  np.min filter_wv = Ok lo ->
  np.max filter_wv = Ok hi ->
  chop_ends filter_wv temp_wavelength i
  = Ok (np.where_ (fun w => Rltb w hi && Rltb lo w) temp_wavelength i).
Proof.
  intros Hlo Hhi. revert i.
  induction temp_wavelength as [| w ws IH]; intros i; simpl; [reflexivity |].
  rewrite Hhi. cbn [bind]. rewrite (IH (S i)).
  destruct (Rltb w hi); cbn [bind andb].
  - rewrite Hlo. cbn [bind]. reflexivity.
  - reflexivity.
Qed.

Lemma select3_where (g : sample -> R) (p : R -> bool) (samples : list sample) :
  select3 (np.where_ p (map g samples) 0)
    (map s_time samples) (map s_wavelength samples) (map s_f_lambda samples)
  = let kept := filter (fun s => p (g s)) samples in
    Ok (map s_time kept, map s_wavelength kept, map s_f_lambda kept).
Proof.
  unfold select3. rewrite !take_where. reflexivity.
Qed.

Lemma mapM_ext {A B : Type} (f g : A -> result B) (xs : list A) :
  (forall x, f x = g x) -> mapM f xs = mapM g xs.
Proof.
  intros H. induction xs as [| x xs IH]; simpl; [reflexivity |].
  rewrite H, IH. reflexivity.
Qed.

(** [generate_template] on a file given by its samples: the grid has a
    row per distinct time of the samples kept, filled with the fluxes of
    the samples at that time in the order of the file. *)
Lemma generate_template_samples
    (np_load : string -> result template_file)
    (RectBivariateSpline : list R -> list R -> list (list npfloat) -> result (R -> R -> R))
    (filter_wv : list R) (sn_type : string) (samples : list sample) (lo hi : R) :
  np_load (String.append "./extrabol/template/smoothed_sn" (String.append sn_type ".npz"))
  = Ok (file_of_samples samples) ->
  np.min filter_wv = Ok lo ->
  np.max filter_wv = Ok hi ->
  let kept := thinned lo hi samples in
  let temp_times_u := np.unique (map s_time kept) in
  let temp_wavelength_u := np.unique (map s_wavelength kept) in
  generate_template np_load RectBivariateSpline filter_wv sn_type
  = (rows <- mapM (fun t => assign_column (List.length temp_wavelength_u)
                              (map s_f_lambda (at_time t kept)))
                  temp_times_u ;;
     RectBivariateSpline temp_times_u temp_wavelength_u
       (map (log_row temp_wavelength_u) rows)).
Proof.
  intros Hload Hlo Hhi kept temp_times_u temp_wavelength_u.
  unfold generate_template. rewrite Hload. cbn [bind].
  unfold file_of_samples. cbn [tf_time tf_wavelength tf_f_lambda].
  rewrite (chop_ends_where _ _ lo hi 0%nat Hlo Hhi). cbn [bind].
  rewrite (select3_where s_wavelength (fun w => Rltb w hi && Rltb lo w)). cbv zeta. cbn [bind].
  rewrite (select3_where s_time (fun t => Reqb (fmod t 2) 0)). cbv zeta. cbn [bind].
  rewrite (select3_where s_wavelength (fun w => Reqb (fmod w 20) 0)). cbv zeta. cbn [bind].
  rewrite (select3_where s_time (fun t => Rleb 1 t)). cbv zeta. cbn [bind].
  fold (thinned lo hi samples). fold kept. fold temp_times_u. fold temp_wavelength_u.
  rewrite (mapM_ext _ (fun t => assign_column (List.length temp_wavelength_u)
                                  (map s_f_lambda (at_time t kept)))).
  - reflexivity.
  - intros t. unfold grid_row. rewrite take_where. reflexivity.
Qed.

Lemma assign_column_length {A : Type} (n : nat) (vals out : list A) :
  assign_column n vals = Ok out -> List.length out = n.
Proof.
  unfold assign_column.
  destruct (Nat.eqb_spec (List.length vals) n) as [H | H].
  - intros E. injection E as <-. exact H.
  - destruct vals as [| v [| v' vals]]; try discriminate.
    intros E. injection E as <-. apply repeat_length.
Qed.

Lemma length_log_row (temp_wavelength_u row : list R) :
  List.length row = List.length temp_wavelength_u ->
  List.length (log_row temp_wavelength_u row) = List.length temp_wavelength_u.
Proof.
  intros H. unfold log_row. rewrite length_map, length_combine, H. apply Nat.min_id.
Qed.

Lemma Reqb_spec (x y : R) : Reqb x y = true <-> x = y.
Proof.
  unfold Reqb. destruct (Req_dec_T x y); split; intros; congruence.
Qed.

Lemma thinned_In (lo hi : R) (samples : list sample) (s : sample) :
  In s (thinned lo hi samples) ->
  In s samples
  /\ lo < s_wavelength s < hi
  /\ fmod (s_time s) 2 = 0
  /\ fmod (s_wavelength s) 20 = 0
  /\ 1 <= s_time s.
Proof.
  unfold thinned. intros H.
  apply filter_In in H. destruct H as [H H4].
  apply filter_In in H. destruct H as [H H3].
  apply filter_In in H. destruct H as [H H2].
  apply filter_In in H. destruct H as [H H1].
  apply andb_true_iff in H1. destruct H1 as [Hhi Hlo].
  apply Rltb_spec in Hhi. apply Rltb_spec in Hlo.
  apply Reqb_spec in H2. apply Reqb_spec in H3. apply Rleb_spec in H4.
  repeat split; assumption.
Qed.

Lemma fmod_multiple (x m : R) : fmod x m = 0 -> exists k : Z, x = m * IZR k.
Proof.
  unfold fmod. intros H. exists (up (x / m) - 1)%Z. lra.
Qed.


Lemma fmod_eval (x m : R) (k : Z) (r : R) :
  0 < m -> x = m * IZR k + r -> 0 <= r < m -> fmod x m = r.
Proof.
  intros Hm Hx Hr. unfold fmod.
  assert (Hq : x / m = IZR k + r / m) by (subst x; field; lra).
  assert (Hfrac : 0 <= r / m < 1).
  { split.
    - apply Rmult_le_reg_r with m; [exact Hm |].
      unfold Rdiv. rewrite Rmult_assoc, Rinv_l by lra. lra.
    - apply Rmult_lt_reg_r with m; [exact Hm |].
      unfold Rdiv. rewrite Rmult_assoc, Rinv_l by lra. lra. }
  assert (Hup : up (x / m) = (k + 1)%Z).
  { symmetry. apply tech_up; rewrite plus_IZR, Hq; lra. }
  rewrite Hup. replace (k + 1 - 1)%Z with k by lia. lra.
Qed.

Lemma thinned_small_template :
  thinned 4690 4750 small_template
  = [mk_sample 2 4700 1; mk_sample 2 4720 10; mk_sample 2 4740 100;
     mk_sample 4 4700 2; mk_sample 4 4720 20; mk_sample 4 4740 200].
Proof.
  unfold thinned, small_template.
  cbn [filter s_wavelength s_time]. Rcompare. cbn [andb filter s_wavelength s_time].
  rewrite (fmod_eval 0 2 0 0), (fmod_eval 2 2 1 0), (fmod_eval 3 2 1 1),
    (fmod_eval 4 2 2 0) by lra.
  Rcompare. cbn [filter s_wavelength s_time].
  rewrite (fmod_eval 4700 20 235 0), (fmod_eval 4710 20 235 10),
    (fmod_eval 4720 20 236 0), (fmod_eval 4740 20 237 0) by lra.
  Rcompare. cbn [filter s_wavelength s_time].
  Rcompare. reflexivity.
Qed.

Lemma unique_small_times : np.unique [2; 2; 2; 4; 4; 4] = [2; 4].
Proof.
  unfold np.unique, np.unique_index. Reval. reflexivity.
Qed.

Lemma unique_small_wavelengths :
  np.unique [4700; 4720; 4740; 4700; 4720; 4740] = [4700; 4720; 4740].
Proof.
  unfold np.unique, np.unique_index. Reval. reflexivity.
Qed.

Lemma generate_template_small_template :
  generate_template load_small_template constant_spline [4690; 4750] "1a"
  = Ok flat_template.
Proof.
  rewrite (generate_template_samples load_small_template constant_spline [4690; 4750] "1a"
             small_template 4690 4750).
  - cbv zeta. rewrite thinned_small_template.
    cbn [map s_time s_wavelength]. rewrite unique_small_times, unique_small_wavelengths.
    unfold at_time. Reval. reflexivity.
  - reflexivity.
  - simpl. f_equal. apply Rmin_left. lra.
  - simpl. f_equal. apply Rmax_right. lra.
Qed.


Lemma thinned_single_filter (m : R) (samples : list sample) : thinned m m samples = [].
Proof.
  unfold thinned.
  assert (H : filter (fun s => Rltb (s_wavelength s) m && Rltb m (s_wavelength s)) samples
              = []).
  { induction samples as [| s samples IH]; simpl; [reflexivity |].
    destruct (Rltb (s_wavelength s) m) eqn:E1; cbn [andb]; [| exact IH].
    apply Rltb_spec in E1. rewrite Rltb_false by lra. exact IH. }
  rewrite H. reflexivity.
Qed.

(** X29. With one filter, or filters of one wavelength, no sample of the
    template lies strictly between the smallest and the largest filter
    wavelength: whatever the file holds, [RectBivariateSpline] is called
    with empty axes and an empty grid. *)
Theorem generate_template_single_filter
    (np_load : string -> result template_file)
    (RectBivariateSpline : list R -> list R -> list (list npfloat) -> result (R -> R -> R))
    (filter_wv : list R) (sn_type : string) (samples : list sample) (wv : R) :
  np_load (String.append "./extrabol/template/smoothed_sn" (String.append sn_type ".npz"))
  = Ok (file_of_samples samples) ->
  np.min filter_wv = Ok wv ->
  np.max filter_wv = Ok wv ->
  generate_template np_load RectBivariateSpline filter_wv sn_type
  = RectBivariateSpline [] [] [].
Proof.
  intros Hload Hlo Hhi.
  rewrite (generate_template_samples np_load RectBivariateSpline filter_wv sn_type
             samples wv wv Hload Hlo Hhi).
  cbv zeta. rewrite thinned_single_filter. reflexivity.
Qed.

Lemma generate_template_single_filter_witness :
  generate_template load_small_template constant_spline [4700] "1a"
  = constant_spline [] [] [].
Proof.
  apply (generate_template_single_filter load_small_template constant_spline [4700] "1a"
           small_template 4700).
  - reflexivity.
  - reflexivity.
  - reflexivity.
Defined.

(** X30. When the samples kept list, at every time, the wavelengths of
    the grid in ascending order, the grid handed to
    [RectBivariateSpline] has at time [t] and wavelength [w] the entry
    [2.5 log10(w^2 f)] of the sample [(t, w, f)]: the rows follow the
    ascending times, the entries of a row the samples of that time in
    the order of the file. *)
Theorem generate_template_rectangular_grid
    (np_load : string -> result template_file)
    (RectBivariateSpline : list R -> list R -> list (list npfloat) -> result (R -> R -> R))
    (filter_wv : list R) (sn_type : string) (samples : list sample) (lo hi : R) :
  np_load (String.append "./extrabol/template/smoothed_sn" (String.append sn_type ".npz"))
  = Ok (file_of_samples samples) ->
  np.min filter_wv = Ok lo ->
  np.max filter_wv = Ok hi ->
  (forall t, In t (np.unique (map s_time (thinned lo hi samples))) ->
     map s_wavelength (at_time t (thinned lo hi samples))
     = np.unique (map s_wavelength (thinned lo hi samples))) ->
  generate_template np_load RectBivariateSpline filter_wv sn_type
  = RectBivariateSpline
      (np.unique (map s_time (thinned lo hi samples)))
      (np.unique (map s_wavelength (thinned lo hi samples)))
      (map (fun t =>
              map (fun s => npf.mul (Fin 2.5)
                              (npf.log10 (Fin (s_wavelength s ^ 2 * s_f_lambda s))))
                  (at_time t (thinned lo hi samples)))
           (np.unique (map s_time (thinned lo hi samples)))).
Proof.
  intros Hload Hlo Hhi Hrect.
  rewrite (generate_template_samples np_load RectBivariateSpline filter_wv sn_type
             samples lo hi Hload Hlo Hhi).
  cbv zeta.
  set (kept := thinned lo hi samples) in *.
  set (temp_times_u := np.unique (map s_time kept)) in *.
  set (temp_wavelength_u := np.unique (map s_wavelength kept)) in *.
  rewrite (mapM_ok _ (fun t => map s_f_lambda (at_time t kept))).
  - cbn [bind]. f_equal. rewrite map_map. apply map_ext_in. intros t Ht.
    unfold log_row. rewrite <- (Hrect t Ht), combine_map_same, map_map. reflexivity.
  - intros t Ht. apply assign_column_same.
    rewrite length_map, <- (Hrect t Ht), length_map. reflexivity.
Qed.

Lemma generate_template_rectangular_grid_witness :
  generate_template load_small_template constant_spline [4690; 4750] "1a"
  = constant_spline
      (np.unique (map s_time (thinned 4690 4750 small_template)))
      (np.unique (map s_wavelength (thinned 4690 4750 small_template)))
      (map (fun t =>
              map (fun s => npf.mul (Fin 2.5)
                              (npf.log10 (Fin (s_wavelength s ^ 2 * s_f_lambda s))))
                  (at_time t (thinned 4690 4750 small_template)))
           (np.unique (map s_time (thinned 4690 4750 small_template)))).
Proof.
  apply (generate_template_rectangular_grid load_small_template constant_spline
           [4690; 4750] "1a" small_template 4690 4750).
  - reflexivity.
  - simpl. f_equal. apply Rmin_left. lra.
  - simpl. f_equal. apply Rmax_right. lra.
  - rewrite thinned_small_template. cbn [map s_time s_wavelength].
    rewrite unique_small_times, unique_small_wavelengths.
    intros t [<- | [<- | []]]; unfold at_time; Reval; reflexivity.
Defined.
